(** * Position lifecycle and risk sizing of the trading bot

    A shallow embedding of the capital-accounting core of the repository:
    [risk.py] (RiskManager), [core.py] (ExchangeClient.round_qty),
    [modules/portfolio.py] (PortfolioManager), [modules/exit.py]
    (ExitManager), [strategies.py] (StrategyManager) and [backtest.py]
    (Backtester).

    Numbers.  The program computes with Python floats.  They are embedded
    as exact rationals [Q]: every arithmetic step is the one of the source,
    without the rounding error of binary64.  Comparisons are the source's
    comparisons.  Float division by zero raises in Python and is modelled
    by an explicit [Raise ZeroDivisionError]. *)

From Stdlib Require Import QArith Qabs Qminmax Qround ZArith Lia Lqa List Bool.
From stdpp Require Import gmap strings pretty.

Open Scope Q_scope.

(** ** Python results *)

Inductive exn : Type :=
| ZeroDivisionError
| TypeError
| AttributeError
| KeyError
| NetworkError.

Inductive py_result (A : Type) : Type :=
| Ok (a : A)
| Raise (e : exn).
Arguments Ok {A} a.
Arguments Raise {A} e.

(** ** Float helpers *)
Module PyNum.

Definition leb (a b : Q) : bool := Qle_bool a b.
Definition ltb (a b : Q) : bool := negb (Qle_bool b a).
Definition geb (a b : Q) : bool := Qle_bool b a.
Definition gtb (a b : Q) : bool := negb (Qle_bool a b).
Definition eqb (a b : Q) : bool := Qeq_bool a b.

(** [max(a, b)] and [min(a, b)] of Python return the first argument on a
    tie, as [Qmax] and [Qmin] do. *)
Definition max (a b : Q) : Q := Qmax a b.
Definition min (a b : Q) : Q := Qmin a b.
Definition abs (a : Q) : Q := Qabs a.

(** [a / b] on floats. *)
Definition div (a b : Q) : py_result Q :=
  if eqb b 0 then Raise ZeroDivisionError else Ok (a / b).

(** [int(x)]: truncation toward zero *)
Definition int (q : Q) : Z := Z.quot (Qnum q) (Z.pos (Qden q)).

Definition sum (l : list Q) : Q := fold_left Qplus l 0.

(** [np.mean] / [Series.mean] of a non-empty sequence. *)
Definition mean (l : list Q) : Q := sum l / inject_Z (Z.of_nat (length l)).

(** Round half to even, the rounding of [f"{x:.Nf}"]. *)
Definition round_half_even (q : Q) : Z :=
  let f := Qfloor q in
  let r := q - inject_Z f in
  if ltb r (1 # 2) then f
  else if ltb (1 # 2) r then (f + 1)%Z
  else if Z.even f then f else (f + 1)%Z.

Definition pow10 (n : nat) : Q := inject_Z (10 ^ Z.of_nat n).

(** [float(f"{q:.{n}f}")] *)
Definition round_dec (n : nat) (q : Q) : Q :=
  inject_Z (round_half_even (q * pow10 n)) / pow10 n.

(** [l[-n:]] *)
Definition last_n {A} (n : nat) (l : list A) : list A :=
  match n with
  | O => l
  | _ => skipn (length l - n) l
  end.

(** [l[-n]] for [1 <= n <= len(l)] *)
Definition nth_last (n : nat) (l : list Q) : Q :=
  nth (length l - n) l 0.

End PyNum.

(** ** core.py : ExchangeClient.round_qty *)
Module Exchange.

(** The LOT_SIZE entries of [_symbol_filters.get(sym, {})]; a missing
    entry reads as [0.0] ([f.get("stepSize", 0.0)]). *)
Record SymbolFilters : Type := {
  stepSize : Q;
  minQty : Q
}.

(** [int(round(-math.log10(step)))] for [0 < step < 1]: the [k] with
    [10^-(k+1/2) < step < 10^-(k-1/2)], found by comparing [step^2] with
    odd powers of ten. *)
Fixpoint neg_log10_round_from (fuel : nat) (k : nat) (step : Q) : nat :=
  match fuel with
  | O => k
  | S fuel' =>
      if PyNum.ltb (1 / PyNum.pow10 (2 * k + 1)) (step * step) then k
      else neg_log10_round_from fuel' (S k) step
  end.

Definition precision_of (step : Q) : nat :=
  if PyNum.ltb step 1
  then neg_log10_round_from (S (Pos.to_nat (Pos.size (Qden step)))) 0 step
  else O.

Definition round_qty (f : SymbolFilters) (qty : Q) : Q :=
  let step := stepSize f in
  let min_qty := minQty f in
  if PyNum.leb qty 0 then 0
  else
    let qty :=
      if PyNum.ltb 0 step then
        let precision := precision_of step in
        let rounded := inject_Z (Qfloor (qty / step)) * step in
        PyNum.round_dec precision rounded
      else qty in
    if negb (PyNum.eqb min_qty 0) && PyNum.ltb qty min_qty then 0
    else qty.

End Exchange.

(** ** risk.py : RiskManager *)
Module Risk.

(** The attributes set by [__init__] (percentages already divided by 100)
    with the two fields of the daily guard. *)
Record RiskManager : Type := {
  per_trade_alloc_pct : Q;
  per_trade_risk_pct : Q;
  take_profit_pct : Q;
  stop_loss_pct : Q;
  taker_fee_pct : Q;
  max_daily_drawdown_pct : Q;
  _day_anchor_ts : Q;
  _day_start_equity : option Q
}.

(** [float("inf")] or a finite float *)
Inductive xfloat : Type :=
| Fin (q : Q)
| Inf.

Definition xmin (a : xfloat) (b : Q) : Q :=
  match a with
  | Inf => b
  | Fin q => PyNum.min q b
  end.

(** [_round_qty]: [rounder] is [getattr(self.exchange, "round_qty", None)]
    applied to the symbol, [None] when the exchange has no such callable;
    [symbol] is [None] or a string. *)
Definition _round_qty (rounder : option (string -> Q -> py_result Q))
           (symbol : option string) (qty : Q) : Q :=
  if PyNum.leb qty 0 then 0
  else
    match rounder, symbol with
    | Some r, Some (String c s) =>
        match r (String c s) qty with
        | Ok q => q
        | Raise _ => qty
        end
    | _, _ =>
        let q := PyNum.round_dec 8 qty in
        if PyNum.ltb q (1 # 100000000) then 0 else q
    end.

Definition compute_sl_tp_prices (self : RiskManager) (entry_price : Q)
           (take_profit_pct_arg stop_loss_pct_arg : option Q) : Q * Q :=
  let tp_pct := match take_profit_pct_arg with
                | None => take_profit_pct self | Some x => x end in
  let sl_pct := match stop_loss_pct_arg with
                | None => stop_loss_pct self | Some x => x end in
  let tp_price := entry_price * (1 + tp_pct) in
  let sl_price := entry_price * (1 - sl_pct) in
  (sl_price, tp_price).

(** Lines 86-93 of [compute_position_size_by_risk]: the quantity before
    exchange rounding. *)
Definition capped_qty (self : RiskManager) (balance entry_price stop_price : Q) : Q :=
  let risk_amount := PyNum.max 0 (balance * per_trade_risk_pct self) in
  let risk_per_unit := PyNum.abs (entry_price - stop_price) in
  let qty_risk := if PyNum.leb risk_per_unit 0 then Inf
                  else Fin (risk_amount / risk_per_unit) in
  let alloc_usdt := PyNum.max 0 (balance * per_trade_alloc_pct self) in
  let qty_cap := alloc_usdt / entry_price in
  PyNum.max 0 (xmin qty_risk qty_cap).

(** [balance] is the value read at lines 77-81: the override, or
    [portfolio.get_balance(strategy)], or the exchange cash balance. *)
Definition compute_position_size_by_risk (self : RiskManager)
           (rounder : option (string -> Q -> py_result Q))
           (balance entry_price stop_price : Q) (symbol : option string) : Q :=
  if PyNum.leb balance 0 || PyNum.leb entry_price 0 then 0
  else _round_qty rounder symbol (capped_qty self balance entry_price stop_price).

(** [datetime.fromtimestamp(ts, tz=timezone.utc)] as microseconds since
    the epoch: the timestamp, in seconds, is rounded to the nearest
    microsecond, ties to even. *)
Definition fromtimestamp (ts : Q) : Z := PyNum.round_half_even (ts * 1000000).

(** [strftime("%Y-%m-%d")] of a UTC datetime given in microseconds since
    the epoch: two datetimes print the same date exactly when they have
    the same day number. *)
Definition day_key (us : Z) : Z := (us / 86400000000)%Z.

Definition set_day (self : RiskManager) (ts : Q) (eq0 : option Q) : RiskManager :=
  {| per_trade_alloc_pct := per_trade_alloc_pct self;
     per_trade_risk_pct := per_trade_risk_pct self;
     take_profit_pct := take_profit_pct self;
     stop_loss_pct := stop_loss_pct self;
     taker_fee_pct := taker_fee_pct self;
     max_daily_drawdown_pct := max_daily_drawdown_pct self;
     _day_anchor_ts := ts;
     _day_start_equity := eq0 |}.

(** [check_daily_loss_guard].  [equity] is the reading of
    [portfolio.get_total_equity()]: [None] when the portfolio has no such
    method or the call raises.  [now_utc] is [datetime.now(timezone.utc)]
    in microseconds since the epoch and [now_ts] the later [time.time()]
    in seconds.  The result is the returned flag ([false] halts entries)
    and the updated manager. *)
Definition check_daily_loss_guard (self : RiskManager) (equity : option Q)
           (now_utc : Z) (now_ts : Q) : bool * RiskManager :=
  if PyNum.leb (max_daily_drawdown_pct self) 0 then (true, self)
  else
    match equity with
    | None => (true, self)
    | Some equity =>
        let self1 :=
          if negb (PyNum.eqb (_day_anchor_ts self) 0) then
            if negb (Z.eqb (day_key (fromtimestamp (_day_anchor_ts self)))
                           (day_key now_utc))
            then set_day self 0 None
            else self
          else self in
        match _day_start_equity self1 with
        | None => (true, set_day self1 now_ts (Some equity))
        | Some start =>
            let limit_eq := start * (1 - max_daily_drawdown_pct self1) in
            if PyNum.leb equity limit_eq then (false, self1) else (true, self1)
        end
    end.

End Risk.

(** ** Bars *)

(** One kline row after [_klines_to_df]: times in milliseconds, prices as
    floats. *)
Record Bar : Type := {
  open_time : Z;
  open : Q;
  high : Q;
  low : Q;
  close : Q;
  volume : Q;
  close_time : Z
}.

Definition closes (df : list Bar) : list Q := map close df.

(** ** modules/portfolio.py : PortfolioManager *)
Module Portfolio.

(** A stored position dict.  [strategy] and [status] are read with
    [.get], so they may be absent. *)
Record Position : Type := {
  symbol : string;
  strategy : option string;
  entry_price : Q;
  qty : Q;
  sl_price : Q;
  tp_price : Q;
  entry_ts : Q;
  status : option string
}.

Definition set_status (p : Position) (s : string) : Position :=
  {| symbol := symbol p; strategy := strategy p; entry_price := entry_price p;
     qty := qty p; sl_price := sl_price p; tp_price := tp_price p;
     entry_ts := entry_ts p; status := Some s |}.

(** The [details] text of a ledger entry; the exit text
    [f"pid={pid} closed pnl={pnl:.2f}"] is kept as its two values. *)
Inductive Details : Type :=
| ClosedPnl (pid : string) (pnl : Q)
| Text (s : string).

Record LedgerEntry : Type := {
  ts : Q;
  event : string;
  details : Details
}.

(** [self.state] *)
Record State : Type := {
  positions : gmap string Position;
  balances : gmap string Q;
  ledger : list LedgerEntry
}.

(** [__init__] without a state file on disk *)
Definition init : State :=
  {| positions := ∅; balances := ∅; ledger := [] |}.

(** [initial_balance] is [cfg["trade"].get("initial_balance", 1000)]. *)
Definition update_balance (initial_balance : Q) (pnl : Q) (strategy : string)
           (st : State) : State :=
  let bal := default (initial_balance / 2) (balances st !! strategy) in
  let new_bal := bal + pnl in
  {| positions := positions st;
     balances := <[strategy := new_bal]> (balances st);
     ledger := ledger st |}.

Definition get_balance (st : State) (strategy : string) : Q :=
  default 0 (balances st !! strategy).

(** [pid] is [str(int(time.time() * 1000))]. *)
Definition save_position (now : Q) (pos : Position) (st : State) : string * State :=
  let pid := pretty (PyNum.int (now * 1000)) in
  (pid, {| positions := <[pid := set_status pos "open"]> (positions st);
           balances := balances st;
           ledger := ledger st |}).

Definition add_ledger (now : Q) (event : string) (details : Details)
           (st : State) : State :=
  {| positions := positions st;
     balances := balances st;
     ledger := ledger st ++ [ {| ts := now; event := event; details := details |} ] |}.

Definition close_position (initial_balance : Q) (now : Q) (pid : string) (pnl : Q)
           (st : State) : State :=
  match positions st !! pid with
  | Some p =>
      let st1 := {| positions := <[pid := set_status p "closed"]> (positions st);
                    balances := balances st;
                    ledger := ledger st |} in
      let strategy := default "default"%string (strategy p) in
      add_ledger now "exit" (ClosedPnl pid pnl)
                 (update_balance initial_balance pnl strategy st1)
  | None => st
  end.

Definition is_closed (p : Position) : bool :=
  match status p with
  | Some s => String.eqb s "closed"
  | None => false
  end.

Definition get_open_positions (st : State) : gmap string Position :=
  filter (fun kv => is_closed (snd kv) = false) (positions st).

(** Positional call of [close_position] as Python applies it: the method
    takes exactly [pid] and [pnl]; any other argument count raises
    [TypeError] before the body runs. *)
Inductive pyval : Type :=
| VStr (s : string)
| VFloat (q : Q).

Definition call_close_position (initial_balance now : Q) (args : list pyval)
           (st : State) : py_result State :=
  match args with
  | [VStr pid; VFloat pnl] => Ok (close_position initial_balance now pid pnl st)
  | _ => Raise TypeError
  end.

(** [PortfolioManager] defines neither [open_position] nor
    [get_total_equity]; the attribute lookup [self.portfolio.open_position]
    raises [AttributeError], and [getattr(portfolio, "get_total_equity",
    None)] is [None]. *)
Definition open_position (st : State) (symbol strategy : string)
           (entry_price qty sl_price tp_price : Q) : py_result State :=
  Raise AttributeError.

Definition get_total_equity : option (State -> py_result Q) := None.

End Portfolio.

(** ** modules/exit.py : ExitManager *)
Module Exit.

Inductive Event : Type :=
| Sell (symbol : string) (qty : Q)
| SaveTrade (symbol : string) (reason : string) (exit_price qty pnl : Q)
| Log (e : exn).

(** [highest = self.trailing.get(sym, entry_price)] followed by
    [if price > highest: self.trailing[sym] = price] *)
Definition update_trailing (trailing : gmap string Q) (pos : Portfolio.Position)
           (price : Q) : gmap string Q :=
  let sym := Portfolio.symbol pos in
  let highest := default (Portfolio.entry_price pos) (trailing !! sym) in
  if PyNum.gtb price highest then <[sym := price]> trailing else trailing.

(** [trail_stop = self.trailing.get(sym, price) * (1 - trail_pct)], read
    after the update of [self.trailing] *)
Definition trail_stop (trailing_stop_pct : Q) (trailing : gmap string Q)
           (sym : string) (price : Q) : Q :=
  let trail_pct := trailing_stop_pct / 100 in
  default price (trailing !! sym) * (1 - trail_pct).

(** The [if]/[elif] of [manage_positions]. *)
Definition exit_reason (pos : Portfolio.Position) (price trail_stop : Q) : option string :=
  if PyNum.geb price (Portfolio.tp_price pos) then Some "TP hit"%string
  else if PyNum.leb price (Portfolio.sl_price pos) || PyNum.leb price trail_stop
       then Some "SL/Trail hit"%string
       else None.

(** One iteration of the loop of [manage_positions], up to the choice of
    the reason.  [trailing] is [self.trailing] (symbol -> highest),
    [trailing_stop_pct] the configured percentage.  The result is the
    updated [trailing] and the reason with the pnl, or the exception of the
    percentage computation [pnl_pct]. *)
Definition decide_exit (trailing_stop_pct : Q) (trailing : gmap string Q)
           (pos : Portfolio.Position) (price : Q)
  : gmap string Q * py_result (option string * Q) :=
  let trailing := update_trailing trailing pos price in
  let stop := trail_stop trailing_stop_pct trailing (Portfolio.symbol pos) price in
  let pnl := (price - Portfolio.entry_price pos) * Portfolio.qty pos in
  match PyNum.div (price - Portfolio.entry_price pos) (Portfolio.entry_price pos) with
  | Raise e => (trailing, Raise e)
  | Ok _ => (trailing, Ok (exit_reason pos price stop, pnl))
  end.

(** [_close_position]: [sold] is the pair returned by
    [_execute_or_paper_sell].  The notification text reads
    [pos['strategy']], which raises [KeyError] for a position stored
    without a strategy, after the sale and before the trade record.  The
    last statement calls [self.portfolio.close_position(pos["symbol"])],
    one argument. *)
Definition _close_position (initial_balance now : Q) (pos : Portfolio.Position)
           (mkt_price pnl : Q) (reason : string) (sold : Q * Q)
           (st : Portfolio.State) : list Event * py_result Portfolio.State :=
  let '(exec_qty, exec_price) := sold in
  match Portfolio.strategy pos with
  | None => ([Sell (Portfolio.symbol pos) (Portfolio.qty pos)], Raise KeyError)
  | Some _ =>
      let exit_price := if PyNum.eqb exec_price 0 then mkt_price else exec_price in
      let q := if PyNum.eqb exec_qty 0 then Portfolio.qty pos else exec_qty in
      ([Sell (Portfolio.symbol pos) (Portfolio.qty pos);
        SaveTrade (Portfolio.symbol pos) reason exit_price q pnl],
       Portfolio.call_close_position initial_balance now
         [Portfolio.VStr (Portfolio.symbol pos)] st)
  end.

(** The body of the [for] loop of [manage_positions] for one position,
    with its [try]/[except]: an exception is logged and the loop goes on.
    [price] is the result of [exchange.get_price], [sell] the result of
    [_execute_or_paper_sell]. *)
Definition manage_one (trailing_stop_pct initial_balance now : Q)
           (sell : string -> Q -> Q * Q)
           (trailing : gmap string Q) (st : Portfolio.State)
           (pos : Portfolio.Position) (price : py_result Q)
  : gmap string Q * Portfolio.State * list Event :=
  match price with
  | Raise e => (trailing, st, [Log e])
  | Ok price =>
      match decide_exit trailing_stop_pct trailing pos price with
      | (trailing', Raise e) => (trailing', st, [Log e])
      | (trailing', Ok (None, _)) => (trailing', st, [])
      | (trailing', Ok (Some reason, pnl)) =>
          let sold := sell (Portfolio.symbol pos) (Portfolio.qty pos) in
          match _close_position initial_balance now pos price pnl reason sold st with
          | (evs, Ok st') => (trailing', st', evs)
          | (evs, Raise e) => (trailing', st, evs ++ [Log e])
          end
      end
  end.

End Exit.

(** ** strategies.py : StrategyManager *)
Module Strategies.

Definition STRAT_MOMENTUM : string := "momentum".
Definition STRAT_MA : string := "ma".

(** The attributes set by [__init__] that the scan reads.  The window
    lengths are non-negative integers. *)
Record StrategyManager : Type := {
  lookback_min : nat;
  entry_change_pct : Q;
  ma_short : nat;
  ma_long : nat;
  rsi_period : nat;
  rsi_buy : Q;
  macd_fast : nat;
  macd_slow : nat;
  macd_signal : nat;
  use_rsi_filter : bool;
  use_macd_filter : bool
}.

(** What one call of [scan_and_trade] obtains from its collaborators:
    the klines of [_fetch_df], the fill of [_execute_or_paper_buy]
    (executed quantity and price, [(0, 0)] for a rejected order), the
    exchange's [round_qty], the indicator values of the [ta] package
    ([None] when not finite), and the two clock readings of the daily
    guard. *)
Record Poll : Type := {
  klines : string -> py_result (list Bar);
  buy_market : string -> Q -> Q * Q;
  rounder : option (string -> Q -> py_result Q);
  ta_rsi : nat -> list Bar -> option Q;
  ta_macd : list Bar -> option Q * option Q;
  now_utc : Z;
  now_ts : Q
}.

Inductive Event : Type :=
| Buy (symbol strategy : string) (qty exec_qty exec_price : Q)
| Notify (symbol strategy : string)
| Log (symbol : string) (e : exn).

Definition get_rsi (self : StrategyManager) (poll : Poll) (df : list Bar) : option Q :=
  let p := rsi_period self in
  if (length df <? p + 1)%nat then None else ta_rsi poll p df.

Definition get_macd (self : StrategyManager) (poll : Poll) (df : list Bar)
  : option Q * option Q :=
  let needed := (Nat.max (Nat.max (macd_fast self) (macd_slow self)) (macd_signal self) + 5)%nat in
  if (length df <? needed)%nat then (None, None) else ta_macd poll df.

Definition get_ma (df : list Bar) (window : nat) : option Q :=
  if (length df <? window)%nat then None
  else match PyNum.last_n window (closes df) with
       | [] => None
       | l => Some (PyNum.mean l)
       end.

Definition signal_momentum (self : StrategyManager) (df : list Bar) : bool :=
  if (length df <? lookback_min self + 1)%nat then false
  else
    let start := PyNum.nth_last (lookback_min self + 1) (closes df) in
    let last := PyNum.nth_last 1 (closes df) in
    if PyNum.leb start 0 then false
    else
      let pct := (last - start) / start * 100 in
      PyNum.geb pct (entry_change_pct self).

Definition signal_ma_cross (self : StrategyManager) (df : list Bar) : bool :=
  match get_ma df (ma_short self), get_ma df (ma_long self) with
  | Some ms, Some ml => PyNum.gtb ms ml
  | _, _ => false
  end.

Definition rsi_filter_buy (self : StrategyManager) (poll : Poll) (df : list Bar) : bool :=
  if negb (use_rsi_filter self) then true
  else match get_rsi self poll df with
       | Some r => PyNum.geb r (rsi_buy self)
       | None => false
       end.

Definition macd_filter_buy (self : StrategyManager) (poll : Poll) (df : list Bar) : bool :=
  if negb (use_macd_filter self) then true
  else match get_macd self poll df with
       | (Some m, Some s) => PyNum.gtb m s
       | _ => false
       end.

(** [any(p.get("symbol") == symbol and p.get("strategy") == strat
        for p in open_positions.values())] *)
Definition has_open (open_positions : gmap string Portfolio.Position)
           (symbol strat : string) : bool :=
  existsb (fun kv =>
             String.eqb (Portfolio.symbol (snd kv)) symbol
             && match Portfolio.strategy (snd kv) with
                | Some s => String.eqb s strat
                | None => false
                end)
          (map_to_list open_positions).

(** One of the two strategy blocks of the loop body.  The exception of
    [open_position] leaves the block; the events so far stay. *)
Definition try_enter (risk : Risk.RiskManager) (poll : Poll)
           (open_positions : gmap string Portfolio.Position)
           (symbol strat : string) (signal : bool) (price : Q)
           (st : Portfolio.State)
  : py_result unit * Portfolio.State * list Event :=
  if negb (has_open open_positions symbol strat) && signal then
    let '(sl_price, tp_price) := Risk.compute_sl_tp_prices risk price None None in
    let qty := Risk.compute_position_size_by_risk risk (rounder poll)
                 (Portfolio.get_balance st strat) price sl_price (Some symbol) in
    if PyNum.gtb qty 0 then
      let '(exec_qty, exec_price) := buy_market poll symbol qty in
      let ev := Buy symbol strat qty exec_qty exec_price in
      if PyNum.gtb exec_qty 0 then
        match Portfolio.open_position st symbol strat exec_price exec_qty
                                      sl_price tp_price with
        | Ok st' => (Ok tt, st', [ev; Notify symbol strat])
        | Raise e => (Raise e, st, [ev])
        end
      else (Ok tt, st, [ev])
    else (Ok tt, st, [])
  else (Ok tt, st, []).

(** The body of the [for symbol in universe] loop with its
    [try]/[except]. *)
Definition scan_symbol (self : StrategyManager) (risk : Risk.RiskManager)
           (poll : Poll) (open_positions : gmap string Portfolio.Position)
           (symbol : string) (st : Portfolio.State)
  : Portfolio.State * list Event :=
  match klines poll symbol with
  | Raise e => (st, [Log symbol e])
  | Ok [] => (st, [])
  | Ok df =>
      let price := PyNum.nth_last 1 (closes df) in
      let filters := rsi_filter_buy self poll df && macd_filter_buy self poll df in
      match try_enter risk poll open_positions symbol STRAT_MOMENTUM
                      (signal_momentum self df && filters) price st with
      | (Raise e, st1, evs1) => (st1, evs1 ++ [Log symbol e])
      | (Ok _, st1, evs1) =>
          match try_enter risk poll open_positions symbol STRAT_MA
                          (signal_ma_cross self df && filters) price st1 with
          | (Raise e, st2, evs2) => (st2, evs1 ++ evs2 ++ [Log symbol e])
          | (Ok _, st2, evs2) => (st2, evs1 ++ evs2)
          end
      end
  end.

Fixpoint scan_universe (self : StrategyManager) (risk : Risk.RiskManager)
         (poll : Poll) (open_positions : gmap string Portfolio.Position)
         (universe : list string) (st : Portfolio.State)
  : Portfolio.State * list Event :=
  match universe with
  | [] => (st, [])
  | symbol :: rest =>
      let '(st1, evs1) := scan_symbol self risk poll open_positions symbol st in
      let '(st2, evs2) := scan_universe self risk poll open_positions rest st1 in
      (st2, evs1 ++ evs2)
  end.

(** The equity reading of the daily guard for this portfolio. *)
Definition read_equity (st : Portfolio.State) : option Q :=
  match Portfolio.get_total_equity with
  | Some get_eq => match get_eq st with Ok q => Some q | Raise _ => None end
  | None => None
  end.

Definition scan_and_trade (self : StrategyManager) (risk : Risk.RiskManager)
           (poll : Poll) (universe : list string) (st : Portfolio.State)
  : Risk.RiskManager * Portfolio.State * list Event :=
  match universe with
  | [] => (risk, st, [])
  | _ =>
      let '(pass, risk1) :=
        Risk.check_daily_loss_guard risk (read_equity st) (now_utc poll) (now_ts poll) in
      if negb pass then (risk1, st, [])
      else
        let open_positions := Portfolio.get_open_positions st in
        let '(st1, evs) := scan_universe self risk1 poll open_positions universe st in
        (risk1, st1, evs)
  end.

End Strategies.

(** ** backtest.py : Backtester *)
Module Backtest.

(** The two keys of [balances], [trades_count] and [strategy_weights]. *)
Inductive Strategy : Type :=
| momentum
| ma.

Definition strategy_name (s : Strategy) : string :=
  match s with
  | momentum => "momentum"
  | ma => "ma"
  end.

Definition strategy_eqb (a b : Strategy) : bool :=
  match a, b with
  | momentum, momentum | ma, ma => true
  | _, _ => false
  end.

(** The attributes set by [__init__]; percentages are already divided by
    100, the two weights are the configured ones before normalisation,
    and [entry_lookback_min], [entry_change_pct] are the two values read
    from [cfg["trade"]] at the momentum signal. *)
Record Backtester : Type := {
  initial_balance : Q;
  weight_momentum : Q;
  weight_ma : Q;
  per_trade_pct : Q;
  take_profit_pct : Q;
  stop_loss_pct : Q;
  trailing_stop_pct : Q;
  taker_fee_pct : Q;
  slippage_pct : Q;
  min_atr_pct : Q;
  entry_cooldown_bars : Z;
  entry_lookback_min : nat;
  entry_change_pct : Q
}.

(** [self.strategy_weights] after the normalisation loop of [__init__]. *)
Definition strategy_weights (self : Backtester) (s : Strategy) : Q :=
  let total := 0 + weight_momentum self + weight_ma self in
  let sw_sum := if PyNum.eqb total 0 then 1 else total in
  match s with
  | momentum => weight_momentum self / sw_sum
  | ma => weight_ma self / sw_sum
  end.

Record Balances : Type := {
  bal_momentum : Q;
  bal_ma : Q
}.

Definition bal_get (b : Balances) (s : Strategy) : Q :=
  match s with
  | momentum => bal_momentum b
  | ma => bal_ma b
  end.

(** [balances[s] += x] *)
Definition bal_add (b : Balances) (s : Strategy) (x : Q) : Balances :=
  match s with
  | momentum => {| bal_momentum := bal_momentum b + x; bal_ma := bal_ma b |}
  | ma => {| bal_momentum := bal_momentum b; bal_ma := bal_ma b + x |}
  end.

(** [sum(balances.values())] *)
Definition bal_total (b : Balances) : Q := 0 + bal_momentum b + bal_ma b.

Record Position : Type := {
  strategy : Strategy;
  entry_price : Q;
  qty : Q;
  entry_time : Z;
  entry_index : nat;
  tp_price : Q;
  sl_price : Q;
  highest : Q;
  entry_fee : Q
}.

Definition set_highest (p : Position) (h : Q) : Position :=
  {| strategy := strategy p; entry_price := entry_price p; qty := qty p;
     entry_time := entry_time p; entry_index := entry_index p;
     tp_price := tp_price p; sl_price := sl_price p; highest := h;
     entry_fee := entry_fee p |}.

Inductive Reason : Type :=
| TP
| SL
| TRAIL.

(** The calls of [_bt_log], with the values they format and the bar index
    at which they are made. *)
Inductive LogEvent : Type :=
| EXIT (i : nat) (s : Strategy) (reason : Reason) (ex_px pnl : Q)
| ENTRY (i : nat) (s : Strategy) (entry qty fee_e : Q)
| FORCE (s : Strategy) (ex_px pnl : Q).

Record Trades : Type := {
  trades_momentum : nat;
  trades_ma : nat
}.

Definition trades_incr (t : Trades) (s : Strategy) : Trades :=
  match s with
  | momentum => {| trades_momentum := S (trades_momentum t); trades_ma := trades_ma t |}
  | ma => {| trades_momentum := trades_momentum t; trades_ma := S (trades_ma t) |}
  end.

(** The local variables of [run_backtest] that live across bars. *)
Record LoopState : Type := {
  balances : Balances;
  open_positions : list Position;
  last_entry_bar : gmap (string * string) Z;
  equity_curve : list Q;
  ts : list Z;
  trades_count : Trades;
  log : list LogEvent
}.

(** *** Signals *)

(** [np.maximum(h[1:]-l[1:], np.maximum(|h[1:]-c[:-1]|, |l[1:]-c[:-1]|))] *)
Fixpoint true_ranges (df : list Bar) : list Q :=
  match df with
  | prev :: ((cur :: _) as rest) =>
      PyNum.max (high cur - low cur)
                (PyNum.max (PyNum.abs (high cur - close prev))
                           (PyNum.abs (low cur - close prev)))
      :: true_ranges rest
  | _ => []
  end.

Definition _atr_pct (df : list Bar) (lookback : nat) : option Q :=
  if (length df <? lookback + 1)%nat then None
  else
    let atr := PyNum.mean (PyNum.last_n lookback (true_ranges df)) in
    let last := PyNum.nth_last 1 (closes df) in
    if PyNum.leb last 0 then None else Some (atr / last).

Definition _sig_momentum (df : list Bar) (lookback_min : nat) (change_pct : Q) : bool :=
  if (length df <? lookback_min + 1)%nat then false
  else
    let start := PyNum.nth_last (lookback_min + 1) (closes df) in
    let last := PyNum.nth_last 1 (closes df) in
    if PyNum.leb start 0 then false
    else
      let pct := (last - start) / start * 100 in
      PyNum.geb pct change_pct.

Definition _sig_ma (df : list Bar) (s l : nat) : bool :=
  if (length df <? l)%nat then false
  else
    let ms := PyNum.mean (PyNum.last_n s (closes df)) in
    let ml := PyNum.mean (PyNum.last_n l (closes df)) in
    PyNum.gtb ms ml.

(** *** Exit phase *)

(** The [if]/[elif] chain of the exit loop; [pos] already carries the
    updated [highest]. *)
Definition exit_reason (self : Backtester) (pos : Position) (px : Q) : option Reason :=
  let trail := highest pos * (1 - trailing_stop_pct self) in
  if PyNum.geb px (tp_price pos) then Some TP
  else if PyNum.leb px (sl_price pos) then Some SL
  else if PyNum.leb px trail then Some TRAIL
  else None.

(** [proceeds - fee_exit] for an exit at [ex_px] *)
Definition net_proceeds (self : Backtester) (pos : Position) (ex_px : Q) : Q :=
  let proceeds := ex_px * qty pos in
  let fee_exit := proceeds * taker_fee_pct self in
  proceeds - fee_exit.

Definition realized_pnl (self : Backtester) (pos : Position) (ex_px : Q) : Q :=
  net_proceeds self pos ex_px - (entry_price pos * qty pos + entry_fee pos).

(** [pos["highest"] = max(pos.get("highest", pos["entry_price"]), px)] *)
Definition updated (pos : Position) (px : Q) : Position :=
  set_highest pos (PyNum.max (highest pos) px).

(** The loop [for pos in open_positions] of the exit phase: the balances,
    the [keep] list and the log lines it produces. *)
Fixpoint exit_loop (self : Backtester) (i : nat) (px : Q) (ops : list Position)
         (bal : Balances) : Balances * list Position * list LogEvent :=
  match ops with
  | [] => (bal, [], [])
  | pos :: rest =>
      let pos := updated pos px in
      match exit_reason self pos px with
      | Some reason =>
          let ex_px := px in
          let bal := bal_add bal (strategy pos) (net_proceeds self pos ex_px) in
          let '(bal', keep, evs) := exit_loop self i px rest bal in
          (bal', keep,
           EXIT i (strategy pos) reason ex_px (realized_pnl self pos ex_px) :: evs)
      | None =>
          let '(bal', keep, evs) := exit_loop self i px rest bal in
          (bal', pos :: keep, evs)
      end
  end.

(** *** Entry phase *)

Definition can_enter (self : Backtester) (symbol : string) (i : nat)
           (st : LoopState) (s : Strategy) : bool :=
  let key := (symbol, strategy_name s) in
  let last_i := default (- 10 ^ 9)%Z (last_entry_bar st !! key) in
  (entry_cooldown_bars self <=? Z.of_nat i - last_i)%Z
  && negb (existsb (fun p => strategy_eqb (strategy p) s) (open_positions st)).

Inductive EnterResult : Type :=
| Entered (st : LoopState)
| Refused
| Raised (e : exn).

(** The quantity, fee and debit of [do_enter] before the final test.
    Over exact rationals the debit recomputed after the shrink equals the
    balance; in binary64 it can exceed the balance by one unit in the last
    place, and the final test of [do_enter] then refuses the entry.  No
    statement below relies on an entry being made on the shrink branch. *)
Definition size_entry (self : Backtester) (balance entry : Q) : py_result (Q * Q * Q) :=
  let alloc := balance * per_trade_pct self in
  match PyNum.div alloc entry with
  | Raise e => Raise e
  | Ok qty =>
      let fee_e := entry * qty * taker_fee_pct self in
      let need := entry * qty + fee_e in
      if PyNum.gtb need balance then
        match PyNum.div balance (entry * (1 + taker_fee_pct self)) with
        | Raise e => Raise e
        | Ok qty =>
            let fee_e := entry * qty * taker_fee_pct self in
            let need := entry * qty + fee_e in
            Ok (qty, fee_e, need)
        end
      else Ok (qty, fee_e, need)
  end.

Definition do_enter (self : Backtester) (symbol : string) (i : nat) (t : Z) (px : Q)
           (st : LoopState) (s : Strategy) : EnterResult :=
  let alloc_pool := bal_get (balances st) s in
  let alloc := alloc_pool * per_trade_pct self in
  if PyNum.leb alloc 0 then Refused
  else
    let entry := px * (1 + slippage_pct self) in
    match size_entry self (bal_get (balances st) s) entry with
    | Raise e => Raised e
    | Ok (qty, fee_e, need) =>
        if PyNum.leb qty 0 || PyNum.gtb need (bal_get (balances st) s) then Refused
        else
          let tp := entry * (1 + take_profit_pct self) in
          let sl := entry * (1 - stop_loss_pct self) in
          Entered
            {| balances := bal_add (balances st) s (- need);
               open_positions :=
                 open_positions st ++
                   [ {| strategy := s; entry_price := entry; qty := qty;
                        entry_time := t; entry_index := i; tp_price := tp;
                        sl_price := sl; highest := entry; entry_fee := fee_e |} ];
               last_entry_bar := <[(symbol, strategy_name s) := Z.of_nat i]> (last_entry_bar st);
               equity_curve := equity_curve st;
               ts := ts st;
               trades_count := trades_incr (trades_count st) s;
               log := log st ++ [ENTRY i s entry qty fee_e] |}
    end.

(** One [try: if can_enter(s) and signal: do_enter(s) except: pass]. *)
Definition try_enter (self : Backtester) (symbol : string) (i : nat) (t : Z) (px : Q)
           (signal : bool) (s : Strategy) (st : LoopState) : LoopState :=
  if can_enter self symbol i st s && signal then
    match do_enter self symbol i t px st s with
    | Entered st' => st'
    | Refused => st
    | Raised _ => st
    end
  else st.

(** *** One bar *)

Definition last_close_time (win : list Bar) : Z :=
  nth (length win - 1) (map close_time win) 0%Z.

(** The exit loop and the equity snapshot of one bar. *)
Definition exit_phase (self : Backtester) (i : nat) (t : Z) (px : Q)
           (st : LoopState) : LoopState :=
  let '(bal, keep, evs) := exit_loop self i px (open_positions st) (balances st) in
  let total_cash := bal_total bal in
  let mkt_value := PyNum.sum (map (fun p => qty p * px) keep) in
  {| balances := bal;
     open_positions := keep;
     last_entry_bar := last_entry_bar st;
     equity_curve := equity_curve st ++ [total_cash + mkt_value];
     ts := ts st ++ [t];
     trades_count := trades_count st;
     log := log st ++ evs |}.

(** The volatility gate and the two entry attempts of one bar. *)
Definition entry_phase (self : Backtester) (symbol : string) (win : list Bar)
           (i : nat) (t : Z) (px : Q) (st : LoopState) : LoopState :=
  match _atr_pct win 14 with
  | None => st
  | Some atrp =>
      if PyNum.ltb atrp (min_atr_pct self) then st
      else
        let st2 := try_enter self symbol i t px
                     (_sig_momentum win (entry_lookback_min self) (entry_change_pct self))
                     momentum st in
        try_enter self symbol i t px (_sig_ma win 9 21) ma st2
  end.

(** The body of [for i in range(len(df))]. *)
Definition step (self : Backtester) (symbol : string) (df : list Bar)
           (st : LoopState) (i : nat) : LoopState :=
  let win := firstn (i + 1) df in
  let t := last_close_time win in
  let px := PyNum.nth_last 1 (closes win) in
  entry_phase self symbol win i t px (exit_phase self i t px st).

(** The local variables before the first bar. *)
Definition init_state (self : Backtester) : LoopState :=
  {| balances :=
       {| bal_momentum := initial_balance self * strategy_weights self momentum;
          bal_ma := initial_balance self * strategy_weights self ma |};
     open_positions := [];
     last_entry_bar := ∅;
     equity_curve := [];
     ts := [];
     trades_count := {| trades_momentum := 0; trades_ma := 0 |};
     log := [] |}.

(** The state after the first [n] bars. *)
Definition run_bars (self : Backtester) (symbol : string) (df : list Bar) (n : nat)
  : LoopState :=
  fold_left (step self symbol df) (seq 0 n) (init_state self).

(** *** Forced exit and summary *)

Definition force_exit_price (self : Backtester) (last_px : Q) : Q :=
  last_px * (1 - slippage_pct self).

(** The loop [for pos in open_positions] after the last bar. *)
Fixpoint force_exit (self : Backtester) (last_px : Q) (ops : list Position)
         (bal : Balances) : Balances * list LogEvent :=
  match ops with
  | [] => (bal, [])
  | pos :: rest =>
      let ex_px := force_exit_price self last_px in
      let bal := bal_add bal (strategy pos) (net_proceeds self pos ex_px) in
      let '(bal', evs) := force_exit self last_px rest bal in
      (bal', FORCE (strategy pos) ex_px (realized_pnl self pos ex_px) :: evs)
  end.

(** The returned dictionary, without [max_drawdown_pct]. *)
Record Summary : Type := {
  sum_symbol : string;
  sum_initial_balance : Q;
  final_balance : Q;
  total_pnl : Q;
  trades : Trades;
  equity : list Q
}.

(** [run_backtest]: [kl] is the result of [exchange.get_klines]; a fetch
    error or an empty frame returns [{}], here [None]. *)
Definition run_backtest (self : Backtester) (symbol : string)
           (kl : py_result (list Bar)) : option Summary :=
  match kl with
  | Raise _ => None
  | Ok [] => None
  | Ok df =>
      let st := run_bars self symbol df (length df) in
      let last_px := PyNum.nth_last 1 (closes df) in
      let '(bal, _) := force_exit self last_px (open_positions st) (balances st) in
      let final_total := bal_total bal in
      Some {| sum_symbol := symbol;
              sum_initial_balance := initial_balance self;
              final_balance := final_total;
              total_pnl := final_total - initial_balance self;
              trades := trades_count st;
              equity := equity_curve st |}
  end.

End Backtest.

(** ** core.py : orders of the ExchangeClient *)
Module Orders.

(** [_enforce_min_notional]: [min_notional] is
    [f.get("minNotional", 0.0)]. *)
Definition _enforce_min_notional (min_notional price qty : Q) : Q :=
  if negb (PyNum.eqb min_notional 0) && PyNum.ltb (price * qty) min_notional
  then 0 else qty.

(** The [status] of an order after [str(...).upper()]. *)
Inductive Status : Type :=
| FILLED
| PARTIALLY_FILLED
| REJECTED
| ERROR
| OtherStatus (s : string).

(** The entries of an order dict that the callers read; an exchange
    response may lack any of them. *)
Record Order : Type := {
  status : option Status;
  executedQty : option Q;
  price : option Q
}.

(** [create_market_order].  [price] is the result of [get_price],
    [lot] the LOT_SIZE filters that [round_qty] reads and [min_notional]
    the value that [_enforce_min_notional] reads, each after its own
    [_load_symbol_filters], which may raise; [bnc] is the python-binance
    client's [create_order] for the side and quantity, [None] in dry
    run. *)
Definition create_market_order (bnc : option (string -> Q -> py_result Order))
           (price : py_result Q) (lot : py_result Exchange.SymbolFilters)
           (min_notional : py_result Q) (side : string) (quantity : Q)
  : py_result Order :=
  match price with
  | Raise e => Raise e
  | Ok price =>
      match lot with
      | Raise e => Raise e
      | Ok lot =>
          let qty := Exchange.round_qty lot quantity in
          match min_notional with
          | Raise e => Raise e
          | Ok min_notional =>
              let qty := _enforce_min_notional min_notional price qty in
              if PyNum.leb qty 0 then
                Ok {| status := Some REJECTED; executedQty := Some 0;
                      price := Some price |}
              else
                match bnc with
                | None =>
                    Ok {| status := Some FILLED; executedQty := Some qty;
                          price := Some price |}
                | Some create_order =>
                    match create_order side qty with
                    | Ok order => Ok order
                    | Raise _ =>
                        Ok {| status := Some ERROR; executedQty := None;
                              price := None |}
                    end
                end
          end
      end
  end.

Definition buy_market := fun bnc price lot min_notional quantity =>
  create_market_order bnc price lot min_notional "BUY" quantity.

Definition sell_market := fun bnc price lot min_notional quantity =>
  create_market_order bnc price lot min_notional "SELL" quantity.

(** [_execute_or_paper_buy] of the strategy manager and
    [_execute_or_paper_sell] of the exit manager, which share their body.
    [order] is the result of [buy_market] or [sell_market];
    [price_now] is the [get_price] call written as the default of
    [order.get("price", ...)], which Python evaluates whether or not the
    order carries a price.  Every exception gives [(0, 0)]. *)
Definition _execute_or_paper (order : py_result Order) (qty : Q)
           (price_now : py_result Q) : Q * Q :=
  match order with
  | Raise _ => (0, 0)
  | Ok order =>
      match default FILLED (status order) with
      | FILLED | PARTIALLY_FILLED =>
          let exec_qty := default qty (executedQty order) in
          match price_now with
          | Raise _ => (0, 0)
          | Ok price_now => (exec_qty, default price_now (price order))
          end
      | _ => (0, 0)
      end
  end.

End Orders.

(** ** filters.py : FilterManager.fetch_universe *)
Module Filters.

(** [s.endswith(suffix)] *)
Definition endswith (s suffix : string) : bool :=
  (String.length suffix <=? String.length s)%nat
  && String.eqb (String.substring (String.length s - String.length suffix)
                                  (String.length suffix) s) suffix.

(** [float(t.get("quoteVolume") or 0.0)]: a missing or empty entry reads
    as 0, a text that is no number raises. *)
Inductive QuoteVolume : Type :=
| NoVolume
| Volume (q : Q)
| BadVolume.

(** One entry of the 24h ticker response; [t_symbol] is
    [t.get("symbol", "")]. *)
Record Ticker : Type := {
  t_symbol : string;
  quoteVolume : QuoteVolume
}.

Definition fallback : list string := ["BTCUSDT"%string; "ETHUSDT"%string].

(** [symbols[: self.max_symbols]] when [self.max_symbols > 0] *)
Definition cut (max_symbols : Z) (symbols : list string) : list string :=
  if (0 <? max_symbols)%Z then firstn (Z.to_nat max_symbols) symbols else symbols.

(** The [for t in tickers] loop; [None] when a volume does not parse. *)
Fixpoint select (quote_asset : string) (min_qv_24h : Q) (tickers : list Ticker)
  : option (list string) :=
  match tickers with
  | [] => Some []
  | t :: rest =>
      let s := t_symbol t in
      if negb (endswith s quote_asset) then select quote_asset min_qv_24h rest
      else
        match quoteVolume t with
        | BadVolume => None
        | qv =>
            let qvol := match qv with Volume q => q | _ => 0 end in
            if PyNum.ltb qvol min_qv_24h then select quote_asset min_qv_24h rest
            else option_map (cons s) (select quote_asset min_qv_24h rest)
        end
  end.

(** [fetch_universe].  [explicit] is [config.universe.symbols] when it is
    a list, [normalize] the text operation [s.replace("/", "").upper()],
    [tickers] the parsed response of the 24h ticker request. *)
Definition fetch_universe (normalize : string -> string)
           (explicit : option (list string)) (max_symbols : Z)
           (quote_asset : string) (min_qv_24h : Q)
           (tickers : py_result (list Ticker)) : list string :=
  match explicit with
  | Some ((_ :: _) as symbols) => cut max_symbols (map normalize symbols)
  | _ =>
      match tickers with
      | Raise _ => fallback
      | Ok tickers =>
          match select quote_asset min_qv_24h tickers with
          | None => fallback
          | Some symbols =>
              match cut max_symbols symbols with
              | [] => fallback
              | symbols => symbols
              end
          end
      end
  end.

End Filters.

(** ** main.py : run_backtest over the universe *)
Module Main.

(** [run_backtest(cfg)]: the summaries of the symbols whose backtest
    returned a result, their number and the number with a positive pnl.
    [klines] is the exchange's answer per symbol. *)
Definition run_backtest (self : Backtest.Backtester) (universe : list string)
           (klines : string -> py_result (list Bar))
  : list Backtest.Summary * nat * nat :=
  let universe := match universe with [] => ["BTCUSDT"%string] | _ => universe end in
  let results := omap (fun sym => Backtest.run_backtest self sym (klines sym)) universe in
  let total := length results in
  let wins := length (List.filter (fun s => PyNum.gtb (Backtest.total_pnl s) 0) results) in
  (results, total, wins).

End Main.

(** * Vocabulary of the properties

    Predicates the statements below use, and the concrete configurations
    and inputs at which they are evaluated. *)

(** ** Daily guard *)
Module GuardSpec.
Import Risk.

(** The datetime [us], in microseconds since the epoch, lies on the UTC
    calendar day number [d], counted from 1970-01-01. *)
Definition on_utc_day (d : Z) (us : Z) : Prop :=
  (86400000000 * d <= us < 86400000000 * (d + 1))%Z.

Definition same_utc_day (a b : Z) : Prop :=
  exists d : Z, on_utc_day d a /\ on_utc_day d b.

(** The guard is on the first check of a day when no anchor equity is
    stored, or the stored anchor timestamp lies on another UTC day. *)
Definition first_check_of_day (self : RiskManager) (now_utc : Z) : Prop :=
  _day_start_equity self = None
  \/ (~ _day_anchor_ts self == 0
      /\ ~ same_utc_day (fromtimestamp (_day_anchor_ts self)) now_utc).

(** It is on a later check of the day when an anchor equity is stored and
    its timestamp lies on the same UTC day. *)
Definition later_check_of_day (self : RiskManager) (now_utc : Z) (anchor : Q) : Prop :=
  _day_start_equity self = Some anchor
  /\ ~ _day_anchor_ts self == 0
  /\ same_utc_day (fromtimestamp (_day_anchor_ts self)) now_utc.

Definition guard0 : RiskManager :=
  {| per_trade_alloc_pct := 1 # 10; per_trade_risk_pct := 1 # 100;
     take_profit_pct := 5 # 100; stop_loss_pct := 2 # 100;
     taker_fee_pct := 4 # 10000; max_daily_drawdown_pct := 5 # 100;
     _day_anchor_ts := 1700000000; _day_start_equity := Some 1000 |}.

(** The same manager before its first check. *)
Definition guard_fresh : RiskManager := set_day guard0 0 None.

(** The same manager anchored at the last float before midnight of
    2023-11-15, a quarter of a microsecond before 1700006400. *)
Definition guard_midnight : RiskManager :=
  set_day guard0 (1700006400 - (1 # 4194304)) (Some 1000).

End GuardSpec.

(** ** Exit rule *)
Module ExitSpec.

(** The precedence rule as the specification words it: take profit, then
    stop loss, then trailing stop measured from the highest price seen. *)
Definition spec_exit_reason (tp_price sl_price highest trailing_pct price : Q)
  : option Backtest.Reason :=
  if PyNum.geb price tp_price then Some Backtest.TP
  else if PyNum.leb price sl_price then Some Backtest.SL
  else if PyNum.leb price (highest * (1 - trailing_pct)) then Some Backtest.TRAIL
  else None.

(** The default configuration of [Backtester.__init__]. *)
Definition bt_default : Backtest.Backtester :=
  {| Backtest.initial_balance := 1000;
     Backtest.weight_momentum := 1 # 2;
     Backtest.weight_ma := 1 # 2;
     Backtest.per_trade_pct := 10 # 100;
     Backtest.take_profit_pct := 5 # 100;
     Backtest.stop_loss_pct := 2 # 100;
     Backtest.trailing_stop_pct := 1 # 100;
     Backtest.taker_fee_pct := 4 # 10000;
     Backtest.slippage_pct := 5 # 10000;
     Backtest.min_atr_pct := 5 # 10000;
     Backtest.entry_cooldown_bars := 10;
     Backtest.entry_lookback_min := 15;
     Backtest.entry_change_pct := 3 |}.

(** A backtest position entered at 100 with the default targets. *)
Definition bt_pos : Backtest.Position :=
  {| Backtest.strategy := Backtest.momentum;
     Backtest.entry_price := 100;
     Backtest.qty := 1;
     Backtest.entry_time := 0;
     Backtest.entry_index := 20;
     Backtest.tp_price := 105;
     Backtest.sl_price := 98;
     Backtest.highest := 100;
     Backtest.entry_fee := 4 # 100 |}.

(** The same position with a target of 120, out of reach of the trailing
    scenario. *)
Definition bt_pos_wide : Backtest.Position :=
  {| Backtest.strategy := Backtest.momentum;
     Backtest.entry_price := 100;
     Backtest.qty := 1;
     Backtest.entry_time := 0;
     Backtest.entry_index := 20;
     Backtest.tp_price := 120;
     Backtest.sl_price := 98;
     Backtest.highest := 100;
     Backtest.entry_fee := 4 # 100 |}.

Definition bt_bal0 : Backtest.Balances :=
  {| Backtest.bal_momentum := 0; Backtest.bal_ma := 0 |}.

(** A live position entered at 100, target 120, stop 98. *)
Definition live_pos : Portfolio.Position :=
  {| Portfolio.symbol := "BTCUSDT";
     Portfolio.strategy := Some "momentum"%string;
     Portfolio.entry_price := 100;
     Portfolio.qty := 1;
     Portfolio.sl_price := 98;
     Portfolio.tp_price := 120;
     Portfolio.entry_ts := 1700000000;
     Portfolio.status := Some "open"%string |}.

(** [self.trailing] after the symbol traded at 110. *)
Definition trailing_110 : gmap string Q := {[ "BTCUSDT"%string := 110 ]}.

(** The reason chosen by one iteration of the live exit loop; [None] when
    the iteration raised. *)
Definition live_reason (trailing_stop_pct : Q) (trailing : gmap string Q)
           (pos : Portfolio.Position) (price : Q) : option (option string) :=
  match snd (Exit.decide_exit trailing_stop_pct trailing pos price) with
  | Ok (r, _) => Some r
  | Raise _ => None
  end.

End ExitSpec.

(** ** Sizing *)
Module SizingSpec.

(** A risk manager configured with [per_trade_pct = 100],
    [per_trade_risk_pct = 2], [stop_loss_pct = 2] and the default fee. *)
Definition risk_full_alloc : Risk.RiskManager :=
  {| Risk.per_trade_alloc_pct := 1;
     Risk.per_trade_risk_pct := 2 # 100;
     Risk.take_profit_pct := 5 # 100;
     Risk.stop_loss_pct := 2 # 100;
     Risk.taker_fee_pct := 4 # 10000;
     Risk.max_daily_drawdown_pct := 0;
     Risk._day_anchor_ts := 0;
     Risk._day_start_equity := None |}.

(** An exchange whose symbols trade in lots of 0.001. *)
Definition lot_001 : Exchange.SymbolFilters :=
  {| Exchange.stepSize := 1 # 1000; Exchange.minQty := 1 # 1000 |}.

Definition rounder_001 : option (string -> Q -> py_result Q) :=
  Some (fun _ qty => Ok (Exchange.round_qty lot_001 qty)).

(** The cost of a position with the taker fee, [qty*entry_price*(1+fee)]. *)
Definition cost (qty entry_price fee_pct : Q) : Q :=
  qty * entry_price * (1 + fee_pct).

End SizingSpec.

(** ** Backtest invariants *)
Module BacktestSpec.
Import Backtest.

Definition balances_nonneg (b : Balances) : Prop :=
  forall s : Strategy, 0 <= bal_get b s.

Definition quantities_nonneg (ops : list Position) : Prop :=
  Forall (fun p => 0 <= qty p) ops.

(** Cash invariant of the loop state. *)
Definition cash_inv (st : LoopState) : Prop :=
  balances_nonneg (balances st) /\ quantities_nonneg (open_positions st).

(** The configuration and data the cash invariant relies on: a taker fee
    between 0 and 1, non-negative closes, non-negative starting shares. *)
Definition sane_fee (self : Backtester) : Prop :=
  0 <= taker_fee_pct self /\ taker_fee_pct self <= 1.

Definition nonneg_closes (df : list Bar) : Prop :=
  Forall (fun b => 0 <= close b) df.

(** At most one open position per strategy of the run's symbol. *)
Definition one_per_strategy (ops : list Position) : Prop :=
  NoDup (map strategy ops).

(** The bar indices of the entries of strategy [s], in log order. *)
Fixpoint entry_bars (s : Strategy) (l : list LogEvent) : list nat :=
  match l with
  | [] => []
  | ENTRY i s' _ _ _ :: l' =>
      if strategy_eqb s' s then i :: entry_bars s l' else entry_bars s l'
  | _ :: l' => entry_bars s l'
  end.

(** Every entry of a list of bar indices lies at least [c] bars after each
    earlier one. *)
Definition spaced (c : Z) (l : list nat) : Prop :=
  forall (a b : nat) (i j : nat),
    (a < b)%nat -> l !! a = Some i -> l !! b = Some j ->
    (c <= Z.of_nat j - Z.of_nat i)%Z.

(** A state whose last momentum entry for BTCUSDT was at bar 10, with no
    position open. *)
Definition after_entry_at_10 : LoopState :=
  {| balances := {| bal_momentum := 450; bal_ma := 500 |};
     open_positions := [];
     last_entry_bar := {[ ("BTCUSDT"%string, "momentum"%string) := 10%Z ]};
     equity_curve := [];
     ts := [];
     trades_count := {| trades_momentum := 1; trades_ma := 0 |};
     log := [] |}.

(** Cooldown invariant for strategy [s] with bar bound [b]: the logged
    entries are spaced, none is later than the recorded last entry bar, and
    that bar is at most [b]. *)
Definition cooldown_inv (self : Backtester) (symbol : string) (s : Strategy)
           (b : Z) (st : LoopState) : Prop :=
  spaced (entry_cooldown_bars self) (entry_bars s (log st))
  /\ (forall j, In j (entry_bars s (log st)) ->
        exists L, last_entry_bar st !! (symbol, strategy_name s) = Some L
                  /\ (Z.of_nat j <= L)%Z)
  /\ (forall L, last_entry_bar st !! (symbol, strategy_name s) = Some L -> (L <= b)%Z).

(** A state holding one open momentum position. *)
Definition holding_momentum : LoopState :=
  {| balances := {| bal_momentum := 450; bal_ma := 500 |};
     open_positions := [ExitSpec.bt_pos];
     last_entry_bar := {[ ("BTCUSDT"%string, "momentum"%string) := 20%Z ]};
     equity_curve := [];
     ts := [];
     trades_count := {| trades_momentum := 1; trades_ma := 0 |};
     log := [] |}.

(** The amount credited for the positions of strategy [s] when every
    position of [ops] is sold at [ex_px]. *)
Fixpoint liquidation (self : Backtester) (ex_px : Q) (s : Strategy)
         (ops : list Position) : Q :=
  match ops with
  | [] => 0
  | p :: rest =>
      if strategy_eqb (strategy p) s
      then net_proceeds self p ex_px + liquidation self ex_px s rest
      else liquidation self ex_px s rest
  end.

(** The close of the last bar. *)
Definition final_close (df : list Bar) : Q := PyNum.nth_last 1 (closes df).

(** The balances after the forced exit of a run over [df]. *)
Definition settled_balances (self : Backtester) (symbol : string) (df : list Bar)
  : Balances :=
  let st := run_bars self symbol df (length df) in
  fst (force_exit self (final_close df) (open_positions st) (balances st)).

End BacktestSpec.

(** ** Portfolio states *)
Module PortfolioSpec.

Definition pid0 : string := "1700000000000".

(** A store with one open momentum position and a momentum account of 500. *)
Definition st_open : Portfolio.State :=
  {| Portfolio.positions := {[ pid0 := ExitSpec.live_pos ]};
     Portfolio.balances := {[ "momentum"%string := 500 ]};
     Portfolio.ledger := [] |}.

(** The same store after the position, entered at time 1700000000, was
    closed two minutes later with a pnl of 25. *)
Definition st_closed : Portfolio.State :=
  Portfolio.close_position 1000 1700000120 pid0 25 st_open.

(** A bar whose open, high, low and close are all [c]. *)
Definition flat_bar (c : Q) : Bar :=
  {| open_time := 0; open := c; high := c; low := c; close := c;
     volume := 1; close_time := 59999 |}.

End PortfolioSpec.

(** ** Live scan *)
Module ScanSpec.

(** The default strategy settings, with the RSI and MACD filters off. *)
Definition sm_nofilter : Strategies.StrategyManager :=
  {| Strategies.lookback_min := 15;
     Strategies.entry_change_pct := 3;
     Strategies.ma_short := 9;
     Strategies.ma_long := 21;
     Strategies.rsi_period := 14;
     Strategies.rsi_buy := 55;
     Strategies.macd_fast := 12;
     Strategies.macd_slow := 26;
     Strategies.macd_signal := 9;
     Strategies.use_rsi_filter := false;
     Strategies.use_macd_filter := false |}.

(** Fifteen bars closing at 100 followed by one closing at 103. *)
Definition rally : list Bar :=
  repeat (PortfolioSpec.flat_bar 100) 15 ++ [PortfolioSpec.flat_bar 103].

(** The rally followed by a bar that closes back at 100. *)
Definition dip : list Bar := rally ++ [PortfolioSpec.flat_bar 100].

(** A store whose momentum account holds 500 and that has no position. *)
Definition st_funded : Portfolio.State :=
  Portfolio.update_balance 1000 0 "momentum" Portfolio.init.

(** A poll that serves [rally] for every symbol and fills every order in
    full at 103. *)
Definition poll_rally (now : Q) : Strategies.Poll :=
  {| Strategies.klines := fun _ => Ok rally;
     Strategies.buy_market := fun _ qty => (qty, 103);
     Strategies.rounder := SizingSpec.rounder_001;
     Strategies.ta_rsi := fun _ _ => None;
     Strategies.ta_macd := fun _ => (None, None);
     Strategies.now_utc := Risk.fromtimestamp now;
     Strategies.now_ts := now |}.

(** Is the event a buy order for the pair? *)
Definition is_buy (symbol strat : string) (ev : Strategies.Event) : bool :=
  match ev with
  | Strategies.Buy sym s _ _ _ => String.eqb sym symbol && String.eqb s strat
  | _ => false
  end.

End ScanSpec.

(** ** Further vocabulary *)
Module ExtraSpec.

(** Half a unit of the [n]th decimal place. *)
Definition half_unit (n : nat) : Q := 1 / (2 * PyNum.pow10 n).

(** The sum of a list of amounts. *)
Definition total (l : list Q) : Q := fold_right Qplus 0 l.

(** A run of balance updates of one strategy, in the order of the list. *)
Definition apply_pnls (initial_balance : Q) (strategy : string) (pnls : list Q)
           (st : Portfolio.State) : Portfolio.State :=
  fold_left (fun st pnl => Portfolio.update_balance initial_balance pnl strategy st)
            pnls st.

(** The ledger entry that closing [pid] with [pnl] at time [now] writes. *)
Definition exit_entry (now : Q) (pid : string) (pnl : Q) : Portfolio.LedgerEntry :=
  {| Portfolio.ts := now; Portfolio.event := "exit";
     Portfolio.details := Portfolio.ClosedPnl pid pnl |}.

(** The entry cost, fee included, tied up in open positions. *)
Fixpoint open_cost (ops : list Backtest.Position) : Q :=
  match ops with
  | [] => 0
  | p :: rest =>
      Backtest.entry_price p * Backtest.qty p + Backtest.entry_fee p + open_cost rest
  end.

(** The sum of the pnl of the logged exits, forced ones included. *)
Fixpoint realized (l : list Backtest.LogEvent) : Q :=
  match l with
  | [] => 0
  | Backtest.EXIT _ _ _ _ pnl :: l' => pnl + realized l'
  | Backtest.FORCE _ _ pnl :: l' => pnl + realized l'
  | Backtest.ENTRY _ _ _ _ _ :: l' => realized l'
  end.

(** The log of a whole run: the log of the bars, then the forced exits. *)
Definition full_log (self : Backtest.Backtester) (symbol : string) (df : list Bar)
  : list Backtest.LogEvent :=
  let st := Backtest.run_bars self symbol df (length df) in
  Backtest.log st
  ++ snd (Backtest.force_exit self (BacktestSpec.final_close df)
                              (Backtest.open_positions st) (Backtest.balances st)).

(** [trades_count[s]] *)
Definition trades_of (t : Backtest.Trades) (s : Backtest.Strategy) : nat :=
  match s with
  | Backtest.momentum => Backtest.trades_momentum t
  | Backtest.ma => Backtest.trades_ma t
  end.

(** A position as [do_enter] builds it: positive price and quantity,
    target, stop and fee derived from the entry price, and a high that is
    not below the entry price. *)
Definition well_formed (self : Backtest.Backtester) (p : Backtest.Position) : Prop :=
  0 < Backtest.entry_price p
  /\ 0 < Backtest.qty p
  /\ Backtest.tp_price p = Backtest.entry_price p * (1 + Backtest.take_profit_pct self)
  /\ Backtest.sl_price p = Backtest.entry_price p * (1 - Backtest.stop_loss_pct self)
  /\ Backtest.entry_fee p
     = Backtest.entry_price p * Backtest.qty p * Backtest.taker_fee_pct self
  /\ Backtest.entry_price p <= Backtest.highest p.

(** The state before the first bar, with [n] equity snapshots taken. *)
Definition idle (self : Backtest.Backtester) (st : Backtest.LoopState) : Prop :=
  Backtest.open_positions st = []
  /\ Backtest.log st = []
  /\ Backtest.balances st = Backtest.balances (Backtest.init_state self)
  /\ Backtest.trades_count st = Backtest.trades_count (Backtest.init_state self)
  /\ Backtest.last_entry_bar st = ∅.

(** Is the event a buy order? *)
Definition is_any_buy (ev : Strategies.Event) : bool :=
  match ev with
  | Strategies.Buy _ _ _ _ _ => true
  | _ => false
  end.

(** The books balance: the cash plus the entry cost of the open positions
    is the starting cash plus the pnl of the logged exits. *)
Definition balanced (self : Backtest.Backtester) (st : Backtest.LoopState) : Prop :=
  Backtest.bal_total (Backtest.balances st) + open_cost (Backtest.open_positions st)
  == Backtest.bal_total (Backtest.balances (Backtest.init_state self))
     + realized (Backtest.log st).

(** [sum(self.strategy_weights.values())] before normalisation *)
Definition weight_sum (self : Backtest.Backtester) : Q :=
  0 + Backtest.weight_momentum self + Backtest.weight_ma self.

(** The number of logged exits of strategy [s], forced ones included. *)
Fixpoint exits_of (s : Backtest.Strategy) (l : list Backtest.LogEvent) : nat :=
  match l with
  | [] => 0
  | Backtest.EXIT _ s' _ _ _ :: l' | Backtest.FORCE s' _ _ :: l' =>
      if Backtest.strategy_eqb s' s then S (exits_of s l') else exits_of s l'
  | Backtest.ENTRY _ _ _ _ _ :: l' => exits_of s l'
  end.

(** The number of open positions of strategy [s]. *)
Fixpoint held (s : Backtest.Strategy) (ops : list Backtest.Position) : nat :=
  match ops with
  | [] => 0
  | p :: rest =>
      if Backtest.strategy_eqb (Backtest.strategy p) s then S (held s rest)
      else held s rest
  end.

(** The trade counter of [s] is the number of its logged entries, and each
    of them is either logged as exited or still open. *)
Definition counted (s : Backtest.Strategy) (st : Backtest.LoopState) : Prop :=
  trades_of (Backtest.trades_count st) s
  = length (BacktestSpec.entry_bars s (Backtest.log st))
  /\ length (BacktestSpec.entry_bars s (Backtest.log st))
     = (exits_of s (Backtest.log st) + held s (Backtest.open_positions st))%nat.

(** A live strategy manager set up like the backtest: the momentum window
    and threshold of the backtester, moving averages over 9 and 21 bars. *)
Definition same_settings (self : Backtest.Backtester) (sm : Strategies.StrategyManager)
  : Prop :=
  Strategies.lookback_min sm = Backtest.entry_lookback_min self
  /\ Strategies.entry_change_pct sm = Backtest.entry_change_pct self
  /\ Strategies.ma_short sm = 9%nat
  /\ Strategies.ma_long sm = 21%nat.

(** The ticker passes the two tests of the selection loop. *)
Definition liquid (quote_asset : string) (min_qv_24h : Q) (t : Filters.Ticker) : Prop :=
  Filters.endswith (Filters.t_symbol t) quote_asset = true
  /\ match Filters.quoteVolume t with
     | Filters.Volume q => min_qv_24h <= q
     | Filters.NoVolume => min_qv_24h <= 0
     | Filters.BadVolume => False
     end.

(** A 24h ticker response with one liquid and one illiquid USDT pair and
    one pair of another quote asset. *)
Definition tickers3 : list Filters.Ticker :=
  [ {| Filters.t_symbol := "BTCUSDT"; Filters.quoteVolume := Filters.Volume 5000000 |};
    {| Filters.t_symbol := "ETHBTC"; Filters.quoteVolume := Filters.Volume 9000000 |};
    {| Filters.t_symbol := "XYZUSDT"; Filters.quoteVolume := Filters.Volume 10 |} ].

(** The exchange serves a non-empty frame for the symbol. *)
Definition served (klines : string -> py_result (list Bar)) (sym : string) : bool :=
  match klines sym with
  | Ok (_ :: _) => true
  | _ => false
  end.

(** The take-profit percentage covers the fee of both legs. *)
Definition target_covers_fees (self : Backtest.Backtester) : Prop :=
  1 + Backtest.taker_fee_pct self
  < (1 + Backtest.take_profit_pct self) * (1 - Backtest.taker_fee_pct self).

(** The pnl of every logged stop-loss exit is a loss and, when [gain] is
    set, the pnl of every logged take-profit exit is a gain. *)
Definition signed_exits (gain : Prop) (l : list Backtest.LogEvent) : Prop :=
  forall i s r px pnl,
    In (Backtest.EXIT i s r px pnl) l ->
    match r with
    | Backtest.SL => pnl < 0
    | Backtest.TP => gain -> 0 < pnl
    | Backtest.TRAIL => True
    end.


(** The two clock readings, in seconds, fall in the same millisecond. *)
Definition same_millisecond (a b : Q) : Prop :=
  exists ms : Z,
    (inject_Z ms <= a * 1000 /\ a * 1000 < inject_Z ms + 1)
    /\ (inject_Z ms <= b * 1000 /\ b * 1000 < inject_Z ms + 1).

End ExtraSpec.

(** * Proof steps

    Case analysis on the recursive call of a loop whose result is
    destructured by the caller; the induction hypothesis is specialised to
    the balances the call receives. *)
Ltac case_exit_loop IH :=
  match goal with
  | |- context [Backtest.exit_loop ?self ?i ?px ?rest ?b0] =>
      specialize (IH b0);
      destruct (Backtest.exit_loop self i px rest b0) as [[? ?] ?]
  end.

Ltac case_force_exit IH :=
  match goal with
  | |- context [Backtest.force_exit ?self ?px ?rest ?b0] =>
      specialize (IH b0);
      destruct (Backtest.force_exit self px rest b0) as [? ?]
  end.

(** * Properties *)

(** ** Comparisons *)
Section Comparisons.

Lemma leb_true (a b : Q) : PyNum.leb a b = true <-> a <= b.
Proof. apply Qle_bool_iff. Qed.

Lemma leb_false (a b : Q) : PyNum.leb a b = false <-> b < a.
Proof.
  unfold PyNum.leb. split; intros H.
  - apply Qnot_le_lt. intros Hle. apply Qle_bool_iff in Hle. congruence.
  - destruct (Qle_bool a b) eqn:E; [|reflexivity].
    apply Qle_bool_iff in E. apply Qlt_not_le in H. contradiction.
Qed.

Lemma ltb_true (a b : Q) : PyNum.ltb a b = true <-> a < b.
Proof.
  unfold PyNum.ltb. rewrite negb_true_iff. apply (leb_false b a).
Qed.

Lemma ltb_false (a b : Q) : PyNum.ltb a b = false <-> b <= a.
Proof.
  unfold PyNum.ltb. rewrite negb_false_iff. apply (leb_true b a).
Qed.

Lemma geb_true (a b : Q) : PyNum.geb a b = true <-> b <= a.
Proof. apply (leb_true b a). Qed.

Lemma geb_false (a b : Q) : PyNum.geb a b = false <-> a < b.
Proof. apply (leb_false b a). Qed.

Lemma gtb_true (a b : Q) : PyNum.gtb a b = true <-> b < a.
Proof. apply (ltb_true b a). Qed.

Lemma gtb_false (a b : Q) : PyNum.gtb a b = false <-> a <= b.
Proof. apply (ltb_false b a). Qed.

Lemma eqb_true (a b : Q) : PyNum.eqb a b = true <-> a == b.
Proof. apply Qeq_bool_iff. Qed.

Lemma eqb_false (a b : Q) : PyNum.eqb a b = false <-> ~ a == b.
Proof.
  unfold PyNum.eqb. split; intros H.
  - intros E. apply Qeq_bool_iff in E. congruence.
  - destruct (Qeq_bool a b) eqn:E; [|reflexivity].
    apply Qeq_bool_iff in E. contradiction.
Qed.

End Comparisons.

(** ** The daily loss guard *)
Section DailyGuard.

Import Risk GuardSpec.

Lemma day_key_same (a b : Z) : day_key a = day_key b <-> same_utc_day a b.
Proof.
  unfold day_key, same_utc_day, on_utc_day. split.
  - intros E. exists (a / 86400000000)%Z.
    pose proof (Z.mul_div_le a 86400000000 eq_refl).
    pose proof (Z.mul_succ_div_gt a 86400000000 eq_refl).
    pose proof (Z.mul_div_le b 86400000000 eq_refl).
    pose proof (Z.mul_succ_div_gt b 86400000000 eq_refl).
    rewrite E in *. lia.
  - intros (d & [Ha1 Ha2] & [Hb1 Hb2]).
    pose proof (Z.div_le_lower_bound a 86400000000 d eq_refl Ha1).
    pose proof (Z.div_lt_upper_bound a 86400000000 (d + 1) eq_refl Ha2).
    pose proof (Z.div_le_lower_bound b 86400000000 d eq_refl Hb1).
    pose proof (Z.div_lt_upper_bound b 86400000000 (d + 1) eq_refl Hb2).
    lia.
Qed.

Lemma guard_disabled (self : RiskManager) (equity : option Q) (now_utc : Z) (now_ts : Q) :
  max_daily_drawdown_pct self <= 0 ->
  check_daily_loss_guard self equity now_utc now_ts = (true, self).
Proof.
  intros H. unfold check_daily_loss_guard.
  apply leb_true in H. now rewrite H.
Qed.

Lemma guard_unreadable (self : RiskManager) (now_utc : Z) (now_ts : Q) :
  check_daily_loss_guard self None now_utc now_ts = (true, self).
Proof.
  unfold check_daily_loss_guard. now destruct (PyNum.leb (max_daily_drawdown_pct self) 0).
Qed.

Lemma guard_first_check (self : RiskManager) (e : Q) (now_utc : Z) (now_ts : Q) :
  0 < max_daily_drawdown_pct self ->
  first_check_of_day self now_utc ->
  check_daily_loss_guard self (Some e) now_utc now_ts
  = (true, set_day self now_ts (Some e)).
Proof.
  intros Hdd Hfirst. unfold check_daily_loss_guard.
  apply leb_false in Hdd. rewrite Hdd.
  destruct (PyNum.eqb (_day_anchor_ts self) 0) eqn:Ets; cbn [negb].
  - destruct Hfirst as [Hnone | [Hts _]].
    + now rewrite Hnone.
    + apply eqb_true in Ets. contradiction.
  - destruct (Z.eqb_spec (day_key (fromtimestamp (_day_anchor_ts self))) (day_key now_utc))
      as [Hd | Hd]; cbn [negb].
    + destruct Hfirst as [Hnone | [_ Hne]]; [now rewrite Hnone|].
      apply day_key_same in Hd. contradiction.
    + reflexivity.
Qed.

Lemma guard_later_check (self : RiskManager) (e anchor : Q) (now_utc : Z) (now_ts : Q) :
  0 < max_daily_drawdown_pct self ->
  later_check_of_day self now_utc anchor ->
  check_daily_loss_guard self (Some e) now_utc now_ts
  = (negb (PyNum.leb e (anchor * (1 - max_daily_drawdown_pct self))), self).
Proof.
  intros Hdd (Hst & Hts & Hday). unfold check_daily_loss_guard.
  apply leb_false in Hdd. rewrite Hdd.
  apply eqb_false in Hts. rewrite Hts. cbn [negb].
  apply day_key_same in Hday. rewrite Hday, Z.eqb_refl. cbn [negb]. rewrite Hst.
  now destruct (PyNum.leb e (anchor * (1 - max_daily_drawdown_pct self))).
Qed.

Lemma guard_first_then_later (self : RiskManager) (e1 e2 : Q) (now1 : Z) (ts1 : Q)
      (now2 : Z) (ts2 : Q) :
  0 < max_daily_drawdown_pct self ->
  first_check_of_day self now1 ->
  ~ ts1 == 0 -> same_utc_day (fromtimestamp ts1) now2 ->
  let self1 := snd (check_daily_loss_guard self (Some e1) now1 ts1) in
  fst (check_daily_loss_guard self1 (Some e2) now2 ts2)
  = negb (PyNum.leb e2 (e1 * (1 - max_daily_drawdown_pct self))).
Proof.
  intros Hdd Hfirst Hts Hday self1. subst self1.
  rewrite (guard_first_check _ _ _ _ Hdd Hfirst). cbn [snd].
  rewrite (guard_later_check (set_day self ts1 (Some e1)) e2 e1 now2 ts2).
  - reflexivity.
  - exact Hdd.
  - split; [reflexivity|]. split; assumption.
Qed.

Lemma guard_first_then_next_day (self : RiskManager) (e1 e2 : Q) (now1 : Z) (ts1 : Q)
      (now2 : Z) (ts2 : Q) :
  0 < max_daily_drawdown_pct self ->
  first_check_of_day self now1 ->
  ~ ts1 == 0 -> ~ same_utc_day (fromtimestamp ts1) now2 ->
  let self1 := snd (check_daily_loss_guard self (Some e1) now1 ts1) in
  check_daily_loss_guard self1 (Some e2) now2 ts2
  = (true, set_day self ts2 (Some e2)).
Proof.
  intros Hdd Hfirst Hts Hday self1. subst self1.
  rewrite (guard_first_check _ _ _ _ Hdd Hfirst). cbn [snd].
  rewrite (guard_first_check (set_day self ts1 (Some e1)) e2 now2 ts2).
  - reflexivity.
  - exact Hdd.
  - right. split; assumption.
Qed.

(** C10. The daily loss guard always passes when the drawdown limit is
    not positive, and also when the equity cannot be read: it then records
    nothing.  With a positive limit and a readable equity, the first check
    of a UTC day stores the equity as the day anchor and passes; a later
    check on the same UTC day leaves the anchor alone and halts (returns
    false) exactly when the equity is at or below
    [anchor * (1 - max_daily_drawdown_pct)], the boundary included; a
    check on another UTC day anchors again and passes.  The day of the
    anchor is the day of its timestamp rounded to the microsecond. *)
Theorem daily_loss_guard_spec (self : RiskManager) (equity : option Q)
        (e anchor : Q) (now_utc : Z) (now_ts : Q) :
  (max_daily_drawdown_pct self <= 0 ->
   check_daily_loss_guard self equity now_utc now_ts = (true, self))
  /\ check_daily_loss_guard self None now_utc now_ts = (true, self)
  /\ (0 < max_daily_drawdown_pct self ->
      first_check_of_day self now_utc ->
      let '(pass, self') := check_daily_loss_guard self (Some e) now_utc now_ts in
      pass = true
      /\ _day_start_equity self' = Some e
      /\ _day_anchor_ts self' = now_ts)
  /\ (0 < max_daily_drawdown_pct self ->
      later_check_of_day self now_utc anchor ->
      let '(pass, self') := check_daily_loss_guard self (Some e) now_utc now_ts in
      self' = self
      /\ (pass = false <-> e <= anchor * (1 - max_daily_drawdown_pct self)))
  /\ (0 < max_daily_drawdown_pct self ->
      first_check_of_day self now_utc ->
      ~ now_ts == 0 ->
      forall (e2 : Q) (now2 : Z) (ts2 : Q),
        let self1 := snd (check_daily_loss_guard self (Some e) now_utc now_ts) in
        (same_utc_day (fromtimestamp now_ts) now2 ->
         (fst (check_daily_loss_guard self1 (Some e2) now2 ts2) = false
          <-> e2 <= e * (1 - max_daily_drawdown_pct self))
         /\ snd (check_daily_loss_guard self1 (Some e2) now2 ts2) = self1)
        /\ (~ same_utc_day (fromtimestamp now_ts) now2 ->
            check_daily_loss_guard self1 (Some e2) now2 ts2
            = (true, set_day self ts2 (Some e2)))).
Proof.
  split; [apply guard_disabled|]. split; [apply guard_unreadable|]. split; [|split].
  - intros Hdd Hfirst. rewrite (guard_first_check _ _ _ _ Hdd Hfirst).
    cbn. auto.
  - intros Hdd Hlater. rewrite (guard_later_check _ _ _ _ _ Hdd Hlater).
    split; [reflexivity|].
    rewrite negb_false_iff. apply leb_true.
  - intros Hdd Hfirst Hts e2 now2 ts2 self1. split.
    + intros Hday. split.
      * subst self1.
        rewrite (guard_first_then_later self e e2 now_utc now_ts now2 ts2
                                        Hdd Hfirst Hts Hday).
        rewrite negb_false_iff. apply leb_true.
      * subst self1. rewrite (guard_first_check _ _ _ _ Hdd Hfirst). cbn [snd].
        rewrite (guard_later_check (set_day self now_ts (Some e)) e2 e now2 ts2);
          [reflexivity | exact Hdd |].
        split; [reflexivity|]. split; assumption.
    + intros Hday. subst self1.
      apply (guard_first_then_next_day self e e2 now_utc now_ts now2 ts2
                                       Hdd Hfirst Hts Hday).
Qed.

End DailyGuard.

Lemma daily_loss_guard_witness :
  fst (Risk.check_daily_loss_guard GuardSpec.guard0 (Some 950) 1700000100000000
                                   1700000100)
  = false
  /\ fst (Risk.check_daily_loss_guard GuardSpec.guard0 (Some 951) 1700000100000000
                                      1700000100)
     = true
  /\ Risk.check_daily_loss_guard GuardSpec.guard0 (Some 900) 1700006500000000
                                 1700006500
     = (true, Risk.set_day GuardSpec.guard0 1700006500 (Some 900))
  /\ fst (Risk.check_daily_loss_guard GuardSpec.guard_midnight (Some 900)
                                      1700006500000000 1700006500)
     = false.
Proof.
  assert (Hdd : 0 < Risk.max_daily_drawdown_pct GuardSpec.guard0) by reflexivity.
  assert (E0 : Risk.fromtimestamp (Risk._day_anchor_ts GuardSpec.guard0)
               = 1700000000000000%Z) by (vm_compute; reflexivity).
  assert (E1 : Risk.fromtimestamp (Risk._day_anchor_ts GuardSpec.guard_midnight)
               = 1700006400000000%Z) by (vm_compute; reflexivity).
  assert (Hl : GuardSpec.later_check_of_day GuardSpec.guard0 1700000100000000 1000).
  { split; [reflexivity|]. split; [discriminate|]. exists 19675%Z.
    unfold GuardSpec.on_utc_day. rewrite E0. lia. }
  assert (Hf : GuardSpec.first_check_of_day GuardSpec.guard0 1700006500000000).
  { right. split; [discriminate|]. intros (d & H1 & H2).
    unfold GuardSpec.on_utc_day in H1, H2. rewrite E0 in H1. lia. }
  assert (Hm : GuardSpec.later_check_of_day GuardSpec.guard_midnight 1700006500000000 1000).
  { split; [reflexivity|]. split; [discriminate|]. exists 19676%Z.
    unfold GuardSpec.on_utc_day. rewrite E1. lia. }
  split; [|split; [|split]].
  - pose proof (daily_loss_guard_spec GuardSpec.guard0 None 950 1000 1700000100000000
                                      1700000100) as (_ & _ & _ & H & _).
    specialize (H Hdd Hl).
    destruct (Risk.check_daily_loss_guard GuardSpec.guard0 (Some 950) 1700000100000000
                                          1700000100) as [pass self'].
    cbn [fst]. apply H. discriminate.
  - pose proof (daily_loss_guard_spec GuardSpec.guard0 None 951 1000 1700000100000000
                                      1700000100) as (_ & _ & _ & H & _).
    specialize (H Hdd Hl).
    destruct (Risk.check_daily_loss_guard GuardSpec.guard0 (Some 951) 1700000100000000
                                          1700000100) as [pass self'].
    cbn [fst]. destruct pass; [reflexivity|].
    destruct H as [_ [H _]]. specialize (H eq_refl).
    apply Qle_bool_iff in H. discriminate H.
  - pose proof (daily_loss_guard_spec GuardSpec.guard0 None 900 1000 1700006500000000
                                      1700006500) as (_ & _ & H & _).
    specialize (H Hdd Hf).
    destruct (Risk.check_daily_loss_guard GuardSpec.guard0 (Some 900) 1700006500000000
                                          1700006500) as [pass self'] eqn:Ec.
    destruct H as (-> & _). f_equal.
    revert Ec. vm_compute. now intros [= <-].
  - pose proof (daily_loss_guard_spec GuardSpec.guard_midnight None 900 1000
                                      1700006500000000 1700006500) as (_ & _ & _ & H & _).
    specialize (H Hdd Hm).
    destruct (Risk.check_daily_loss_guard GuardSpec.guard_midnight (Some 900)
                                          1700006500000000 1700006500) as [pass self'].
    cbn [fst]. apply H. discriminate.
Defined.

(** With the repository's portfolio, which has no
    [get_total_equity], the first check of a day records no anchor and an
    anchored manager passes a store whose account is in deficit. *)
Lemma daily_guard_unreadable_counterexample :
  Strategies.read_equity Portfolio.init = None
  /\ Risk.check_daily_loss_guard GuardSpec.guard_fresh
       (Strategies.read_equity Portfolio.init) 1700000100000000 1700000100
     = (true, GuardSpec.guard_fresh)
  /\ Risk._day_start_equity GuardSpec.guard_fresh = None
  /\ fst (Risk.check_daily_loss_guard GuardSpec.guard0
            (Strategies.read_equity
               (Portfolio.update_balance 1000 (- 600) "momentum" Portfolio.init))
            1700000100000000 1700000100)
     = true.
Proof. repeat split. Qed.

(** ** Exit precedence *)
Section ExitPrecedence.

Import Backtest.

Lemma bt_exit_reason_cases (self : Backtester) (pos : Position) (px : Q) :
  (tp_price pos <= px -> exit_reason self pos px = Some TP)
  /\ (px < tp_price pos -> px <= sl_price pos -> exit_reason self pos px = Some SL)
  /\ (px < tp_price pos -> sl_price pos < px ->
      px <= highest pos * (1 - trailing_stop_pct self) ->
      exit_reason self pos px = Some TRAIL)
  /\ (px < tp_price pos -> sl_price pos < px ->
      highest pos * (1 - trailing_stop_pct self) < px ->
      exit_reason self pos px = None).
Proof.
  unfold exit_reason. repeat split.
  - intros H. apply geb_true in H. now rewrite H.
  - intros H1 H2. apply geb_false in H1. apply leb_true in H2. now rewrite H1, H2.
  - intros H1 H2 H3. apply geb_false in H1. apply leb_false in H2. apply leb_true in H3.
    now rewrite H1, H2, H3.
  - intros H1 H2 H3. apply geb_false in H1. apply leb_false in H2. apply leb_false in H3.
    now rewrite H1, H2, H3.
Qed.

(** The exit loop agrees with the specification's rule applied to the
    position's updated high. *)
Lemma bt_exit_reason_refines (self : Backtester) (pos : Position) (px : Q) :
  exit_reason self pos px
  = ExitSpec.spec_exit_reason (tp_price pos) (sl_price pos) (highest pos)
                              (trailing_stop_pct self) px.
Proof. reflexivity. Qed.

Lemma exit_loop_kept (self : Backtester) (i : nat) (px : Q) (ops : list Position) :
  forall bal p,
    In p (snd (fst (exit_loop self i px ops bal))) ->
    exit_reason self p px = None /\ exists p0, In p0 ops /\ p = updated p0 px.
Proof.
  induction ops as [|pos rest IH]; intros bal p; cbn [exit_loop].
  - cbn. contradiction.
  - destruct (exit_reason self (updated pos px) px) eqn:E.
    + destruct (exit_loop self i px rest _) as [[b k] e] eqn:Er. cbn [fst snd].
      intros Hin.
      match type of Er with exit_loop _ _ _ _ ?b0 = _ => specialize (IH b0 p) end.
      rewrite Er in IH. cbn [fst snd] in IH.
      destruct (IH Hin) as [H1 (p0 & H2 & H3)]. split; [assumption|].
      exists p0. split; [now right | assumption].
    + destruct (exit_loop self i px rest bal) as [[b k] e] eqn:Er. cbn [fst snd].
      intros [Heq | Hin].
      * subst p. split; [assumption|]. exists pos. split; [now left | reflexivity].
      * specialize (IH bal p). rewrite Er in IH. cbn [fst snd] in IH.
        destruct (IH Hin) as [H1 (p0 & H2 & H3)]. split; [assumption|].
        exists p0. split; [now right | assumption].
Qed.

Lemma exit_loop_keeps (self : Backtester) (i : nat) (px : Q) (ops : list Position) :
  forall bal pos,
    In pos ops -> exit_reason self (updated pos px) px = None ->
    In (updated pos px) (snd (fst (exit_loop self i px ops bal))).
Proof.
  induction ops as [|p0 rest IH]; intros bal pos Hin Hr; [contradiction|].
  cbn [exit_loop].
  destruct Hin as [-> | Hin].
  - rewrite Hr. destruct (exit_loop self i px rest bal) as [[b k] e]. now left.
  - destruct (exit_reason self (updated p0 px) px).
    + specialize (IH (bal_add bal (strategy (updated p0 px))
                              (net_proceeds self (updated p0 px) px)) pos Hin Hr).
      destruct (exit_loop self i px rest _) as [[b k] e]. exact IH.
    + specialize (IH bal pos Hin Hr).
      destruct (exit_loop self i px rest bal) as [[b k] e]. now right.
Qed.

Lemma exit_loop_logs (self : Backtester) (i : nat) (px : Q) (ops : list Position) :
  forall bal pos r,
    In pos ops -> exit_reason self (updated pos px) px = Some r ->
    In (EXIT i (strategy pos) r px (realized_pnl self (updated pos px) px))
       (snd (exit_loop self i px ops bal)).
Proof.
  induction ops as [|p0 rest IH]; intros bal pos r Hin Hr; [contradiction|].
  cbn [exit_loop].
  destruct Hin as [-> | Hin].
  - rewrite Hr. destruct (exit_loop self i px rest _) as [[b k] e]. now left.
  - destruct (exit_reason self (updated p0 px) px).
    + specialize (IH (bal_add bal (strategy (updated p0 px))
                              (net_proceeds self (updated p0 px) px)) pos r Hin Hr).
      destruct (exit_loop self i px rest _) as [[b k] e]. now right.
    + specialize (IH bal pos r Hin Hr).
      destruct (exit_loop self i px rest bal) as [[b k] e]. exact IH.
Qed.

Lemma exit_loop_closes (self : Backtester) (i : nat) (px : Q) (ops : list Position)
      (bal : Balances) (pos : Position) (r : Reason) :
  In pos ops -> exit_reason self (updated pos px) px = Some r ->
  In (EXIT i (strategy pos) r px (realized_pnl self (updated pos px) px))
     (snd (exit_loop self i px ops bal))
  /\ ~ In (updated pos px) (snd (fst (exit_loop self i px ops bal))).
Proof.
  intros Hin Hr. split; [now apply exit_loop_logs|].
  intros Hk. apply exit_loop_kept in Hk. destruct Hk as [Hn _]. congruence.
Qed.

Lemma live_exit_reason_cases (pos : Portfolio.Position) (price stop : Q) :
  (Portfolio.tp_price pos <= price -> Exit.exit_reason pos price stop = Some "TP hit"%string)
  /\ (price < Portfolio.tp_price pos ->
      price <= Portfolio.sl_price pos \/ price <= stop ->
      Exit.exit_reason pos price stop = Some "SL/Trail hit"%string)
  /\ (price < Portfolio.tp_price pos -> Portfolio.sl_price pos < price -> stop < price ->
      Exit.exit_reason pos price stop = None).
Proof.
  unfold Exit.exit_reason. repeat split.
  - intros H. apply geb_true in H. now rewrite H.
  - intros H1 H2. apply geb_false in H1. rewrite H1.
    destruct H2 as [H2 | H2]; apply leb_true in H2; rewrite H2;
      [reflexivity | now rewrite orb_true_r].
  - intros H1 H2 H3. apply geb_false in H1. apply leb_false in H2. apply leb_false in H3.
    now rewrite H1, H2, H3.
Qed.

Lemma live_decide_exit_ok (pct : Q) (trailing : gmap string Q)
      (pos : Portfolio.Position) (price : Q) :
  ~ Portfolio.entry_price pos == 0 ->
  snd (Exit.decide_exit pct trailing pos price)
  = Ok (Exit.exit_reason pos price
          (Exit.trail_stop pct (Exit.update_trailing trailing pos price)
                           (Portfolio.symbol pos) price),
        (price - Portfolio.entry_price pos) * Portfolio.qty pos).
Proof.
  intros H. unfold Exit.decide_exit, PyNum.div.
  apply eqb_false in H. now rewrite H.
Qed.

End ExitPrecedence.

(** C4. In the backtest exit loop every open position is
    examined with its updated high, and the first matching test decides:
    [px >= tp_price] closes with reason TP; otherwise [px <= sl_price]
    closes with reason SL; otherwise [px <= highest * (1 - trailing_pct)]
    closes with reason TRAIL; otherwise the position is kept.  In
    particular a price meeting both the TP and the SL test closes with TP.
    In the live exit loop the TP test also comes first, with reason
    "TP hit"; a stop-loss match and a trailing-stop match are one branch
    with the single reason "SL/Trail hit", the trailing stop being taken
    from the per-symbol high kept by the exit manager. *)
Theorem exit_precedence :
  (forall (self : Backtest.Backtester) (i : nat) (px : Q)
          (ops : list Backtest.Position) (bal : Backtest.Balances)
          (pos : Backtest.Position),
      In pos ops ->
      let pos' := Backtest.updated pos px in
      let keep := snd (fst (Backtest.exit_loop self i px ops bal)) in
      let evs := snd (Backtest.exit_loop self i px ops bal) in
      let closed_as r :=
        In (Backtest.EXIT i (Backtest.strategy pos) r px
                          (Backtest.realized_pnl self pos' px)) evs
        /\ ~ In pos' keep in
      (Backtest.tp_price pos <= px -> closed_as Backtest.TP)
      /\ (px < Backtest.tp_price pos -> px <= Backtest.sl_price pos ->
          closed_as Backtest.SL)
      /\ (px < Backtest.tp_price pos -> Backtest.sl_price pos < px ->
          px <= Backtest.highest pos' * (1 - Backtest.trailing_stop_pct self) ->
          closed_as Backtest.TRAIL)
      /\ (px < Backtest.tp_price pos -> Backtest.sl_price pos < px ->
          Backtest.highest pos' * (1 - Backtest.trailing_stop_pct self) < px ->
          In pos' keep))
  /\ (forall (pct : Q) (trailing : gmap string Q) (pos : Portfolio.Position) (price : Q),
         ~ Portfolio.entry_price pos == 0 ->
         let stop := Exit.trail_stop pct (Exit.update_trailing trailing pos price)
                                     (Portfolio.symbol pos) price in
         let reason := ExitSpec.live_reason pct trailing pos price in
         (Portfolio.tp_price pos <= price -> reason = Some (Some "TP hit"%string))
         /\ (price < Portfolio.tp_price pos ->
             price <= Portfolio.sl_price pos \/ price <= stop ->
             reason = Some (Some "SL/Trail hit"%string))
         /\ (price < Portfolio.tp_price pos -> Portfolio.sl_price pos < price ->
             stop < price -> reason = Some None)).
Proof.
  split.
  - intros self i px ops bal pos Hin pos' keep evs closed_as.
    destruct (bt_exit_reason_cases self pos' px) as (Htp & Hsl & Htr & Hno).
    subst closed_as keep evs. cbn beta.
    change (Backtest.tp_price pos) with (Backtest.tp_price pos').
    change (Backtest.sl_price pos) with (Backtest.sl_price pos').
    repeat split.
    + now apply exit_loop_logs; [|apply Htp].
    + now apply (exit_loop_closes self i px ops bal pos Backtest.TP); [|apply Htp].
    + now apply exit_loop_logs; [|apply Hsl].
    + now apply (exit_loop_closes self i px ops bal pos Backtest.SL); [|apply Hsl].
    + now apply exit_loop_logs; [|apply Htr].
    + now apply (exit_loop_closes self i px ops bal pos Backtest.TRAIL); [|apply Htr].
    + intros H1 H2 H3. apply exit_loop_keeps; [assumption|]. now apply Hno.
  - intros pct trailing pos price Hne stop reason.
    subst reason. unfold ExitSpec.live_reason.
    rewrite (live_decide_exit_ok pct trailing pos price Hne). fold stop.
    destruct (live_exit_reason_cases pos price stop) as (Htp & Hsl & Hno).
    repeat split.
    + intros H. now rewrite Htp.
    + intros H1 H2. now rewrite Hsl.
    + intros H1 H2 H3. now rewrite Hno.
Qed.

Lemma exit_precedence_witness :
  In ExitSpec.bt_pos [ExitSpec.bt_pos]
  /\ In (Backtest.EXIT 21 Backtest.momentum Backtest.TP 106
           (Backtest.realized_pnl ExitSpec.bt_default
              (Backtest.updated ExitSpec.bt_pos 106) 106))
        (snd (Backtest.exit_loop ExitSpec.bt_default 21 106 [ExitSpec.bt_pos]
                                 ExitSpec.bt_bal0))
  /\ ExitSpec.live_reason 1 ExitSpec.trailing_110 ExitSpec.live_pos 97
     = Some (Some "SL/Trail hit"%string).
Proof.
  destruct exit_precedence as [Hbt Hlive].
  assert (Hin : In ExitSpec.bt_pos [ExitSpec.bt_pos]) by (now left).
  split; [exact Hin|]. split.
  - destruct (Hbt ExitSpec.bt_default 21%nat 106 [ExitSpec.bt_pos] ExitSpec.bt_bal0
                  ExitSpec.bt_pos Hin) as (Htp & _).
    apply Htp. discriminate.
  - assert (Hne : ~ Portfolio.entry_price ExitSpec.live_pos == 0) by discriminate.
    destruct (Hlive 1 ExitSpec.trailing_110 ExitSpec.live_pos 97 Hne) as (_ & Hsl & _).
    apply Hsl; [reflexivity | left; discriminate].
Defined.

(** The live exit loop gives a stop-loss match and a trailing-only match
    the same reason, and leaves a position open at a price below
    [highest * (1 - trailing_pct)] when the symbol never traded above the
    entry price: the specification's rule answers SL, TRAIL and TRAIL. *)
Lemma exit_precedence_live_counterexample :
  ExitSpec.spec_exit_reason 120 98 110 (1 # 100) 97 = Some Backtest.SL
  /\ ExitSpec.spec_exit_reason 120 98 110 (1 # 100) (1089 # 10) = Some Backtest.TRAIL
  /\ ExitSpec.live_reason 1 ExitSpec.trailing_110 ExitSpec.live_pos 97
     = ExitSpec.live_reason 1 ExitSpec.trailing_110 ExitSpec.live_pos (1089 # 10)
  /\ ExitSpec.spec_exit_reason 120 98 (PyNum.max 100 (985 # 10)) (1 # 100) (985 # 10)
     = Some Backtest.TRAIL
  /\ ExitSpec.live_reason 1 ∅ ExitSpec.live_pos (985 # 10) = Some None.
Proof. repeat split; vm_compute; reflexivity. Qed.

(** ** Exit settlement *)
Section ExitSettlement.

Import Backtest.

Lemma net_proceeds_eq (self : Backtester) (pos : Position) (ex_px : Q) :
  net_proceeds self pos ex_px == ex_px * qty pos * (1 - taker_fee_pct self).
Proof. unfold net_proceeds. ring. Qed.

(** A position closed by the exit loop is credited at the bar's close
    itself, and its logged pnl is that credit less the entry cost. *)
Lemma exit_loop_single (self : Backtester) (i : nat) (px : Q) (pos : Position)
      (bal : Balances) (r : Reason) :
  exit_reason self (updated pos px) px = Some r ->
  exit_loop self i px [pos] bal
  = (bal_add bal (strategy pos) (net_proceeds self (updated pos px) px), [],
     [EXIT i (strategy pos) r px
           (net_proceeds self (updated pos px) px
            - (entry_price pos * qty pos + entry_fee pos))]).
Proof. intros H. cbn [exit_loop]. rewrite H. reflexivity. Qed.

(** The live [_close_position] ends in a [TypeError], or in a [KeyError]
    for a position stored without a strategy: the portfolio is never
    credited. *)
Lemma live_close_raises (initial_balance now : Q) (pos : Portfolio.Position)
      (mkt_price pnl : Q) (reason : string) (sold : Q * Q) (st : Portfolio.State) :
  snd (Exit._close_position initial_balance now pos mkt_price pnl reason sold st)
  = Raise (match Portfolio.strategy pos with Some _ => TypeError | None => KeyError end).
Proof. unfold Exit._close_position. destruct sold, (Portfolio.strategy pos); reflexivity. Qed.

End ExitSettlement.

(** C5. Default fees, a position of quantity 1
    entered at 100 with target 105, bar close 106: the exit loop closes it
    with reason TP and credits [106 * (1 - 0.0004)], the close price
    without the exit slippage; the credit at the slipped price,
    [106 * (1 - 0.0005)] less the fee on it, is smaller.  The logged pnl is
    the credit less [entry_price * qty + entry_fee]. *)
Theorem exit_credit_without_slippage :
  let res := Backtest.exit_loop ExitSpec.bt_default 21 106 [ExitSpec.bt_pos]
                                ExitSpec.bt_bal0 in
  let credit := Backtest.bal_momentum (fst (fst res)) in
  let with_slippage :=
    106 * (1 - Backtest.slippage_pct ExitSpec.bt_default) * 1
    - 106 * (1 - Backtest.slippage_pct ExitSpec.bt_default) * 1
      * Backtest.taker_fee_pct ExitSpec.bt_default in
  credit == 106 * 1 - 106 * 1 * (4 # 10000)
  /\ with_slippage < credit
  /\ snd res = [Backtest.EXIT 21 Backtest.momentum Backtest.TP 106
                   (Backtest.net_proceeds ExitSpec.bt_default
                      (Backtest.updated ExitSpec.bt_pos 106) 106
                    - (100 * 1 + (4 # 100)))].
Proof. repeat split. Qed.

(** ** Sizing *)
Section Sizing.

(** C1. With the whole balance allocated per
    trade and a risk budget equal to the stop distance, the live sizing
    returns 10 units at entry price 100 for a balance of 1000: with the
    taker fee the position costs 1000.4, more than the balance. *)
Theorem live_size_exceeds_balance :
  let qty := Risk.compute_position_size_by_risk SizingSpec.risk_full_alloc
               SizingSpec.rounder_001 1000 100 98 (Some "BTCUSDT"%string) in
  qty == 10
  /\ 1000 < SizingSpec.cost qty 100 (Risk.taker_fee_pct SizingSpec.risk_full_alloc).
Proof. split; vm_compute; reflexivity. Qed.

End Sizing.

(** ** Strategy accounts *)

(** C9. The backtest starts each strategy at
    its weighted share of the starting capital.  A fresh portfolio manager
    holds no account: the first balance read returns 0 for every strategy,
    although a first update of the same account starts from half the
    starting capital. *)
Theorem first_balance_read_is_zero :
  (forall (self : Backtest.Backtester) (s : Backtest.Strategy),
      Backtest.bal_get (Backtest.balances (Backtest.init_state self)) s
      = Backtest.initial_balance self * Backtest.strategy_weights self s)
  /\ (forall strategy : string, Portfolio.get_balance Portfolio.init strategy = 0)
  /\ Portfolio.get_balance
       (Portfolio.update_balance 1000 0 "momentum" Portfolio.init) "momentum" == 500.
Proof.
  split; [|split].
  - intros self []; reflexivity.
  - intros strategy. unfold Portfolio.get_balance, Portfolio.init. cbn.
    now rewrite lookup_empty.
  - vm_compute. reflexivity.
Qed.

(** ** Cash accounting of the backtest *)
Section BacktestCash.

Import Backtest BacktestSpec.

Lemma bal_get_add (b : Balances) (s s' : Strategy) (x : Q) :
  bal_get (bal_add b s x) s'
  = if strategy_eqb s s' then bal_get b s' + x else bal_get b s'.
Proof. destruct s, s'; reflexivity. Qed.

Lemma bal_add_nonneg (b : Balances) (s : Strategy) (x : Q) :
  balances_nonneg b -> 0 <= bal_get b s + x -> balances_nonneg (bal_add b s x).
Proof.
  intros Hb Hx s'. rewrite bal_get_add.
  destruct s, s'; cbn [strategy_eqb]; try apply Hb; exact Hx.
Qed.

Lemma net_proceeds_nonneg (self : Backtester) (pos : Position) (px : Q) :
  sane_fee self -> 0 <= px -> 0 <= qty pos -> 0 <= net_proceeds self pos px.
Proof.
  intros [_ Hfee] Hpx Hq. rewrite net_proceeds_eq.
  apply Qmult_le_0_compat; [apply Qmult_le_0_compat; assumption | lra].
Qed.

Lemma exit_loop_cash (self : Backtester) (i : nat) (px : Q) (ops : list Position) :
  sane_fee self -> 0 <= px ->
  forall bal,
    balances_nonneg bal -> quantities_nonneg ops ->
    balances_nonneg (fst (fst (exit_loop self i px ops bal)))
    /\ quantities_nonneg (snd (fst (exit_loop self i px ops bal))).
Proof.
  intros Hfee Hpx. induction ops as [|pos rest IH]; intros bal Hb Hq.
  - split; [exact Hb | constructor].
  - inversion Hq as [|? ? Hq0 Hqr]; subst. cbn [exit_loop].
    destruct (exit_reason self (updated pos px) px).
    + case_exit_loop IH.
      cbn [fst snd] in *. apply IH; [|assumption].
      apply bal_add_nonneg; [assumption|].
      pose proof (net_proceeds_nonneg self (updated pos px) px Hfee Hpx Hq0).
      pose proof (Hb (strategy (updated pos px))). lra.
    + specialize (IH bal Hb Hqr).
      destruct (exit_loop self i px rest bal) as [[b k] e]. cbn [fst snd] in *.
      destruct IH as [IH1 IH2]. split; [assumption|].
      constructor; assumption.
Qed.

Lemma exit_phase_cash (self : Backtester) (i : nat) (t : Z) (px : Q) (st : LoopState) :
  sane_fee self -> 0 <= px -> cash_inv st -> cash_inv (exit_phase self i t px st).
Proof.
  intros Hfee Hpx [Hb Hq]. unfold exit_phase.
  pose proof (exit_loop_cash self i px (open_positions st) Hfee Hpx (balances st) Hb Hq)
    as H.
  destruct (exit_loop self i px (open_positions st) (balances st)) as [[b k] e].
  exact H.
Qed.

(** What [do_enter] guarantees when it opens a position: the new position
    is the last one, its quantity is positive, its debit
    [entry*qty + fee_e] is at most the balance read before, and only that
    debit leaves the strategy's balance. *)
Lemma do_enter_entered (self : Backtester) (symbol : string) (i : nat) (t : Z) (px : Q)
      (st st' : LoopState) (s : Strategy) :
  do_enter self symbol i t px st s = Entered st' ->
  exists p,
    open_positions st' = open_positions st ++ [p]
    /\ strategy p = s /\ entry_index p = i
    /\ entry_price p = px * (1 + slippage_pct self)
    /\ 0 < qty p
    /\ entry_price p * qty p + entry_fee p <= bal_get (balances st) s
    /\ entry_fee p = entry_price p * qty p * taker_fee_pct self
    /\ size_entry self (bal_get (balances st) s) (entry_price p)
       = Ok (qty p, entry_fee p, entry_price p * qty p + entry_fee p)
    /\ balances st' = bal_add (balances st) s (- (entry_price p * qty p + entry_fee p))
    /\ last_entry_bar st' = <[(symbol, strategy_name s) := Z.of_nat i]> (last_entry_bar st)
    /\ log st' = log st ++ [ENTRY i s (entry_price p) (qty p) (entry_fee p)].
Proof.
  unfold do_enter.
  destruct (PyNum.leb (bal_get (balances st) s * per_trade_pct self) 0); [discriminate|].
  destruct (size_entry self (bal_get (balances st) s) (px * (1 + slippage_pct self)))
    as [[[q f] n]|e] eqn:Es; [|discriminate].
  destruct (PyNum.leb q 0) eqn:Eq; [discriminate|].
  destruct (PyNum.gtb n (bal_get (balances st) s)) eqn:En; [discriminate|].
  cbn [orb]. intros H. injection H as <-.
  eexists. cbn. split; [reflexivity|].
  assert (Hn : n = px * (1 + slippage_pct self) * q + f
               /\ f = px * (1 + slippage_pct self) * q * taker_fee_pct self).
  { unfold size_entry in Es.
    destruct (PyNum.div _ _) as [q0|]; [|discriminate].
    destruct (PyNum.gtb _ _).
    - destruct (PyNum.div _ _) as [q1|]; [|discriminate].
      injection Es as <- <- <-. split; reflexivity.
    - injection Es as <- <- <-. split; reflexivity. }
  destruct Hn as [Hn Hf].
  apply leb_false in Eq. apply gtb_false in En.
  repeat split; try reflexivity; try assumption;
    cbn [entry_price qty entry_fee]; rewrite <- ?Hn; try assumption; try reflexivity.
Qed.

Lemma do_enter_cash (self : Backtester) (symbol : string) (i : nat) (t : Z) (px : Q)
      (st st' : LoopState) (s : Strategy) :
  do_enter self symbol i t px st s = Entered st' -> cash_inv st -> cash_inv st'.
Proof.
  intros H [Hb Hq]. apply do_enter_entered in H.
  destruct H as (p & Hops & _ & _ & _ & Hqty & Hneed & _ & _ & Hbal & _).
  split.
  - rewrite Hbal. apply bal_add_nonneg; [assumption | lra].
  - unfold quantities_nonneg. rewrite Hops. apply Forall_app. split; [assumption|].
    constructor; [lra | constructor].
Qed.

Lemma try_enter_cash (self : Backtester) (symbol : string) (i : nat) (t : Z) (px : Q)
      (signal : bool) (s : Strategy) (st : LoopState) :
  cash_inv st -> cash_inv (try_enter self symbol i t px signal s st).
Proof.
  intros H. unfold try_enter.
  destruct (can_enter self symbol i st s && signal); [|assumption].
  destruct (do_enter self symbol i t px st s) eqn:E; try assumption.
  now apply (do_enter_cash _ _ _ _ _ _ _ _ E).
Qed.

Lemma entry_phase_cash (self : Backtester) (symbol : string) (win : list Bar)
      (i : nat) (t : Z) (px : Q) (st : LoopState) :
  cash_inv st -> cash_inv (entry_phase self symbol win i t px st).
Proof.
  intros H. unfold entry_phase.
  destruct (_atr_pct win 14); [|assumption].
  destruct (PyNum.ltb _ _); [assumption|].
  now do 2 apply try_enter_cash.
Qed.

Lemma nth_nonneg (l : list Q) (k : nat) :
  Forall (fun x => 0 <= x) l -> 0 <= nth k l 0.
Proof.
  intros H. revert k.
  induction H as [|x l Hx Hl IH]; intros [|k]; cbn [nth];
    [apply Qle_refl | apply Qle_refl | assumption | apply IH].
Qed.

Lemma bar_close_nonneg (df : list Bar) (i : nat) :
  nonneg_closes df -> 0 <= PyNum.nth_last 1 (closes (firstn (i + 1) df)).
Proof.
  intros H. unfold PyNum.nth_last. apply nth_nonneg.
  unfold closes. apply Forall_map.
  apply Forall_forall. intros b Hb. apply (proj1 (Forall_forall _ _) H).
  exact (subseteq_take (i + 1) df b Hb).
Qed.

Lemma step_cash (self : Backtester) (symbol : string) (df : list Bar)
      (st : LoopState) (i : nat) :
  sane_fee self -> nonneg_closes df -> cash_inv st -> cash_inv (step self symbol df st i).
Proof.
  intros Hfee Hdf H. unfold step.
  apply entry_phase_cash, exit_phase_cash; try assumption.
  now apply bar_close_nonneg.
Qed.

Lemma run_bars_S (self : Backtester) (symbol : string) (df : list Bar) (n : nat) :
  run_bars self symbol df (S n) = step self symbol df (run_bars self symbol df n) n.
Proof.
  unfold run_bars. rewrite seq_S, fold_left_app. reflexivity.
Qed.

Lemma run_bars_cash (self : Backtester) (symbol : string) (df : list Bar) (n : nat) :
  sane_fee self -> nonneg_closes df ->
  balances_nonneg (balances (init_state self)) ->
  cash_inv (run_bars self symbol df n).
Proof.
  intros Hfee Hdf Hinit. induction n as [|n IH].
  - split; [exact Hinit | constructor].
  - rewrite run_bars_S. now apply step_cash.
Qed.

End BacktestCash.

(** C3. In the backtest driver, with a taker fee between 0 and
    1, non-negative closes and non-negative starting shares, every
    strategy's cash balance is non-negative after every bar.  An entry
    attempt either leaves the state unchanged or appends one position whose
    debit [entry_price*qty + entry_fee] is at most the strategy's balance
    and is the only amount taken from it.  The portfolio manager's
    [update_balance] adds the signed pnl to the account without any
    refusal. *)
Theorem backtest_balances_nonneg :
  (forall (self : Backtest.Backtester) (symbol : string) (df : list Bar)
          (n : nat) (s : Backtest.Strategy),
      BacktestSpec.sane_fee self ->
      BacktestSpec.nonneg_closes df ->
      BacktestSpec.balances_nonneg (Backtest.balances (Backtest.init_state self)) ->
      0 <= Backtest.bal_get (Backtest.balances (Backtest.run_bars self symbol df n)) s)
  /\ (forall (self : Backtest.Backtester) (symbol : string) (i : nat) (t : Z) (px : Q)
             (signal : bool) (s : Backtest.Strategy) (st : Backtest.LoopState),
         let st' := Backtest.try_enter self symbol i t px signal s st in
         st' = st
         \/ exists p,
             Backtest.open_positions st' = Backtest.open_positions st ++ [p]
             /\ Backtest.entry_price p * Backtest.qty p + Backtest.entry_fee p
                <= Backtest.bal_get (Backtest.balances st) s
             /\ Backtest.balances st'
                = Backtest.bal_add (Backtest.balances st) s
                    (- (Backtest.entry_price p * Backtest.qty p + Backtest.entry_fee p)))
  /\ (forall (initial_balance pnl : Q) (strategy : string) (st : Portfolio.State),
         Portfolio.get_balance
           (Portfolio.update_balance initial_balance pnl strategy st) strategy
         = default (initial_balance / 2) (Portfolio.balances st !! strategy) + pnl).
Proof.
  split; [|split].
  - intros self symbol df n s Hfee Hdf Hinit.
    now apply (run_bars_cash self symbol df n Hfee Hdf Hinit).
  - intros self symbol i t px signal s st st'. subst st'. unfold Backtest.try_enter.
    destruct (Backtest.can_enter self symbol i st s && signal); [|now left].
    destruct (Backtest.do_enter self symbol i t px st s) eqn:E; try (now left).
    right. apply do_enter_entered in E.
    destruct E as (p & Hops & _ & _ & _ & _ & Hneed & _ & _ & Hbal & _).
    exists p. auto.
  - intros initial_balance pnl strategy st.
    unfold Portfolio.get_balance, Portfolio.update_balance. cbn.
    now rewrite lookup_insert_eq.
Qed.

Lemma backtest_balances_nonneg_witness :
  BacktestSpec.entry_bars
    Backtest.momentum
    (Backtest.log (Backtest.run_bars ExitSpec.bt_default "BTCUSDT" ScanSpec.dip 17))
  = [15%nat]
  /\ ExtraSpec.exits_of
       Backtest.momentum
       (Backtest.log (Backtest.run_bars ExitSpec.bt_default "BTCUSDT" ScanSpec.dip 17))
     = 1%nat
  /\ Backtest.bal_get
       (Backtest.balances
          (Backtest.run_bars ExitSpec.bt_default "BTCUSDT" ScanSpec.dip 17))
       Backtest.momentum < 500
  /\ 0 <= Backtest.bal_get
            (Backtest.balances
               (Backtest.run_bars ExitSpec.bt_default "BTCUSDT" ScanSpec.dip 17))
            Backtest.momentum.
Proof.
  split; [vm_compute; reflexivity|]. split; [vm_compute; reflexivity|].
  split; [vm_compute; reflexivity|].
  destruct backtest_balances_nonneg as [H _].
  apply H.
  - split; discriminate.
  - repeat constructor; discriminate.
  - intros []; discriminate.
Defined.

(** A loss larger than the account drives the stored balance below zero. *)
Lemma update_balance_negative_counterexample :
  Portfolio.get_balance
    (Portfolio.update_balance 1000 (- 600) "momentum" Portfolio.init) "momentum" < 0.
Proof. vm_compute. reflexivity. Qed.

(** The backtest entry is affordable: the quantity of a position that
    [do_enter] opens costs, fee included, at most the balance read; when
    the allocation-capped quantity would cost more, the quantity is
    [balance / (entry * (1 + fee))]. *)
Lemma backtest_entry_affordable (self : Backtest.Backtester) (symbol : string)
      (i : nat) (t : Z) (px : Q) (st st' : Backtest.LoopState) (s : Backtest.Strategy) :
  Backtest.do_enter self symbol i t px st s = Backtest.Entered st' ->
  exists p,
    Backtest.open_positions st' = Backtest.open_positions st ++ [p]
    /\ SizingSpec.cost (Backtest.qty p) (Backtest.entry_price p) (Backtest.taker_fee_pct self)
       <= Backtest.bal_get (Backtest.balances st) s
    /\ (let balance := Backtest.bal_get (Backtest.balances st) s in
        let capped := balance * Backtest.per_trade_pct self / Backtest.entry_price p in
        balance < SizingSpec.cost capped (Backtest.entry_price p) (Backtest.taker_fee_pct self) ->
        Backtest.qty p
        = balance / (Backtest.entry_price p * (1 + Backtest.taker_fee_pct self))).
Proof.
  intros E. apply do_enter_entered in E.
  destruct E as (p & Hops & _ & _ & _ & _ & Hneed & Hfee & Hsize & _).
  exists p. split; [assumption|]. split.
  - unfold SizingSpec.cost. rewrite Hfee in Hneed.
    eapply Qle_trans; [|exact Hneed].
    apply Qle_lteq. right. ring.
  - intros balance capped Hlt. subst balance capped.
    unfold Backtest.size_entry, PyNum.div in Hsize.
    destruct (PyNum.eqb (Backtest.entry_price p) 0); [discriminate|].
    match type of Hsize with
    | context [PyNum.gtb ?n ?b] => destruct (PyNum.gtb n b) eqn:Eg
    end.
    + destruct (PyNum.eqb _ 0); [discriminate|].
      now injection Hsize as Hq _ _.
    + exfalso. apply gtb_false in Eg. unfold SizingSpec.cost in Hlt.
      apply (Qlt_not_le _ _ Hlt). eapply Qle_trans; [|exact Eg].
      apply Qle_lteq. right. ring.
Qed.

(** ** Closing positions *)
Section Closing.

Import Portfolio.

Lemma set_status_closed_id (p : Position) :
  status p = Some "closed"%string -> set_status p "closed" = p.
Proof. destruct p; cbn. now intros ->. Qed.

Lemma close_position_unknown (initial_balance now : Q) (pid : string) (pnl : Q)
      (st : State) :
  positions st !! pid = None -> close_position initial_balance now pid pnl st = st.
Proof. intros H. unfold close_position. now rewrite H. Qed.

Lemma close_position_again (initial_balance now : Q) (pid : string) (pnl : Q)
      (st : State) (p : Position) :
  positions st !! pid = Some p -> status p = Some "closed"%string ->
  let st' := close_position initial_balance now pid pnl st in
  let strat := default "default"%string (strategy p) in
  positions st' = positions st
  /\ balances st' !! strat
     = Some (default (initial_balance / 2) (balances st !! strat) + pnl)
  /\ (forall other, other <> strat -> balances st' !! other = balances st !! other)
  /\ ledger st'
     = ledger st ++ [ {| ts := now; event := "exit"; details := ClosedPnl pid pnl |} ].
Proof.
  intros Hp Hs. unfold close_position. rewrite Hp. cbn.
  rewrite (set_status_closed_id p Hs). repeat split.
  - now apply insert_id.
  - now rewrite lookup_insert_eq.
  - intros other Hne. now rewrite lookup_insert_ne.
Qed.

End Closing.

(** C2. Closing a position id that is not in the store is a
    no-op.  Closing a stored id that is already closed never raises and
    leaves the stored positions unchanged, but it is not a no-op: the pnl
    is added to the strategy balance again and one more exit event is
    appended to the ledger. *)
Theorem close_position_not_idempotent (initial_balance now : Q) (pid : string) (pnl : Q)
        (st : Portfolio.State) :
  (Portfolio.positions st !! pid = None ->
   Portfolio.close_position initial_balance now pid pnl st = st)
  /\ (forall p : Portfolio.Position,
         Portfolio.positions st !! pid = Some p ->
         Portfolio.status p = Some "closed"%string ->
         let st' := Portfolio.close_position initial_balance now pid pnl st in
         let strat := default "default"%string (Portfolio.strategy p) in
         Portfolio.positions st' = Portfolio.positions st
         /\ Portfolio.get_balance st' strat
            = default (initial_balance / 2) (Portfolio.balances st !! strat) + pnl
         /\ Portfolio.ledger st'
            = Portfolio.ledger st
                ++ [ {| Portfolio.ts := now; Portfolio.event := "exit";
                        Portfolio.details := Portfolio.ClosedPnl pid pnl |} ]).
Proof.
  split; [apply close_position_unknown|].
  intros p Hp Hs st' strat.
  destruct (close_position_again initial_balance now pid pnl st p Hp Hs)
    as (H1 & H2 & _ & H4).
  fold st' strat in H1, H2, H4. repeat split; try assumption.
  unfold Portfolio.get_balance. now rewrite H2.
Qed.

Lemma close_position_not_idempotent_witness :
  Portfolio.positions PortfolioSpec.st_closed !! PortfolioSpec.pid0
  = Some (Portfolio.set_status ExitSpec.live_pos "closed")
  /\ Portfolio.get_balance
       (Portfolio.close_position 1000 1700000900 PortfolioSpec.pid0 25
                                 PortfolioSpec.st_closed) "momentum"
     == 550.
Proof.
  assert (Hp : Portfolio.positions PortfolioSpec.st_closed !! PortfolioSpec.pid0
               = Some (Portfolio.set_status ExitSpec.live_pos "closed"))
    by (vm_compute; reflexivity).
  split; [exact Hp|].
  destruct (close_position_not_idempotent 1000 1700000900 PortfolioSpec.pid0 25
              PortfolioSpec.st_closed) as [_ H].
  destruct (H _ Hp eq_refl) as (_ & Hbal & _).
  change (Portfolio.get_balance
            (Portfolio.close_position 1000 1700000900 PortfolioSpec.pid0 25
                                      PortfolioSpec.st_closed) "momentum"
          = default (1000 / 2)
                    (Portfolio.balances PortfolioSpec.st_closed !! "momentum"%string) + 25)
    in Hbal.
  rewrite Hbal. vm_compute. reflexivity.
Defined.

(** Closing the same id twice credits the pnl twice and writes two exit
    events. *)
Lemma close_twice_counterexample :
  let st2 := Portfolio.close_position 1000 1700000900 PortfolioSpec.pid0 25
                                      PortfolioSpec.st_closed in
  (Portfolio.is_closed <$> Portfolio.positions PortfolioSpec.st_closed !! PortfolioSpec.pid0)
  = Some true
  /\ Portfolio.get_balance PortfolioSpec.st_closed "momentum" == 525
  /\ Portfolio.get_balance st2 "momentum" == 550
  /\ length (Portfolio.ledger PortfolioSpec.st_closed) = 1%nat
  /\ length (Portfolio.ledger st2) = 2%nat
  /\ st2 <> PortfolioSpec.st_closed.
Proof.
  repeat split; try (vm_compute; reflexivity).
  intros H. apply (f_equal (fun st => length (Portfolio.ledger st))) in H.
  vm_compute in H. discriminate H.
Qed.

(** ** One open position per pair *)
Section OnePerPair.

Import Backtest BacktestSpec.

Lemma strategy_eqb_eq (a b : Strategy) : strategy_eqb a b = true <-> a = b.
Proof. destruct a, b; cbn; split; congruence. Qed.

Lemma exit_loop_strategies (self : Backtester) (i : nat) (px : Q) (ops : list Position) :
  forall bal s,
    In s (map strategy (snd (fst (exit_loop self i px ops bal)))) ->
    In s (map strategy ops).
Proof.
  intros bal s Hin. apply in_map_iff in Hin. destruct Hin as (p & Hs & Hp).
  apply exit_loop_kept in Hp. destruct Hp as (_ & p0 & Hp0 & ->).
  apply in_map_iff. exists p0. split; [|assumption]. now rewrite <- Hs.
Qed.

Lemma exit_loop_one_per_strategy (self : Backtester) (i : nat) (px : Q)
      (ops : list Position) :
  forall bal,
    one_per_strategy ops ->
    one_per_strategy (snd (fst (exit_loop self i px ops bal))).
Proof.
  unfold one_per_strategy.
  induction ops as [|pos rest IH]; intros bal Hnd; [constructor|].
  cbn [map] in Hnd. apply NoDup_cons in Hnd. destruct Hnd as [Hnotin Hnd].
  cbn [exit_loop].
  destruct (exit_reason self (updated pos px) px).
  - case_exit_loop IH. exact (IH Hnd).
  - pose proof (exit_loop_strategies self i px rest bal (strategy pos)) as Hsub.
    specialize (IH bal Hnd).
    destruct (exit_loop self i px rest bal) as [[b k] e]. cbn [fst snd] in *.
    cbn [map]. apply NoDup_cons. split; [|assumption].
    intros Hin. apply Hnotin. apply list_elem_of_In. apply Hsub.
    now apply list_elem_of_In.
Qed.

Lemma exit_phase_one_per_strategy (self : Backtester) (i : nat) (t : Z) (px : Q)
      (st : LoopState) :
  one_per_strategy (open_positions st) ->
  one_per_strategy (open_positions (exit_phase self i t px st)).
Proof.
  intros H. unfold exit_phase.
  pose proof (exit_loop_one_per_strategy self i px (open_positions st) (balances st) H)
    as H'.
  destruct (exit_loop self i px (open_positions st) (balances st)) as [[b k] e].
  exact H'.
Qed.

Lemma can_enter_no_open (self : Backtester) (symbol : string) (i : nat)
      (st : LoopState) (s : Strategy) :
  can_enter self symbol i st s = true -> ~ In s (map strategy (open_positions st)).
Proof.
  unfold can_enter. intros H. apply andb_true_iff in H. destruct H as [_ H].
  apply negb_true_iff in H. intros Hin. apply in_map_iff in Hin.
  destruct Hin as (p & Hs & Hp).
  assert (existsb (fun p => strategy_eqb (strategy p) s) (open_positions st) = true).
  { apply existsb_exists. exists p. split; [assumption|]. now apply strategy_eqb_eq. }
  congruence.
Qed.

Lemma try_enter_one_per_strategy (self : Backtester) (symbol : string) (i : nat) (t : Z)
      (px : Q) (signal : bool) (s : Strategy) (st : LoopState) :
  one_per_strategy (open_positions st) ->
  one_per_strategy (open_positions (try_enter self symbol i t px signal s st)).
Proof.
  intros H. unfold try_enter.
  destruct (can_enter self symbol i st s) eqn:Ec; cbn [andb]; [|assumption].
  destruct signal; [|assumption].
  destruct (do_enter self symbol i t px st s) eqn:E; try assumption.
  apply do_enter_entered in E. destruct E as (p & Hops & Hs & _).
  unfold one_per_strategy. rewrite Hops, map_app. cbn [map].
  apply NoDup_app. split; [assumption|]. split.
  - intros x Hx Hx'. apply list_elem_of_In in Hx.
    apply list_elem_of_In in Hx'. destruct Hx' as [<-|[]].
    rewrite Hs in Hx. now apply (can_enter_no_open _ _ _ _ _ Ec).
  - apply NoDup_singleton.
Qed.

Lemma step_one_per_strategy (self : Backtester) (symbol : string) (df : list Bar)
      (st : LoopState) (i : nat) :
  one_per_strategy (open_positions st) ->
  one_per_strategy (open_positions (step self symbol df st i)).
Proof.
  intros H. unfold step, entry_phase.
  match goal with
  | |- context [exit_phase self i ?t ?px st] =>
      pose proof (exit_phase_one_per_strategy self i t px st H) as H1;
      set (st1 := exit_phase self i t px st) in *
  end.
  destruct (_atr_pct _ 14); [|assumption].
  destruct (PyNum.ltb _ _); [assumption|].
  now do 2 apply try_enter_one_per_strategy.
Qed.

Lemma run_bars_one_per_strategy (self : Backtester) (symbol : string) (df : list Bar)
      (n : nat) :
  one_per_strategy (open_positions (run_bars self symbol df n)).
Proof.
  induction n as [|n IH].
  - constructor.
  - rewrite run_bars_S. now apply step_one_per_strategy.
Qed.

Lemma can_enter_skips_open (self : Backtester) (symbol : string) (i : nat)
      (st : LoopState) (s : Strategy) (p : Position) :
  In p (open_positions st) -> strategy p = s -> can_enter self symbol i st s = false.
Proof.
  intros Hin Hs. destruct (can_enter self symbol i st s) eqn:E; [|reflexivity].
  exfalso. apply (can_enter_no_open _ _ _ _ _ E).
  apply in_map_iff. now exists p.
Qed.

End OnePerPair.

(** ** The live scan and the store *)
Section LiveScan.

Import Strategies.

Lemma live_try_enter_store (risk : Risk.RiskManager) (poll : Poll)
      (snapshot : gmap string Portfolio.Position) (symbol strat : string)
      (signal : bool) (price : Q) (st : Portfolio.State) :
  snd (fst (try_enter risk poll snapshot symbol strat signal price st)) = st.
Proof.
  unfold try_enter.
  destruct (negb (has_open snapshot symbol strat) && signal); [|reflexivity].
  destruct (Risk.compute_sl_tp_prices risk price None None) as [sl tp].
  destruct (PyNum.gtb _ 0); [|reflexivity].
  destruct (buy_market poll symbol _) as [eq ep].
  destruct (PyNum.gtb eq 0); reflexivity.
Qed.

Lemma live_try_enter_buys (risk : Risk.RiskManager) (poll : Poll)
      (snapshot : gmap string Portfolio.Position) (symbol strat : string)
      (signal : bool) (price : Q) (st : Portfolio.State) (ev : Event)
      (sym' strat' : string) :
  In ev (snd (try_enter risk poll snapshot symbol strat signal price st)) ->
  ScanSpec.is_buy sym' strat' ev = true ->
  sym' = symbol /\ strat' = strat /\ has_open snapshot symbol strat = false.
Proof.
  unfold try_enter.
  destruct (has_open snapshot symbol strat) eqn:Eh; cbn [negb andb]; [contradiction|].
  destruct signal; [|contradiction].
  destruct (Risk.compute_sl_tp_prices risk price None None) as [sl tp].
  destruct (PyNum.gtb _ 0); [|contradiction].
  destruct (buy_market poll symbol _) as [eq ep].
  assert (Hbuy : forall q, ScanSpec.is_buy sym' strat' (Buy symbol strat q eq ep) = true ->
                      sym' = symbol /\ strat' = strat /\ false = false).
  { intros q H. cbn in H. apply andb_true_iff in H. destruct H as [H1 H2].
    apply String.eqb_eq in H1. apply String.eqb_eq in H2. auto. }
  destruct (PyNum.gtb eq 0); cbn; intros [<-|[]]; apply Hbuy.
Qed.

Lemma scan_symbol_store (self : StrategyManager) (risk : Risk.RiskManager) (poll : Poll)
      (snapshot : gmap string Portfolio.Position) (symbol : string)
      (st : Portfolio.State) :
  fst (scan_symbol self risk poll snapshot symbol st) = st.
Proof.
  unfold scan_symbol. destruct (klines poll symbol) as [[|b df]|e]; try reflexivity.
  match goal with
  | |- context [try_enter risk poll snapshot symbol STRAT_MOMENTUM ?sg ?pr st] =>
      pose proof (live_try_enter_store risk poll snapshot symbol STRAT_MOMENTUM sg pr st)
        as H1;
      destruct (try_enter risk poll snapshot symbol STRAT_MOMENTUM sg pr st)
        as [[r1 st1] evs1]
  end.
  cbn [fst snd] in H1. subst st1. destruct r1 as [u|e]; [|reflexivity].
  match goal with
  | |- context [try_enter risk poll snapshot symbol STRAT_MA ?sg ?pr st] =>
      pose proof (live_try_enter_store risk poll snapshot symbol STRAT_MA sg pr st)
        as H2;
      destruct (try_enter risk poll snapshot symbol STRAT_MA sg pr st)
        as [[r2 st2] evs2]
  end.
  cbn [fst snd] in H2. subst st2. now destruct r2.
Qed.

Lemma scan_symbol_buys (self : StrategyManager) (risk : Risk.RiskManager) (poll : Poll)
      (snapshot : gmap string Portfolio.Position) (symbol : string)
      (st : Portfolio.State) (ev : Event) (sym' strat' : string) :
  In ev (snd (scan_symbol self risk poll snapshot symbol st)) ->
  ScanSpec.is_buy sym' strat' ev = true ->
  has_open snapshot sym' strat' = false.
Proof.
  unfold scan_symbol. destruct (klines poll symbol) as [[|b df]|e].
  - contradiction.
  - match goal with
    | |- context [try_enter risk poll snapshot symbol STRAT_MOMENTUM ?sg ?pr st] =>
        pose proof (live_try_enter_buys risk poll snapshot symbol STRAT_MOMENTUM sg pr st
                                        ev sym' strat') as H1;
        destruct (try_enter risk poll snapshot symbol STRAT_MOMENTUM sg pr st)
          as [[r1 st1] evs1]
    end.
    cbn [fst snd] in H1.
    assert (Hlog : forall x, In ev [Log symbol x] ->
                        ScanSpec.is_buy sym' strat' ev = true -> False).
    { intros x [<-|[]]. discriminate. }
    destruct r1 as [u|x].
    + match goal with
      | |- context [try_enter risk poll snapshot symbol STRAT_MA ?sg ?pr st1] =>
          pose proof (live_try_enter_buys risk poll snapshot symbol STRAT_MA sg pr st1
                                          ev sym' strat') as H2;
          destruct (try_enter risk poll snapshot symbol STRAT_MA sg pr st1)
            as [[r2 st2] evs2]
      end.
      cbn [fst snd] in H2.
      destruct r2 as [u2|x]; cbn [snd]; intros Hin Hb;
        repeat (apply in_app_or in Hin; destruct Hin as [Hin|Hin]);
        try (destruct (H1 Hin Hb) as (-> & -> & Hh); exact Hh);
        try (destruct (H2 Hin Hb) as (-> & -> & Hh); exact Hh);
        exfalso; eapply Hlog; eassumption.
    + cbn [snd]. intros Hin Hb.
      apply in_app_or in Hin. destruct Hin as [Hin|Hin].
      * destruct (H1 Hin Hb) as (-> & -> & Hh). exact Hh.
      * exfalso. eapply Hlog; eassumption.
  - cbn. intros [<-|[]]. discriminate.
Qed.

Lemma scan_universe_store (self : StrategyManager) (risk : Risk.RiskManager) (poll : Poll)
      (snapshot : gmap string Portfolio.Position) (universe : list string) :
  forall st, fst (scan_universe self risk poll snapshot universe st) = st.
Proof.
  induction universe as [|symbol rest IH]; intros st; [reflexivity|].
  cbn [scan_universe].
  pose proof (scan_symbol_store self risk poll snapshot symbol st) as H1.
  destruct (scan_symbol self risk poll snapshot symbol st) as [st1 evs1].
  cbn [fst] in H1. subst st1. specialize (IH st).
  destruct (scan_universe self risk poll snapshot rest st) as [st2 evs2].
  exact IH.
Qed.

Lemma scan_universe_buys (self : StrategyManager) (risk : Risk.RiskManager) (poll : Poll)
      (snapshot : gmap string Portfolio.Position) (universe : list string)
      (ev : Event) (sym' strat' : string) :
  forall st,
    In ev (snd (scan_universe self risk poll snapshot universe st)) ->
    ScanSpec.is_buy sym' strat' ev = true ->
    has_open snapshot sym' strat' = false.
Proof.
  induction universe as [|symbol rest IH]; intros st; [contradiction|].
  cbn [scan_universe].
  pose proof (scan_symbol_buys self risk poll snapshot symbol st ev sym' strat') as H1.
  destruct (scan_symbol self risk poll snapshot symbol st) as [st1 evs1].
  specialize (IH st1).
  destruct (scan_universe self risk poll snapshot rest st1) as [st2 evs2].
  cbn [snd] in *. intros Hin Hb. apply in_app_or in Hin.
  destruct Hin as [Hin|Hin]; [now apply H1 | now apply IH].
Qed.

Lemma scan_and_trade_store (self : StrategyManager) (risk : Risk.RiskManager) (poll : Poll)
      (universe : list string) (st : Portfolio.State) :
  snd (fst (scan_and_trade self risk poll universe st)) = st.
Proof.
  unfold scan_and_trade. destruct universe as [|symbol rest]; [reflexivity|].
  destruct (Risk.check_daily_loss_guard _ _ _ _) as [pass risk1].
  destruct pass; cbn [negb]; [|reflexivity].
  pose proof (scan_universe_store self risk1 poll (Portfolio.get_open_positions st)
                                  (symbol :: rest) st) as H.
  destruct (scan_universe _ _ _ _ _ _) as [st1 evs]. exact H.
Qed.

Lemma scan_and_trade_buys (self : StrategyManager) (risk : Risk.RiskManager) (poll : Poll)
      (universe : list string) (st : Portfolio.State) (ev : Event)
      (sym' strat' : string) :
  In ev (snd (scan_and_trade self risk poll universe st)) ->
  ScanSpec.is_buy sym' strat' ev = true ->
  has_open (Portfolio.get_open_positions st) sym' strat' = false.
Proof.
  unfold scan_and_trade. destruct universe as [|symbol rest]; [contradiction|].
  destruct (Risk.check_daily_loss_guard _ _ _ _) as [pass risk1].
  destruct pass; cbn [negb]; [|contradiction].
  pose proof (scan_universe_buys self risk1 poll (Portfolio.get_open_positions st)
                                 (symbol :: rest) ev sym' strat' st) as H.
  destruct (scan_universe _ _ _ _ _ _) as [st1 evs]. exact H.
Qed.

(** The portfolio has no [get_total_equity], so the guard of a scan
    passes and leaves the risk manager alone. *)
Lemma guard_passes (risk : Risk.RiskManager) (st : Portfolio.State) (now_utc : Z)
      (now_ts : Q) :
  Risk.check_daily_loss_guard risk (read_equity st) now_utc now_ts = (true, risk).
Proof.
  unfold Risk.check_daily_loss_guard.
  change (read_equity st) with (@None Q).
  now destruct (PyNum.leb (Risk.max_daily_drawdown_pct risk) 0).
Qed.

Lemma scan_and_trade_eq (self : StrategyManager) (risk : Risk.RiskManager) (poll : Poll)
      (universe : list string) (st : Portfolio.State) :
  scan_and_trade self risk poll universe st
  = (risk, st,
     snd (scan_universe self risk poll (Portfolio.get_open_positions st) universe st)).
Proof.
  unfold scan_and_trade. destruct universe as [|symbol rest]; [reflexivity|].
  rewrite guard_passes. cbn [negb].
  pose proof (scan_universe_store self risk poll (Portfolio.get_open_positions st)
                                  (symbol :: rest) st) as H.
  destruct (scan_universe _ _ _ _ _ _) as [st1 evs]. cbn [fst snd] in *. now subst st1.
Qed.

Lemma manage_one_store (trailing_stop_pct initial_balance now : Q)
      (sell : string -> Q -> Q * Q) (trailing : gmap string Q) (st : Portfolio.State)
      (pos : Portfolio.Position) (price : py_result Q) :
  snd (fst (Exit.manage_one trailing_stop_pct initial_balance now sell trailing st
                            pos price)) = st.
Proof.
  unfold Exit.manage_one. destruct price as [price|e]; [|reflexivity].
  destruct (Exit.decide_exit trailing_stop_pct trailing pos price) as [tr [[[r|] pnl]|e]];
    try reflexivity.
  unfold Exit._close_position.
  destruct (sell _ _) as [eq ep], (Portfolio.strategy pos); reflexivity.
Qed.

End LiveScan.

(** C7. In the backtest there is at most one open position per strategy
    of the run's symbol after every bar, and the entry test refuses a
    strategy that has an open position.  The live scan skips a (symbol,
    strategy) pair that has an open position in the store, but it never
    records the position it buys: the portfolio manager has no
    [open_position], the call raises after the order is filled, and the
    scan, like the exit loop, leaves the store as it found it.  So the
    next scan over the same market data sends the same orders again.  With
    a funded momentum account and a rally, two consecutive scans each buy
    BTCUSDT on momentum while the store holds no position, and one scan
    whose universe lists the symbol twice buys it twice; with an open
    BTCUSDT momentum position in the store, the scan skips that pair and
    buys ETHUSDT. *)
Theorem live_rebuys_open_pair :
  (forall (self : Backtest.Backtester) (symbol : string) (df : list Bar) (n : nat),
      BacktestSpec.one_per_strategy
        (Backtest.open_positions (Backtest.run_bars self symbol df n)))
  /\ (forall (self : Backtest.Backtester) (symbol : string) (i : nat) (t : Z) (px : Q)
             (signal : bool) (st : Backtest.LoopState) (p : Backtest.Position),
         In p (Backtest.open_positions st) ->
         Backtest.can_enter self symbol i st (Backtest.strategy p) = false
         /\ Backtest.try_enter self symbol i t px signal (Backtest.strategy p) st = st)
  /\ (forall (self : Strategies.StrategyManager) (risk : Risk.RiskManager)
             (poll : Strategies.Poll) (universe : list string) (st : Portfolio.State),
         let res := Strategies.scan_and_trade self risk poll universe st in
         (forall symbol strat ev,
             Strategies.has_open (Portfolio.get_open_positions st) symbol strat = true ->
             In ev (snd res) -> ScanSpec.is_buy symbol strat ev = false)
         /\ snd (fst res) = st
         /\ Strategies.scan_and_trade self (fst (fst res)) poll universe (snd (fst res))
            = res)
  /\ (forall (trailing_stop_pct initial_balance now : Q) (sell : string -> Q -> Q * Q)
             (trailing : gmap string Q) (st : Portfolio.State)
             (pos : Portfolio.Position) (price : py_result Q),
         snd (fst (Exit.manage_one trailing_stop_pct initial_balance now sell trailing
                                   st pos price)) = st)
  /\ (let poll := ScanSpec.poll_rally 1700000000 in
      let buy sym := [Strategies.Buy sym "momentum" (485 # 1000) (485 # 1000) 103;
                      Strategies.Log sym AttributeError] in
      let scan1 := Strategies.scan_and_trade ScanSpec.sm_nofilter GuardSpec.guard0 poll
                     ["BTCUSDT"%string] ScanSpec.st_funded in
      let scan2 := Strategies.scan_and_trade ScanSpec.sm_nofilter (fst (fst scan1)) poll
                     ["BTCUSDT"%string] (snd (fst scan1)) in
      snd scan1 = buy "BTCUSDT"%string
      /\ snd scan2 = buy "BTCUSDT"%string
      /\ Portfolio.positions (snd (fst scan2)) = ∅
      /\ snd (Strategies.scan_and_trade ScanSpec.sm_nofilter GuardSpec.guard0 poll
                 ["BTCUSDT"%string; "BTCUSDT"%string] ScanSpec.st_funded)
         = buy "BTCUSDT"%string ++ buy "BTCUSDT"%string
      /\ snd (Strategies.scan_and_trade ScanSpec.sm_nofilter GuardSpec.guard0 poll
                 ["BTCUSDT"%string; "ETHUSDT"%string] PortfolioSpec.st_open)
         = buy "ETHUSDT"%string).
Proof.
  split; [|split; [|split; [|split]]]; [| | |apply manage_one_store|].
  - apply run_bars_one_per_strategy.
  - intros self symbol i t px signal st p Hin.
    assert (Hc : Backtest.can_enter self symbol i st (Backtest.strategy p) = false)
      by (now apply (can_enter_skips_open self symbol i st _ p)).
    split; [exact Hc|]. unfold Backtest.try_enter. now rewrite Hc.
  - intros self risk poll universe st res. subst res.
    split; [|split].
    + intros symbol strat ev Hopen Hin.
      destruct (ScanSpec.is_buy symbol strat ev) eqn:Eb; [|reflexivity].
      pose proof (scan_and_trade_buys self risk poll universe st ev symbol strat Hin Eb).
      congruence.
    + apply scan_and_trade_store.
    + rewrite (scan_and_trade_eq self risk poll universe st). cbn [fst snd].
      apply scan_and_trade_eq.
  - cbn zeta. repeat split; vm_compute; reflexivity.
Qed.

Lemma live_rebuys_open_pair_witness :
  In ExitSpec.bt_pos (Backtest.open_positions BacktestSpec.holding_momentum)
  /\ Backtest.try_enter ExitSpec.bt_default "BTCUSDT" 40 0 100 true Backtest.momentum
                        BacktestSpec.holding_momentum
     = BacktestSpec.holding_momentum
  /\ Strategies.has_open (Portfolio.get_open_positions PortfolioSpec.st_open)
                         "BTCUSDT" "momentum"
     = true
  /\ In (Strategies.Buy "ETHUSDT" "momentum" (485 # 1000) (485 # 1000) 103)
        (snd (Strategies.scan_and_trade ScanSpec.sm_nofilter GuardSpec.guard0
                (ScanSpec.poll_rally 1700000000) ["BTCUSDT"%string; "ETHUSDT"%string]
                PortfolioSpec.st_open))
  /\ ScanSpec.is_buy "BTCUSDT" "momentum"
                     (Strategies.Buy "ETHUSDT" "momentum" (485 # 1000) (485 # 1000) 103)
     = false.
Proof.
  destruct live_rebuys_open_pair as (_ & Hbt & Hlive & _).
  assert (Hin : In ExitSpec.bt_pos (Backtest.open_positions BacktestSpec.holding_momentum))
    by (now left).
  assert (Hopen : Strategies.has_open (Portfolio.get_open_positions PortfolioSpec.st_open)
                                      "BTCUSDT" "momentum" = true)
    by (vm_compute; reflexivity).
  assert (Hev : In (Strategies.Buy "ETHUSDT" "momentum" (485 # 1000) (485 # 1000) 103)
                   (snd (Strategies.scan_and_trade
                           ScanSpec.sm_nofilter GuardSpec.guard0
                           (ScanSpec.poll_rally 1700000000)
                           ["BTCUSDT"%string; "ETHUSDT"%string] PortfolioSpec.st_open)))
    by (vm_compute; left; reflexivity).
  split; [exact Hin|]. split; [|split; [exact Hopen|split; [exact Hev|]]].
  - exact (proj2 (Hbt ExitSpec.bt_default "BTCUSDT"%string 40%nat 0%Z 100 true
                      BacktestSpec.holding_momentum ExitSpec.bt_pos Hin)).
  - exact (proj1 (Hlive ScanSpec.sm_nofilter GuardSpec.guard0
                        (ScanSpec.poll_rally 1700000000)
                        ["BTCUSDT"%string; "ETHUSDT"%string] PortfolioSpec.st_open)
                 "BTCUSDT"%string "momentum"%string _ Hopen Hev).
Defined.

(** ** Entry cooldown *)
Section Cooldown.

Import Backtest BacktestSpec.

Lemma entry_bars_app (s : Strategy) (l1 l2 : list LogEvent) :
  entry_bars s (l1 ++ l2) = entry_bars s l1 ++ entry_bars s l2.
Proof.
  induction l1 as [|ev l1 IH]; [reflexivity|].
  destruct ev as [i s' r e p|i s' e q f|s' e p]; cbn [app entry_bars]; try exact IH.
  destruct (strategy_eqb s' s); [|exact IH]. cbn [app]. now rewrite IH.
Qed.

Lemma exit_loop_no_entries (self : Backtester) (i : nat) (px : Q) (ops : list Position)
      (s : Strategy) :
  forall bal, entry_bars s (snd (exit_loop self i px ops bal)) = [].
Proof.
  induction ops as [|pos rest IH]; intros bal; [reflexivity|].
  cbn [exit_loop]. destruct (exit_reason self (updated pos px) px).
  - case_exit_loop IH. exact IH.
  - specialize (IH bal). destruct (exit_loop self i px rest bal) as [[b k] e]. exact IH.
Qed.

Lemma spaced_snoc (c : Z) (l : list nat) (i : nat) :
  spaced c l ->
  (forall j, In j l -> (c <= Z.of_nat i - Z.of_nat j)%Z) ->
  spaced c (l ++ [i]).
Proof.
  intros Hl Hi a b x y Hab Ha Hb.
  destruct (decide (b < length l)%nat) as [Hlt|Hge].
  - rewrite lookup_app_l in Ha by lia. rewrite lookup_app_l in Hb by lia.
    now apply (Hl a b).
  - rewrite lookup_app_r in Hb by lia.
    destruct (b - length l)%nat as [|k] eqn:Ek; [|now destruct k].
    cbn in Hb. injection Hb as <-.
    rewrite lookup_app_l in Ha by lia.
    apply Hi. apply list_elem_of_In. eapply list_elem_of_lookup_2. eassumption.
Qed.

Lemma strategy_name_inj (a b : Strategy) : strategy_name a = strategy_name b -> a = b.
Proof. destruct a, b; cbn; congruence. Qed.

Lemma exit_phase_cooldown (self : Backtester) (symbol : string) (s : Strategy) (b : Z)
      (i : nat) (t : Z) (px : Q) (st : LoopState) :
  cooldown_inv self symbol s b st ->
  cooldown_inv self symbol s b (exit_phase self i t px st).
Proof.
  unfold cooldown_inv, exit_phase.
  pose proof (exit_loop_no_entries self i px (open_positions st) s (balances st)) as He.
  destruct (exit_loop self i px (open_positions st) (balances st)) as [[bal k] e].
  cbn [snd] in He. cbn [log last_entry_bar].
  now rewrite entry_bars_app, He, app_nil_r.
Qed.

Lemma try_enter_cooldown (self : Backtester) (symbol : string) (s s' : Strategy)
      (i : nat) (t : Z) (px : Q) (signal : bool) (st : LoopState) :
  cooldown_inv self symbol s (Z.of_nat i) st ->
  cooldown_inv self symbol s (Z.of_nat i) (try_enter self symbol i t px signal s' st).
Proof.
  intros Hinv. unfold try_enter.
  destruct (can_enter self symbol i st s') eqn:Ec; cbn [andb]; [|assumption].
  destruct signal; [|assumption].
  destruct (do_enter self symbol i t px st s') eqn:E; try assumption.
  apply do_enter_entered in E.
  destruct E as (p & _ & _ & _ & _ & _ & _ & _ & _ & _ & Hleb & Hlog).
  destruct Hinv as (Hsp & Hle & Hb). unfold cooldown_inv.
  rewrite Hleb, Hlog, entry_bars_app. cbn [entry_bars].
  destruct (strategy_eqb s' s) eqn:Es.
  - apply strategy_eqb_eq in Es. subst s'. rewrite lookup_insert_eq.
    assert (Hold : forall j, In j (entry_bars s (log st)) -> (Z.of_nat j <= Z.of_nat i)%Z).
    { intros j Hj. destruct (Hle j Hj) as (L & HL & HjL). specialize (Hb L HL). lia. }
    split; [|split].
    + apply spaced_snoc; [assumption|].
      intros j Hj. destruct (Hle j Hj) as (L & HL & HjL).
      unfold can_enter in Ec. apply andb_true_iff in Ec. destruct Ec as [Ec _].
      rewrite HL in Ec. change (default (- 10 ^ 9)%Z (Some L)) with L in Ec.
      apply Z.leb_le in Ec. lia.
    + intros j Hj. exists (Z.of_nat i). split; [reflexivity|].
      apply in_app_or in Hj. destruct Hj as [Hj|[<-|[]]]; [now apply Hold | lia].
    + intros L HL. injection HL as <-. lia.
  - assert (Hne : (symbol, strategy_name s') <> (symbol, strategy_name s)).
    { intros Heq. injection Heq as Heq. apply strategy_name_inj in Heq. subst s'.
      assert (strategy_eqb s s = true) by (now apply strategy_eqb_eq). congruence. }
    rewrite lookup_insert_ne by exact Hne. rewrite app_nil_r. auto.
Qed.

Lemma step_cooldown (self : Backtester) (symbol : string) (df : list Bar) (s : Strategy)
      (st : LoopState) (i : nat) :
  cooldown_inv self symbol s (Z.of_nat i) st ->
  cooldown_inv self symbol s (Z.of_nat (S i)) (step self symbol df st i).
Proof.
  intros H.
  assert (H' : cooldown_inv self symbol s (Z.of_nat i) (step self symbol df st i)).
  { unfold step, entry_phase.
    match goal with
    | |- context [exit_phase self i ?t ?px st] =>
        pose proof (exit_phase_cooldown self symbol s (Z.of_nat i) i t px st H) as H1;
        set (st1 := exit_phase self i t px st) in *
    end.
    destruct (_atr_pct _ 14); [|assumption].
    destruct (PyNum.ltb _ _); [assumption|].
    now do 2 apply try_enter_cooldown. }
  destruct H' as (H1 & H2 & H3). split; [assumption|]. split; [assumption|].
  intros L HL. specialize (H3 L HL). lia.
Qed.

Lemma run_bars_cooldown (self : Backtester) (symbol : string) (df : list Bar)
      (s : Strategy) (n : nat) :
  cooldown_inv self symbol s (Z.of_nat n) (run_bars self symbol df n).
Proof.
  induction n as [|n IH].
  - split; [|split].
    + intros a b i j _ Ha. discriminate Ha.
    + intros j [].
    + intros L HL. cbn in HL. now rewrite lookup_empty in HL.
  - rewrite run_bars_S. now apply step_cooldown.
Qed.

Lemma can_enter_spec (self : Backtester) (symbol : string) (i : nat) (st : LoopState)
      (s : Strategy) (L : Z) :
  last_entry_bar st !! (symbol, strategy_name s) = Some L ->
  can_enter self symbol i st s
  = (entry_cooldown_bars self <=? Z.of_nat i - L)%Z
    && negb (existsb (fun p => strategy_eqb (strategy p) s) (open_positions st)).
Proof. intros H. unfold can_enter. now rewrite H. Qed.

End Cooldown.

(** C6. In the backtest driver, for every bar sequence and
    every strategy of the run's symbol, each entry lies at least
    [entry_cooldown_bars] bars after every earlier entry of the same
    strategy, whether or not the earlier position is still open: an entry
    attempt fewer than [entry_cooldown_bars] bars after the recorded last
    entry changes nothing, and from [entry_cooldown_bars] bars on the
    entry test passes when the strategy has no open position.  With a
    cooldown of 10 and a last entry at bar 10, bar 15 is blocked and bar 20
    is allowed.  The live scan applies no cooldown. *)
Theorem entry_cooldown :
  (forall (self : Backtest.Backtester) (symbol : string) (df : list Bar) (n : nat)
          (s : Backtest.Strategy),
      BacktestSpec.spaced (Backtest.entry_cooldown_bars self)
        (BacktestSpec.entry_bars s (Backtest.log (Backtest.run_bars self symbol df n))))
  /\ (forall (self : Backtest.Backtester) (symbol : string) (i : nat) (t : Z) (px : Q)
             (signal : bool) (st : Backtest.LoopState) (s : Backtest.Strategy) (L : Z),
         Backtest.last_entry_bar st !! (symbol, Backtest.strategy_name s) = Some L ->
         (Z.of_nat i - L < Backtest.entry_cooldown_bars self)%Z ->
         Backtest.try_enter self symbol i t px signal s st = st)
  /\ (forall (self : Backtest.Backtester) (symbol : string) (i : nat)
             (st : Backtest.LoopState) (s : Backtest.Strategy) (L : Z),
         Backtest.last_entry_bar st !! (symbol, Backtest.strategy_name s) = Some L ->
         (Backtest.entry_cooldown_bars self <= Z.of_nat i - L)%Z ->
         (forall p, In p (Backtest.open_positions st) -> Backtest.strategy p <> s) ->
         Backtest.can_enter self symbol i st s = true).
Proof.
  split; [|split].
  - intros self symbol df n s.
    exact (proj1 (run_bars_cooldown self symbol df s n)).
  - intros self symbol i t px signal st s L HL Hlt.
    unfold Backtest.try_enter. rewrite (can_enter_spec self symbol i st s L HL).
    assert (E : (Backtest.entry_cooldown_bars self <=? Z.of_nat i - L)%Z = false)
      by (apply Z.leb_gt; lia).
    now rewrite E.
  - intros self symbol i st s L HL Hle Hno.
    rewrite (can_enter_spec self symbol i st s L HL).
    apply andb_true_iff. split; [apply Z.leb_le; lia|].
    apply negb_true_iff.
    destruct (existsb _ (Backtest.open_positions st)) eqn:E; [|reflexivity].
    apply existsb_exists in E. destruct E as (p & Hp & Hs).
    apply strategy_eqb_eq in Hs. exfalso. now apply (Hno p Hp).
Qed.

Lemma entry_cooldown_witness :
  Backtest.try_enter ExitSpec.bt_default "BTCUSDT" 15 0 100 true Backtest.momentum
                     BacktestSpec.after_entry_at_10
  = BacktestSpec.after_entry_at_10
  /\ Backtest.can_enter ExitSpec.bt_default "BTCUSDT" 20 BacktestSpec.after_entry_at_10
                        Backtest.momentum
     = true.
Proof.
  destruct entry_cooldown as (_ & Hblock & Hallow).
  assert (HL : Backtest.last_entry_bar BacktestSpec.after_entry_at_10
               !! ("BTCUSDT"%string, Backtest.strategy_name Backtest.momentum)
               = Some 10%Z) by (vm_compute; reflexivity).
  split.
  - apply (Hblock ExitSpec.bt_default "BTCUSDT"%string 15%nat 0%Z 100 true
                  BacktestSpec.after_entry_at_10 Backtest.momentum 10%Z HL).
    reflexivity.
  - apply (Hallow ExitSpec.bt_default "BTCUSDT"%string 20%nat
                  BacktestSpec.after_entry_at_10 Backtest.momentum 10%Z HL).
    + discriminate.
    + intros p [].
Defined.

(** A live scan five minutes (five one-minute bars) after the last entry
    of the pair, whose position is closed by then, sends a buy order for
    the same (symbol, strategy) pair, and so does the scan after it. *)
Lemma live_scan_no_cooldown_counterexample :
  let poll := ScanSpec.poll_rally 1700000300 in
  let scan1 := Strategies.scan_and_trade ScanSpec.sm_nofilter GuardSpec.guard0 poll
                 ["BTCUSDT"%string] PortfolioSpec.st_closed in
  let scan2 := Strategies.scan_and_trade ScanSpec.sm_nofilter (fst (fst scan1)) poll
                 ["BTCUSDT"%string] (snd (fst scan1)) in
  existsb (ScanSpec.is_buy "BTCUSDT" "momentum") (snd scan1) = true
  /\ existsb (ScanSpec.is_buy "BTCUSDT" "momentum") (snd scan2) = true.
Proof. split; vm_compute; reflexivity. Qed.

(** ** Forced exit *)
Section ForcedExit.

Import Backtest BacktestSpec.

Lemma force_exit_balance (self : Backtester) (last_px : Q) (ops : list Position)
      (s : Strategy) :
  forall bal,
    bal_get (fst (force_exit self last_px ops bal)) s
    == bal_get bal s + liquidation self (force_exit_price self last_px) s ops.
Proof.
  induction ops as [|p rest IH]; intros bal; cbn [force_exit liquidation].
  - cbn [fst]. ring.
  - case_force_exit IH.
    cbn [fst] in *. rewrite IH, bal_get_add.
    destruct (strategy_eqb (strategy p) s); ring.
Qed.

Lemma force_exit_log (self : Backtester) (last_px : Q) (ops : list Position) :
  forall bal,
    snd (force_exit self last_px ops bal)
    = map (fun p => FORCE (strategy p) (force_exit_price self last_px)
                          (realized_pnl self p (force_exit_price self last_px)))
          ops.
Proof.
  induction ops as [|p rest IH]; intros bal; cbn [force_exit map]; [reflexivity|].
  case_force_exit IH.
  cbn [snd] in *. now rewrite IH.
Qed.

Lemma run_backtest_completes (self : Backtester) (symbol : string) (df : list Bar) :
  df <> [] ->
  exists r,
    run_backtest self symbol (Ok df) = Some r
    /\ final_balance r = bal_total (settled_balances self symbol df)
    /\ total_pnl r = final_balance r - initial_balance self.
Proof.
  intros Hne. destruct df as [|b df]; [contradiction|].
  unfold run_backtest, settled_balances, final_close.
  destruct (force_exit self _ _ _) as [bal evs].
  eexists. split; [reflexivity|]. split; reflexivity.
Qed.

End ForcedExit.

(** C8. A backtest over a non-empty bar sequence returns its summary, and
    the balances the summary is computed from hold, for every strategy,
    the balance after the last bar plus, for each of its positions still
    open then, the proceeds at [final_close * (1 - slippage_pct)] less the
    taker fee on them.  Every remaining position is sold there, one forced
    exit each, whatever its target, stop and high: none stays open. *)
Theorem backtest_ends_flat (self : Backtest.Backtester) (symbol : string)
        (df : list Bar) :
  df <> [] ->
  let st := Backtest.run_bars self symbol df (length df) in
  let ex_px := BacktestSpec.final_close df * (1 - Backtest.slippage_pct self) in
  exists r,
    Backtest.run_backtest self symbol (Ok df) = Some r
    /\ Backtest.final_balance r
       = Backtest.bal_total (BacktestSpec.settled_balances self symbol df)
    /\ (forall s,
           Backtest.bal_get (BacktestSpec.settled_balances self symbol df) s
           == Backtest.bal_get (Backtest.balances st) s
              + BacktestSpec.liquidation self ex_px s (Backtest.open_positions st))
    /\ snd (Backtest.force_exit self (BacktestSpec.final_close df)
                                (Backtest.open_positions st) (Backtest.balances st))
       = map (fun p => Backtest.FORCE (Backtest.strategy p) ex_px
                         (ex_px * Backtest.qty p
                          - ex_px * Backtest.qty p * Backtest.taker_fee_pct self
                          - (Backtest.entry_price p * Backtest.qty p
                             + Backtest.entry_fee p)))
             (Backtest.open_positions st).
Proof.
  intros Hne st ex_px.
  destruct (run_backtest_completes self symbol df Hne) as (r & Hr & Hf & _).
  exists r. split; [exact Hr|]. split; [exact Hf|]. split.
  - intros s. apply force_exit_balance.
  - apply force_exit_log.
Qed.

Lemma backtest_ends_flat_witness :
  ScanSpec.rally <> []
  /\ length (Backtest.open_positions
               (Backtest.run_bars ExitSpec.bt_default "BTCUSDT" ScanSpec.rally 16)) = 1%nat
  /\ exists r,
      Backtest.run_backtest ExitSpec.bt_default "BTCUSDT" (Ok ScanSpec.rally) = Some r
      /\ Backtest.final_balance r
         = Backtest.bal_total
             (BacktestSpec.settled_balances ExitSpec.bt_default "BTCUSDT" ScanSpec.rally).
Proof.
  assert (Hne : ScanSpec.rally <> []) by discriminate.
  split; [exact Hne|]. split; [vm_compute; reflexivity|].
  destruct (backtest_ends_flat ExitSpec.bt_default "BTCUSDT"%string ScanSpec.rally Hne)
    as (r & Hr & Hf & _).
  exists r. split; assumption.
Defined.

(** ** Scenarios of the specification, run on the model *)
Section Scenarios.

(** [tp_pct = 0.05], [sl_pct = 0.02], entry 100: stop 98 and target 105. *)
Example scenario_sl_tp :
  let '(sl, tp) := Risk.compute_sl_tp_prices GuardSpec.guard0 100 None None in
  sl == 98 /\ tp == 105.
Proof. split; reflexivity. Qed.

(** A path reaching 105 before 98 closes with TP. *)
Example scenario_take_profit :
  Backtest.exit_reason ExitSpec.bt_default (Backtest.updated ExitSpec.bt_pos 105) 105
  = Some Backtest.TP.
Proof. reflexivity. Qed.

(** Trailing 1 percent, entry 100, closes 100, 110, 108.9: the position is
    kept twice, its high rising to 110, then closed with TRAIL at 108.9. *)
Example scenario_trailing :
  let run px ops := snd (fst (Backtest.exit_loop ExitSpec.bt_default 21 px ops
                                                 ExitSpec.bt_bal0)) in
  let after_100 := run 100 [ExitSpec.bt_pos_wide] in
  let after_110 := run 110 after_100 in
  map Backtest.highest after_110 = [110]
  /\ map (fun p => Backtest.exit_reason ExitSpec.bt_default
                     (Backtest.updated p (1089 # 10)) (1089 # 10)) after_110
     = [Some Backtest.TRAIL]
  /\ run (1089 # 10) after_110 = [].
Proof. repeat split. Qed.

(** Fifteen closes at 100 followed by 103, lookback 15, threshold 3: the
    momentum signal fires, the boundary being inclusive. *)
Example scenario_momentum :
  Backtest._sig_momentum ScanSpec.rally 15 3 = true
  /\ Strategies.signal_momentum ScanSpec.sm_nofilter ScanSpec.rally = true.
Proof. split; vm_compute; reflexivity. Qed.

(** The backtest over the rally enters momentum at the last bar and the
    forced exit sells it: one trade, and a final balance below the starting
    capital by the two fees and the two slippages. *)
Example scenario_rally_run :
  match Backtest.run_backtest ExitSpec.bt_default "BTCUSDT" (Ok ScanSpec.rally) with
  | Some r =>
      Backtest.trades r = {| Backtest.trades_momentum := 1; Backtest.trades_ma := 0 |}
      /\ Backtest.final_balance r < 1000
      /\ 999 < Backtest.final_balance r
  | None => False
  end.
Proof. vm_compute. repeat split. Qed.

End Scenarios.

(** * Further properties of the code *)

(** ** Sizing caps and rounding *)
Section RiskExtras.

Lemma pow10_pos (n : nat) : 0 < PyNum.pow10 n.
Proof.
  unfold PyNum.pow10. change 0 with (inject_Z 0). rewrite <- Zlt_Qlt.
  apply Z.pow_pos_nonneg; lia.
Qed.

Lemma round_half_even_near (q : Q) :
  Qabs (inject_Z (PyNum.round_half_even q) - q) <= 1 # 2.
Proof.
  unfold PyNum.round_half_even.
  pose proof (Qfloor_le q) as Hlo. pose proof (Qlt_floor q) as Hhi.
  rewrite inject_Z_plus in Hhi. change (inject_Z 1) with 1 in Hhi.
  apply Qabs_Qle_condition.
  destruct (PyNum.ltb (q - inject_Z (Qfloor q)) (1 # 2)) eqn:E1.
  - apply ltb_true in E1. split; lra.
  - apply ltb_false in E1.
    destruct (PyNum.ltb (1 # 2) (q - inject_Z (Qfloor q))) eqn:E2.
    + rewrite inject_Z_plus. change (inject_Z 1) with 1. split; lra.
    + apply ltb_false in E2.
      destruct (Z.even (Qfloor q)).
      * split; lra.
      * rewrite inject_Z_plus. change (inject_Z 1) with 1. split; lra.
Qed.

Lemma round_half_even_nonneg (q : Q) : 0 <= q -> (0 <= PyNum.round_half_even q)%Z.
Proof.
  intros H. unfold PyNum.round_half_even.
  assert (Hf : (0 <= Qfloor q)%Z).
  { change 0%Z with (Qfloor 0). now apply Qfloor_resp_le. }
  destruct (PyNum.ltb _ _); [assumption|].
  destruct (PyNum.ltb _ _); [lia|].
  destruct (Z.even _); lia.
Qed.

Lemma round_dec_near (n : nat) (q : Q) :
  Qabs (PyNum.round_dec n q - q) <= ExtraSpec.half_unit n.
Proof.
  unfold PyNum.round_dec, ExtraSpec.half_unit.
  pose proof (pow10_pos n) as Hp.
  pose proof (round_half_even_near (q * PyNum.pow10 n)) as H.
  set (r := inject_Z (PyNum.round_half_even (q * PyNum.pow10 n))) in *.
  apply Qabs_Qle_condition in H. apply Qabs_Qle_condition.
  assert (Hq : q == q * PyNum.pow10 n / PyNum.pow10 n).
  { field. lra. }
  assert (Hd : r / PyNum.pow10 n - q == (r - q * PyNum.pow10 n) / PyNum.pow10 n).
  { field. lra. }
  rewrite Hd.
  assert (Hh : 1 / (2 * PyNum.pow10 n) == (1 # 2) / PyNum.pow10 n).
  { field. lra. }
  rewrite Hh. destruct H as [H1 H2]. split.
  - assert (Hn : - ((1 # 2) / PyNum.pow10 n) == (- (1 # 2)) / PyNum.pow10 n)
      by (field; lra).
    rewrite Hn. apply Qle_shift_div_l; [assumption|].
    assert (He : - (1 # 2) / PyNum.pow10 n * PyNum.pow10 n == - (1 # 2)) by (field; lra).
    rewrite He. exact H1.
  - apply Qle_shift_div_r; [assumption|].
    assert (He : (1 # 2) / PyNum.pow10 n * PyNum.pow10 n == 1 # 2) by (field; lra).
    rewrite He. exact H2.
Qed.

Lemma round_dec_nonneg (n : nat) (q : Q) : 0 <= q -> 0 <= PyNum.round_dec n q.
Proof.
  intros H. unfold PyNum.round_dec.
  pose proof (pow10_pos n) as Hp.
  apply Qle_shift_div_l; [assumption|]. rewrite Qmult_0_l.
  change 0 with (inject_Z 0). rewrite <- Zle_Qle.
  apply round_half_even_nonneg. apply Qmult_le_0_compat; lra.
Qed.

End RiskExtras.

Section RiskCaps.

Import Risk.

Lemma xmin_le_cap (a : xfloat) (b : Q) : xmin a b <= b.
Proof. destruct a; cbn; [apply Q.le_min_r | apply Qle_refl]. Qed.

Lemma max0_cases (x : Q) : (PyNum.max 0 x == 0 /\ x <= 0) \/ (PyNum.max 0 x == x /\ 0 < x).
Proof.
  unfold PyNum.max. destruct (Q.max_spec 0 x) as [[H1 H2]|[H1 H2]]; [right|left]; auto.
Qed.

(** X1. The quantity before exchange rounding is never negative, its
    notional [qty * entry_price] is at most the allocation
    [max(0, balance * per_trade_alloc_pct)], and the loss it takes down to
    the stop, [qty * |entry_price - stop_price|], is at most the risk
    budget [max(0, balance * per_trade_risk_pct)]. *)
Theorem capped_qty_double_cap (self : RiskManager) (balance entry_price stop_price : Q) :
  0 < entry_price ->
  let qty := capped_qty self balance entry_price stop_price in
  0 <= qty
  /\ qty * entry_price <= PyNum.max 0 (balance * per_trade_alloc_pct self)
  /\ qty * PyNum.abs (entry_price - stop_price)
     <= PyNum.max 0 (balance * per_trade_risk_pct self).
Proof.
  intros He qty. subst qty. unfold capped_qty.
  set (ra := PyNum.max 0 (balance * per_trade_risk_pct self)).
  set (rpu := PyNum.abs (entry_price - stop_price)).
  set (alloc := PyNum.max 0 (balance * per_trade_alloc_pct self)).
  set (qr := if PyNum.leb rpu 0 then Inf else Fin (ra / rpu)).
  assert (Hra : 0 <= ra) by apply Q.le_max_l.
  assert (Halloc : 0 <= alloc) by apply Q.le_max_l.
  assert (Hrpu : 0 <= rpu) by apply Qabs_nonneg.
  assert (Hcap : alloc / entry_price * entry_price == alloc) by (field; lra).
  split; [apply Q.le_max_l|].
  destruct (max0_cases (xmin qr (alloc / entry_price))) as [[Hq Hx]|[Hq Hx]]; rewrite Hq.
  - split.
    + rewrite Qmult_0_l. exact Halloc.
    + rewrite Qmult_0_l. exact Hra.
  - split.
    + apply Qle_trans with (alloc / entry_price * entry_price).
      * apply Qmult_le_compat_r; [apply xmin_le_cap | lra].
      * apply Qle_lteq. right. exact Hcap.
    + subst qr. destruct (PyNum.leb rpu 0) eqn:El.
      * apply leb_true in El. assert (Hz : rpu == 0) by lra.
        rewrite Hz, Qmult_0_r. exact Hra.
      * apply leb_false in El. cbn [xmin].
        assert (Hr : ra / rpu * rpu == ra) by (field; lra).
        apply Qle_trans with (ra / rpu * rpu).
        -- apply Qmult_le_compat_r; [apply Q.le_min_l | lra].
        -- apply Qle_lteq. right. exact Hr.
Qed.

Lemma capped_qty_double_cap_witness :
  0 < 100
  /\ capped_qty GuardSpec.guard0 1000 100 98 * 100
     <= PyNum.max 0 (1000 * per_trade_alloc_pct GuardSpec.guard0).
Proof.
  split; [reflexivity|].
  exact (proj1 (proj2 (capped_qty_double_cap GuardSpec.guard0 1000 100 98 eq_refl))).
Defined.

(** X2. Without an exchange rounder, or without a symbol, a positive
    quantity is rounded to the nearest multiple of 1e-8: the result is 0,
    or it is at least 1e-8 and within 5e-9 of the quantity; a quantity
    that is not positive gives 0. *)
Theorem round_qty_fallback (rounder : option (string -> Q -> py_result Q))
        (symbol : option string) (qty : Q) :
  rounder = None \/ symbol = None \/ symbol = Some ""%string ->
  let r := _round_qty rounder symbol qty in
  (qty <= 0 -> r = 0)
  /\ (r = 0 \/ ((1 # 100000000) <= r /\ PyNum.abs (r - qty) <= ExtraSpec.half_unit 8)).
Proof.
  intros Hfb r. subst r. unfold _round_qty.
  destruct (PyNum.leb qty 0) eqn:El.
  - split; [reflexivity | now left].
  - apply leb_false in El. split; [intros H; exfalso; lra|].
    assert (Hgoal : let q := PyNum.round_dec 8 qty in
                    (if PyNum.ltb q (1 # 100000000) then 0 else q) = 0
                    \/ (1 # 100000000) <= (if PyNum.ltb q (1 # 100000000) then 0 else q)
                       /\ PyNum.abs ((if PyNum.ltb q (1 # 100000000) then 0 else q) - qty)
                          <= ExtraSpec.half_unit 8).
    { intros q. destruct (PyNum.ltb q (1 # 100000000)) eqn:Eq; [now left|].
      right. apply ltb_false in Eq. split; [exact Eq | apply round_dec_near]. }
    destruct Hfb as [-> | [-> | ->]].
    + destruct symbol as [[|c s]|]; exact Hgoal.
    + destruct rounder; exact Hgoal.
    + destruct rounder; exact Hgoal.
Qed.

Lemma round_qty_fallback_witness :
  _round_qty None (Some "BTCUSDT"%string) (1 # 3) = PyNum.round_dec 8 (1 # 3)
  /\ PyNum.abs (_round_qty None (Some "BTCUSDT"%string) (1 # 3) - (1 # 3))
     <= ExtraSpec.half_unit 8.
Proof.
  split; [reflexivity|].
  destruct (round_qty_fallback None (Some "BTCUSDT"%string) (1 # 3) (or_introl eq_refl))
    as [_ [H | [_ H]]].
  - exfalso. revert H. vm_compute. discriminate.
  - exact H.
Defined.

(** X3. For a positive entry price and positive percentages the stop lies
    below the entry and the target above it, whether the percentages come
    from the configuration or from the arguments; the stop is not negative
    when the stop percentage is at most 1. *)
Theorem sl_tp_order (self : RiskManager) (entry_price : Q) (tp_arg sl_arg : option Q) :
  0 < entry_price ->
  0 < default (take_profit_pct self) tp_arg ->
  0 < default (stop_loss_pct self) sl_arg ->
  let '(sl_price, tp_price) := compute_sl_tp_prices self entry_price tp_arg sl_arg in
  sl_price < entry_price
  /\ entry_price < tp_price
  /\ (default (stop_loss_pct self) sl_arg <= 1 -> 0 <= sl_price).
Proof.
  intros He Htp Hsl. unfold compute_sl_tp_prices.
  set (tp := match tp_arg with None => take_profit_pct self | Some x => x end).
  set (sl := match sl_arg with None => stop_loss_pct self | Some x => x end).
  assert (Htp' : 0 < tp) by (subst tp; destruct tp_arg; exact Htp).
  assert (Hsl' : 0 < sl) by (subst sl; destruct sl_arg; exact Hsl).
  assert (Hsl1 : default (stop_loss_pct self) sl_arg = sl)
    by (subst sl; now destruct sl_arg).
  rewrite Hsl1. clearbody tp sl.
  assert (H1 : 0 < entry_price * sl) by (apply Qmult_lt_0_compat; assumption).
  assert (H2 : 0 < entry_price * tp) by (apply Qmult_lt_0_compat; assumption).
  repeat split.
  - lra.
  - lra.
  - intros Hle. apply Qmult_le_0_compat; lra.
Qed.

Lemma sl_tp_order_witness :
  let '(sl_price, tp_price) := compute_sl_tp_prices GuardSpec.guard0 100 None (Some (3 # 100)) in
  sl_price < 100 /\ 100 < tp_price.
Proof.
  pose proof (sl_tp_order GuardSpec.guard0 100 None (Some (3 # 100))
                          eq_refl eq_refl eq_refl) as H.
  destruct (compute_sl_tp_prices GuardSpec.guard0 100 None (Some (3 # 100))) as [sl tp].
  destruct H as (H1 & H2 & _). split; assumption.
Defined.

End RiskCaps.

(** ** Exchange rounding and paper orders *)
Section ExchangeExtras.

Import Exchange.

Lemma lot_floor_le (qty step : Q) :
  0 < step -> inject_Z (Qfloor (qty / step)) * step <= qty.
Proof.
  intros Hs. apply Qle_trans with (qty / step * step).
  - apply Qmult_le_compat_r; [apply Qfloor_le | lra].
  - apply Qle_lteq. right. field. lra.
Qed.

Lemma lot_floor_nonneg (qty step : Q) :
  0 < step -> 0 <= qty -> 0 <= inject_Z (Qfloor (qty / step)) * step.
Proof.
  intros Hs Hq. apply Qmult_le_0_compat; [|lra].
  change 0 with (inject_Z 0). rewrite <- Zle_Qle.
  change 0%Z with (Qfloor 0). apply Qfloor_resp_le.
  apply Qle_shift_div_l; [assumption|]. now rewrite Qmult_0_l.
Qed.

Lemma round_qty_min (f : SymbolFilters) (qty : Q) :
  0 <= round_qty f qty /\ (round_qty f qty = 0 \/ minQty f <= round_qty f qty).
Proof.
  unfold round_qty. destruct (PyNum.leb qty 0) eqn:El.
  - split; [apply Qle_refl | now left].
  - apply leb_false in El.
    set (q' := if PyNum.ltb 0 (stepSize f)
               then PyNum.round_dec (precision_of (stepSize f))
                      (inject_Z (Qfloor (qty / stepSize f)) * stepSize f)
               else qty).
    assert (Hq' : 0 <= q').
    { subst q'. destruct (PyNum.ltb 0 (stepSize f)) eqn:Es; [|lra].
      apply ltb_true in Es. apply round_dec_nonneg, lot_floor_nonneg; lra. }
    destruct (PyNum.eqb (minQty f) 0) eqn:Em; cbn [negb andb].
    + apply eqb_true in Em. split; [exact Hq' | right; lra].
    + destruct (PyNum.ltb q' (minQty f)) eqn:Et.
      * split; [apply Qle_refl | now left].
      * apply ltb_false in Et. split; [exact Hq' | now right].
Qed.

(** X4. [round_qty] returns 0 for a quantity that is not positive; its
    result is never negative and is 0 or at least [minQty]; with a step
    filter, a positive quantity is floored to the step and then printed
    with the step's number of decimals, so the result exceeds the request
    by at most half a unit of the last printed decimal; without a step
    filter a positive quantity that passes [minQty] is returned as it
    is. *)
Theorem round_qty_lot (f : SymbolFilters) (qty : Q) :
  let r := round_qty f qty in
  (qty <= 0 -> r = 0)
  /\ 0 <= r
  /\ (r = 0 \/ minQty f <= r)
  /\ (0 < qty -> 0 < stepSize f ->
      r <= qty + ExtraSpec.half_unit (precision_of (stepSize f)))
  /\ (0 < qty -> stepSize f <= 0 -> minQty f == 0 \/ minQty f <= qty -> r = qty).
Proof.
  intros r. subst r. unfold round_qty.
  destruct (PyNum.leb qty 0) eqn:El.
  - apply leb_true in El. repeat split; try (now left); try apply Qle_refl;
      intros; exfalso; lra.
  - apply leb_false in El.
    set (q' := if PyNum.ltb 0 (stepSize f)
               then PyNum.round_dec (precision_of (stepSize f))
                      (inject_Z (Qfloor (qty / stepSize f)) * stepSize f)
               else qty).
    assert (Hq' : 0 <= q').
    { subst q'. destruct (PyNum.ltb 0 (stepSize f)) eqn:Es; [|lra].
      apply ltb_true in Es. apply round_dec_nonneg, lot_floor_nonneg; lra. }
    assert (Hup : 0 < stepSize f ->
                  q' <= qty + ExtraSpec.half_unit (precision_of (stepSize f))).
    { intros Hs. subst q'. apply ltb_true in Hs. rewrite Hs. apply ltb_true in Hs.
      pose proof (round_dec_near (precision_of (stepSize f))
                    (inject_Z (Qfloor (qty / stepSize f)) * stepSize f)) as Hn.
      apply Qabs_Qle_condition in Hn.
      pose proof (lot_floor_le qty (stepSize f) Hs). lra. }
    assert (Hhu : forall n, 0 <= ExtraSpec.half_unit n).
    { intros n. unfold ExtraSpec.half_unit. pose proof (pow10_pos n).
      apply Qle_shift_div_l; [lra|]. rewrite Qmult_0_l. lra. }
    split; [intros H; exfalso; lra|].
    destruct (PyNum.eqb (minQty f) 0) eqn:Em; cbn [negb andb].
    + apply eqb_true in Em. repeat split.
      * exact Hq'.
      * right. lra.
      * intros _. exact Hup.
      * intros _ Hs _. subst q'. apply ltb_false in Hs. now rewrite Hs.
    + destruct (PyNum.ltb q' (minQty f)) eqn:Et.
      * apply ltb_true in Et. repeat split.
        -- apply Qle_refl.
        -- now left.
        -- intros _ Hs. specialize (Hhu (precision_of (stepSize f))). lra.
        -- intros _ Hs [Hm | Hm].
           ++ apply eqb_false in Em. contradiction.
           ++ exfalso. subst q'. apply ltb_false in Hs. rewrite Hs in Et. lra.
      * apply ltb_false in Et. repeat split.
        -- exact Hq'.
        -- now right.
        -- intros _. exact Hup.
        -- intros _ Hs _. subst q'. apply ltb_false in Hs. now rewrite Hs.
Qed.

Lemma round_qty_lot_witness :
  0 < (1234567 # 1000000)
  /\ round_qty SizingSpec.lot_001 (1234567 # 1000000)
     <= (1234567 # 1000000)
        + ExtraSpec.half_unit (precision_of (stepSize SizingSpec.lot_001)).
Proof.
  split; [reflexivity|].
  destruct (round_qty_lot SizingSpec.lot_001 (1234567 # 1000000)) as (_ & _ & _ & H & _).
  apply H; reflexivity.
Defined.

End ExchangeExtras.

Section OrderExtras.

Import Orders.

Lemma enforce_min_notional_cases (mn price qty : Q) :
  (_enforce_min_notional mn price qty = 0 /\ ~ mn == 0 /\ price * qty < mn)
  \/ (_enforce_min_notional mn price qty = qty /\ (mn == 0 \/ mn <= price * qty)).
Proof.
  unfold _enforce_min_notional.
  destruct (PyNum.eqb mn 0) eqn:Em; cbn [negb andb].
  - right. apply eqb_true in Em. auto.
  - apply eqb_false in Em. destruct (PyNum.ltb (price * qty) mn) eqn:El.
    + left. apply ltb_true in El. auto.
    + right. apply ltb_false in El. auto.
Qed.

(** X5. In dry run, with the price and the filters read, executing an
    order either reports [(0, 0)] or reports the quantity rounded by
    [round_qty] at the price read by [create_market_order]: that quantity
    is positive, at least [minQty], and its notional at that price
    reaches [minNotional] when one is set.  Whatever the client, a failed
    price or filter lookup, and also a failure of the second price lookup
    made after the order, report [(0, 0)]. *)
Theorem paper_fill_respects_minimums :
  (forall (p : Q) (lot : Exchange.SymbolFilters) (mn : Q) (side : string)
          (quantity pn : Q),
      let order := create_market_order None (Ok p) (Ok lot) (Ok mn) side quantity in
      let res := _execute_or_paper order quantity (Ok pn) in
      res = (0, 0)
      \/ (res = (Exchange.round_qty lot quantity, p)
          /\ 0 < fst res
          /\ Exchange.minQty lot <= fst res
          /\ (mn == 0 \/ mn <= p * fst res)))
  /\ (forall bnc price lot mn side quantity price_now,
         (exists e, price = Raise e \/ lot = Raise e \/ mn = Raise e \/ price_now = Raise e) ->
         _execute_or_paper (create_market_order bnc price lot mn side quantity)
                           quantity price_now
         = (0, 0)).
Proof.
  split.
  - intros p lot mn side quantity pn order res. subst res order.
    unfold create_market_order.
    destruct (enforce_min_notional_cases mn p (Exchange.round_qty lot quantity))
      as [(-> & _) | (-> & Hmn)].
    + left. reflexivity.
    + destruct (PyNum.leb (Exchange.round_qty lot quantity) 0) eqn:El.
      * left. reflexivity.
      * right. apply leb_false in El. cbn.
        split; [reflexivity|]. split; [exact El|]. split; [|exact Hmn].
        destruct (round_qty_min lot quantity) as (_ & [H0 | Hm]); [|exact Hm].
        exfalso. rewrite H0 in El. lra.
  - intros bnc price lot mn side quantity price_now (e & H).
    unfold create_market_order, _execute_or_paper.
    destruct price as [p|]; [|reflexivity].
    destruct lot as [lot|]; [|reflexivity].
    destruct mn as [mn|]; [|reflexivity].
    destruct price_now as [pn|].
    + destruct H as [H|[H|[H|H]]]; discriminate H.
    + destruct (PyNum.leb _ 0); [reflexivity|].
      destruct bnc as [create_order|]; [|reflexivity].
      destruct (create_order side _) as [o|]; [|reflexivity].
      cbn. destruct (default FILLED (status o)); reflexivity.
Qed.

Lemma paper_fill_respects_minimums_witness :
  _execute_or_paper
    (create_market_order None (Ok 103) (Ok SizingSpec.lot_001) (Ok 10) "BUY" (1 # 2))
    (1 # 2) (Ok 103)
  = (Exchange.round_qty SizingSpec.lot_001 (1 # 2), 103)
  /\ _execute_or_paper
       (create_market_order None (Raise NetworkError) (Ok SizingSpec.lot_001) (Ok 10)
                            "BUY" (1 # 2))
       (1 # 2) (Ok 103)
     = (0, 0).
Proof.
  destruct paper_fill_respects_minimums as [Hfill Hfail].
  split.
  - destruct (Hfill 103 SizingSpec.lot_001 10 "BUY"%string (1 # 2) 103) as [H | [H _]].
    + exfalso. revert H. vm_compute. discriminate.
    + exact H.
  - apply Hfail. exists NetworkError. now left.
Defined.

End OrderExtras.

(** ** The position store *)
Section StoreExtras.

Import Portfolio.

Lemma is_closed_set_status_open (p : Position) : is_closed (set_status p "open") = false.
Proof. reflexivity. Qed.

Lemma is_closed_set_status_closed (p : Position) : is_closed (set_status p "closed") = true.
Proof. reflexivity. Qed.

Lemma set_status_twice (p : Position) (a b : string) :
  set_status (set_status p a) b = set_status p b.
Proof. reflexivity. Qed.

(** X6. A saved position is stored as open under the id made from the
    clock and is listed by [get_open_positions]; closing that id marks it
    closed, removes it from the open positions, credits the pnl to its
    strategy (starting from half the initial balance when the strategy has
    no account) and appends exactly one exit entry to the ledger. *)
Theorem position_lifecycle (now : Q) (pos : Position) (st : State)
        (initial_balance t pnl : Q) :
  let pid := fst (save_position now pos st) in
  let st1 := snd (save_position now pos st) in
  let st2 := close_position initial_balance t pid pnl st1 in
  let strat := default "default"%string (strategy pos) in
  get_open_positions st1 !! pid = Some (set_status pos "open")
  /\ positions st2 !! pid = Some (set_status pos "closed")
  /\ get_open_positions st2 !! pid = None
  /\ get_balance st2 strat = default (initial_balance / 2) (balances st !! strat) + pnl
  /\ ledger st2 = ledger st ++ [ExtraSpec.exit_entry t pid pnl].
Proof.
  intros pid st1 st2 strat. subst pid st1 st2 strat.
  unfold save_position. cbn [fst snd].
  set (pid := pretty (PyNum.int (now * 1000))).
  split.
  - unfold get_open_positions. cbn [positions].
    apply map_lookup_filter_Some. split; [apply lookup_insert_eq | reflexivity].
  - unfold close_position. cbn [positions]. rewrite lookup_insert_eq.
    unfold add_ledger, update_balance. cbn [positions balances ledger].
    rewrite insert_insert_eq. change (strategy (set_status pos "open")) with (strategy pos).
    rewrite set_status_twice. repeat split.
    + now rewrite lookup_insert_eq.
    + unfold get_open_positions. cbn [positions].
      apply map_lookup_filter_None. right. intros p Hp.
      rewrite lookup_insert_eq in Hp. injection Hp as <-. cbn. discriminate.
    + unfold get_balance. cbn [balances]. now rewrite lookup_insert_eq.
Qed.



Lemma int_millisecond (a : Q) (ms : Z) :
  0 <= a ->
  (inject_Z ms <= a /\ a < inject_Z ms + 1) <-> PyNum.int a = ms.
Proof.
  intros Ha.
  assert (Hint : PyNum.int a = Qfloor a).
  { destruct a as [n d]. unfold PyNum.int, Qfloor. cbn [Qnum Qden].
    apply Z.quot_div_nonneg; [|reflexivity].
    unfold Qle in Ha. cbn in Ha. lia. }
  rewrite Hint. split.
  - intros [H1 H2].
    pose proof (Qfloor_resp_le _ _ H1) as Hlo. rewrite Qfloor_Z in Hlo.
    pose proof (Qfloor_le a) as Hfl.
    assert (Hlt : inject_Z (Qfloor a) < inject_Z (ms + 1)).
    { rewrite inject_Z_plus. change (inject_Z 1) with 1. lra. }
    rewrite <- Zlt_Qlt in Hlt. lia.
  - intros <-. split; [apply Qfloor_le|].
    pose proof (Qlt_floor a) as H. rewrite inject_Z_plus in H. exact H.
Qed.

(** X8. The id of a saved position is the clock in whole milliseconds:
    two positions saved within the same millisecond share the id and the
    second replaces the first, while positions saved in different
    milliseconds are both stored. *)
Theorem save_position_same_millisecond (now1 now2 : Q) (p1 p2 : Position) (st : State) :
  0 <= now1 -> 0 <= now2 ->
  let pid1 := fst (save_position now1 p1 st) in
  let st1 := snd (save_position now1 p1 st) in
  let pid2 := fst (save_position now2 p2 st1) in
  let st2 := snd (save_position now2 p2 st1) in
  (ExtraSpec.same_millisecond now1 now2 ->
   pid1 = pid2
   /\ positions st2 = positions (snd (save_position now2 p2 st))
   /\ positions st2 !! pid1 = Some (set_status p2 "open"))
  /\ (~ ExtraSpec.same_millisecond now1 now2 ->
      pid1 <> pid2
      /\ positions st2 !! pid1 = Some (set_status p1 "open")
      /\ positions st2 !! pid2 = Some (set_status p2 "open")).
Proof.
  intros H1 H2 pid1 st1 pid2 st2. subst pid1 st1 pid2 st2.
  assert (Hn1 : 0 <= now1 * 1000) by lra.
  assert (Hn2 : 0 <= now2 * 1000) by lra.
  unfold save_position. cbn [fst snd positions]. split.
  - intros (ms & Ha & Hb).
    apply (int_millisecond _ _ Hn1) in Ha. apply (int_millisecond _ _ Hn2) in Hb.
    rewrite Ha, Hb. split; [reflexivity|]. split.
    + apply insert_insert_eq.
    + apply lookup_insert_eq.
  - intros Hne.
    assert (Hp : pretty (PyNum.int (now1 * 1000)) <> pretty (PyNum.int (now2 * 1000))).
    { intros H. apply (inj pretty) in H. apply Hne.
      exists (PyNum.int (now1 * 1000)). split.
      - now apply (int_millisecond _ _ Hn1).
      - apply (int_millisecond _ _ Hn2). now symmetry. }
    split; [exact Hp|]. split.
    + rewrite lookup_insert_ne by (intros H; now apply Hp).
      apply lookup_insert_eq.
    + apply lookup_insert_eq.
Qed.

Lemma save_position_same_millisecond_witness :
  fst (save_position 1700000000 ExitSpec.live_pos init)
  = fst (save_position (17000000000001 # 10000) ExitSpec.live_pos
           (snd (save_position 1700000000 ExitSpec.live_pos init))).
Proof.
  destruct (save_position_same_millisecond 1700000000 (17000000000001 # 10000)
              ExitSpec.live_pos ExitSpec.live_pos init) as [H _];
    [discriminate | discriminate |].
  apply H. exists 1700000000000%Z. repeat split; (discriminate || reflexivity).
Defined.

Lemma apply_pnls_other (initial_balance : Q) (strategy other : string) (pnls : list Q) :
  other <> strategy ->
  forall st,
    balances (ExtraSpec.apply_pnls initial_balance strategy pnls st) !! other
    = balances st !! other.
Proof.
  intros Hne. induction pnls as [|pnl rest IH]; intros st; [reflexivity|].
  cbn [ExtraSpec.apply_pnls fold_left].
  change (fold_left _ rest ?s) with (ExtraSpec.apply_pnls initial_balance strategy rest s).
  rewrite IH. unfold update_balance. cbn [balances].
  now rewrite lookup_insert_ne.
Qed.

Lemma apply_pnls_from (initial_balance : Q) (strategy : string) (pnls : list Q) :
  forall st b,
    balances st !! strategy = Some b ->
    exists b',
      balances (ExtraSpec.apply_pnls initial_balance strategy pnls st) !! strategy
      = Some b'
      /\ b' == b + ExtraSpec.total pnls.
Proof.
  induction pnls as [|pnl rest IH]; intros st b Hb.
  - exists b. split; [exact Hb|]. cbn. ring.
  - cbn [ExtraSpec.apply_pnls fold_left].
    change (fold_left _ rest ?s) with (ExtraSpec.apply_pnls initial_balance strategy rest s).
    destruct (IH (update_balance initial_balance pnl strategy st) (b + pnl))
      as (b' & Hb' & Heq).
    { unfold update_balance. cbn [balances]. rewrite Hb. apply lookup_insert_eq. }
    exists b'. split; [exact Hb'|]. rewrite Heq. unfold ExtraSpec.total. cbn [fold_right]. ring.
Qed.

(** X9. A run of balance updates for one strategy leaves every other
    strategy's account alone and adds up: the account ends at its starting
    value plus the sum of the pnls, the starting value being half the
    initial balance when the strategy had no account. *)
Theorem balance_accumulates (initial_balance : Q) (strategy : string) (pnl : Q)
        (rest : list Q) (st : State) :
  let st' := ExtraSpec.apply_pnls initial_balance strategy (pnl :: rest) st in
  get_balance st' strategy
  == default (initial_balance / 2) (balances st !! strategy)
     + ExtraSpec.total (pnl :: rest)
  /\ (forall other, other <> strategy -> get_balance st' other = get_balance st other).
Proof.
  intros st'. subst st'. split.
  - cbn [ExtraSpec.apply_pnls fold_left].
    change (fold_left _ rest ?s) with (ExtraSpec.apply_pnls initial_balance strategy rest s).
    destruct (apply_pnls_from initial_balance strategy rest
                (update_balance initial_balance pnl strategy st)
                (default (initial_balance / 2) (balances st !! strategy) + pnl))
      as (b' & Hb' & Heq).
    { unfold update_balance. cbn [balances]. apply lookup_insert_eq. }
    unfold get_balance. rewrite Hb'. change (default 0 (Some b')) with b'.
    rewrite Heq. unfold ExtraSpec.total. cbn [fold_right].
    set (d := default (initial_balance / 2) (balances st !! strategy)). ring.
  - intros other Hne. unfold get_balance.
    now rewrite (apply_pnls_other initial_balance strategy other (pnl :: rest) Hne).
Qed.

Lemma balance_accumulates_witness :
  get_balance (ExtraSpec.apply_pnls 1000 "momentum" [25; - 10] init) "ma"
  = get_balance init "ma".
Proof.
  destruct (balance_accumulates 1000 "momentum" 25 [- 10] init) as [_ H].
  apply H. discriminate.
Defined.

End StoreExtras.

(** ** The live exit loop *)
Section ExitExtras.

Import Exit.

Lemma update_trailing_idle (trailing : gmap string Q) (pos : Portfolio.Position)
      (price : Q) :
  trailing !! Portfolio.symbol pos = None ->
  price <= Portfolio.entry_price pos ->
  update_trailing trailing pos price = trailing.
Proof.
  intros Hnone Hle. unfold update_trailing. rewrite Hnone.
  change (default (Portfolio.entry_price pos) None) with (Portfolio.entry_price pos).
  apply gtb_false in Hle. now rewrite Hle.
Qed.

Lemma update_trailing_twice (trailing : gmap string Q) (pos : Portfolio.Position)
      (price : Q) :
  update_trailing (update_trailing trailing pos price) pos price
  = update_trailing trailing pos price.
Proof.
  unfold update_trailing at 2 3.
  destruct (PyNum.gtb price _) eqn:Eg; unfold update_trailing.
  - rewrite lookup_insert_eq. change (default _ (Some price)) with price.
    assert (E : PyNum.gtb price price = false) by (apply gtb_false; apply Qle_refl).
    now rewrite E.
  - now rewrite Eg.
Qed.

Lemma decide_exit_again (pct : Q) (trailing : gmap string Q) (pos : Portfolio.Position)
      (price : Q) :
  decide_exit pct (fst (decide_exit pct trailing pos price)) pos price
  = decide_exit pct trailing pos price.
Proof.
  assert (Hf : fst (decide_exit pct trailing pos price) = update_trailing trailing pos price).
  { unfold decide_exit. now destruct (PyNum.div _ _). }
  rewrite Hf. unfold decide_exit. now rewrite update_trailing_twice.
Qed.

(** X10. The per-symbol high kept by the exit manager never decreases,
    other symbols are untouched, a recorded high is at least the price
    just seen, and no high is recorded while the price has not exceeded
    the entry price. *)
Theorem trailing_high_monotone (trailing : gmap string Q) (pos : Portfolio.Position)
        (price : Q) :
  let trailing' := update_trailing trailing pos price in
  (forall sym h, trailing !! sym = Some h ->
                 exists h', trailing' !! sym = Some h' /\ h <= h')
  /\ (forall sym, sym <> Portfolio.symbol pos -> trailing' !! sym = trailing !! sym)
  /\ (forall h', trailing' !! Portfolio.symbol pos = Some h' -> price <= h')
  /\ (trailing !! Portfolio.symbol pos = None ->
      price <= Portfolio.entry_price pos -> trailing' = trailing).
Proof.
  intros trailing'. subst trailing'. unfold update_trailing.
  destruct (PyNum.gtb price _) eqn:Eg.
  - apply gtb_true in Eg. repeat split.
    + intros sym h Hh. destruct (decide (sym = Portfolio.symbol pos)) as [->|Hne].
      * rewrite Hh in Eg. change (default _ (Some h)) with h in Eg.
        exists price. rewrite lookup_insert_eq. split; [reflexivity | lra].
      * exists h. rewrite lookup_insert_ne by congruence. split; [assumption | lra].
    + intros sym Hne. now rewrite lookup_insert_ne by congruence.
    + intros h'. rewrite lookup_insert_eq. intros [= <-]. lra.
    + intros Hnone Hle. rewrite Hnone in Eg.
      change (default _ None) with (Portfolio.entry_price pos) in Eg. exfalso. lra.
  - apply gtb_false in Eg. repeat split.
    + intros sym h Hh. exists h. split; [assumption | lra].
    + intros h' Hh'. rewrite Hh' in Eg. exact Eg.
Qed.

Lemma trailing_high_monotone_witness :
  exists h', update_trailing ExitSpec.trailing_110 ExitSpec.live_pos 115
             !! "BTCUSDT"%string = Some h'
             /\ 110 <= h'.
Proof.
  destruct (trailing_high_monotone ExitSpec.trailing_110 ExitSpec.live_pos 115) as [H _].
  apply H. reflexivity.
Defined.

(** X11. While the symbol has no recorded high and the price is at most
    the entry price, the trailing stop is measured from the price itself
    and cannot match a positive price with a positive percentage: the live
    loop then closes on the take-profit and stop-loss tests alone. *)
Theorem live_trailing_needs_a_high (pct : Q) (trailing : gmap string Q)
        (pos : Portfolio.Position) (price : Q) :
  trailing !! Portfolio.symbol pos = None ->
  price <= Portfolio.entry_price pos ->
  0 < price -> 0 < pct ->
  ExitSpec.live_reason pct trailing pos price
  = Some (if PyNum.geb price (Portfolio.tp_price pos) then Some "TP hit"%string
          else if PyNum.leb price (Portfolio.sl_price pos) then Some "SL/Trail hit"%string
               else None).
Proof.
  intros Hnone Hle Hp Hpct.
  assert (Hne : ~ Portfolio.entry_price pos == 0) by (intros H; lra).
  unfold ExitSpec.live_reason. rewrite (live_decide_exit_ok pct trailing pos price Hne).
  f_equal. unfold exit_reason.
  rewrite (update_trailing_idle trailing pos price Hnone Hle).
  unfold trail_stop. rewrite Hnone.
  change (default price None) with price.
  assert (Hs : PyNum.leb price (price * (1 - pct / 100)) = false).
  { apply leb_false.
    assert (0 < price * (pct / 100)).
    { apply Qmult_lt_0_compat; [assumption|]. apply Qlt_shift_div_l; lra. }
    lra. }
  rewrite Hs, orb_false_r. reflexivity.
Qed.

Lemma live_trailing_needs_a_high_witness :
  ExitSpec.live_reason 1 ∅ ExitSpec.live_pos 99 = Some None.
Proof.
  rewrite (live_trailing_needs_a_high 1 ∅ ExitSpec.live_pos 99);
    [reflexivity | apply lookup_empty | discriminate | reflexivity | reflexivity].
Defined.

(** X12. When the exit test of the live loop fires, the position is sold
    and the trade record is saved, then closing it in the portfolio fails
    with a [TypeError] that the loop logs; for a position stored without a
    strategy the failure is a [KeyError] right after the sale.  Either way
    the store is left as it was, so the position is still listed open, and
    the next pass at the same price sells it again. *)
Theorem live_exit_sells_without_closing (pct initial_balance now : Q)
        (sell : string -> Q -> Q * Q) (trailing : gmap string Q)
        (st : Portfolio.State) (pos : Portfolio.Position) (price : Q)
        (reason : string) (pnl : Q) (pid : string) :
  snd (decide_exit pct trailing pos price) = Ok (Some reason, pnl) ->
  Portfolio.get_open_positions st !! pid = Some pos ->
  let res := manage_one pct initial_balance now sell trailing st pos (Ok price) in
  let sold := sell (Portfolio.symbol pos) (Portfolio.qty pos) in
  snd res
  = Sell (Portfolio.symbol pos) (Portfolio.qty pos)
    :: match Portfolio.strategy pos with
       | Some _ =>
           [SaveTrade (Portfolio.symbol pos) reason
                      (if PyNum.eqb (snd sold) 0 then price else snd sold)
                      (if PyNum.eqb (fst sold) 0 then Portfolio.qty pos else fst sold)
                      pnl;
            Log TypeError]
       | None => [Log KeyError]
       end
  /\ Portfolio.get_open_positions (snd (fst res)) !! pid = Some pos
  /\ (forall later,
         manage_one pct initial_balance later sell (fst (fst res)) (snd (fst res)) pos
                    (Ok price)
         = res).
Proof.
  intros Hd Hopen res sold.
  assert (Hres : forall t tr,
             decide_exit pct tr pos price = decide_exit pct trailing pos price ->
             manage_one pct initial_balance t sell tr st pos (Ok price)
             = (fst (decide_exit pct trailing pos price), st,
                Sell (Portfolio.symbol pos) (Portfolio.qty pos)
                :: match Portfolio.strategy pos with
                   | Some _ =>
                       [SaveTrade (Portfolio.symbol pos) reason
                                  (if PyNum.eqb (snd sold) 0 then price else snd sold)
                                  (if PyNum.eqb (fst sold) 0 then Portfolio.qty pos
                                   else fst sold)
                                  pnl;
                        Log TypeError]
                   | None => [Log KeyError]
                   end)).
  { intros t tr Htr. unfold manage_one. rewrite Htr.
    destruct (decide_exit pct trailing pos price) as [tr' r]. cbn [fst snd] in *. subst r.
    unfold _close_position. subst sold.
    destruct (sell _ _) as [eq ep], (Portfolio.strategy pos); reflexivity. }
  subst res. rewrite (Hres now trailing eq_refl). cbn [fst snd].
  split; [reflexivity|]. split; [exact Hopen|].
  intros later. apply Hres. apply decide_exit_again.
Qed.

Lemma live_exit_sells_without_closing_witness :
  snd (manage_one 1 1000 1700000060 (fun _ q => (q, 108)) ExitSpec.trailing_110
                  PortfolioSpec.st_open ExitSpec.live_pos (Ok 108))
  = [Sell "BTCUSDT" 1; SaveTrade "BTCUSDT" "SL/Trail hit" 108 1 8; Log TypeError]
  /\ Portfolio.get_open_positions PortfolioSpec.st_open !! PortfolioSpec.pid0
     = Some ExitSpec.live_pos.
Proof.
  assert (Hopen : Portfolio.get_open_positions PortfolioSpec.st_open !! PortfolioSpec.pid0
                  = Some ExitSpec.live_pos) by (vm_compute; reflexivity).
  split; [|exact Hopen].
  destruct (live_exit_sells_without_closing 1 1000 1700000060 (fun _ q => (q, 108))
              ExitSpec.trailing_110 PortfolioSpec.st_open ExitSpec.live_pos 108
              "SL/Trail hit" ((108 - 100) * 1) PortfolioSpec.pid0)
    as (H & _); [vm_compute; reflexivity | exact Hopen |].
  rewrite H. reflexivity.
Defined.

End ExitExtras.

(** ** More on the backtest loop *)
Section BacktestStructure.

Import Backtest BacktestSpec.

Lemma atr_pct_some (df : list Bar) (lookback : nat) (a : Q) :
  _atr_pct df lookback = Some a ->
  (lookback + 1 <= length df)%nat
  /\ 0 < PyNum.nth_last 1 (closes df)
  /\ a = PyNum.mean (PyNum.last_n lookback (true_ranges df))
         / PyNum.nth_last 1 (closes df).
Proof.
  unfold _atr_pct. destruct (Nat.ltb_spec (length df) (lookback + 1)); [discriminate|].
  destruct (PyNum.leb _ 0) eqn:El; [discriminate|].
  apply leb_false in El. intros [= <-]. auto.
Qed.

(** The entry phase does nothing, or the volatility gate is open on at
    least fifteen bars ending at a positive close and the two attempts
    run. *)
Lemma entry_phase_gate (self : Backtester) (symbol : string) (win : list Bar)
      (i : nat) (t : Z) (px : Q) (st : LoopState) :
  entry_phase self symbol win i t px st = st
  \/ ((15 <= length win)%nat
      /\ 0 < PyNum.nth_last 1 (closes win)
      /\ entry_phase self symbol win i t px st
         = try_enter self symbol i t px (_sig_ma win 9 21) ma
             (try_enter self symbol i t px
                (_sig_momentum win (entry_lookback_min self) (entry_change_pct self))
                momentum st)).
Proof.
  unfold entry_phase. destruct (_atr_pct win 14) as [a|] eqn:Ea; [|now left].
  destruct (PyNum.ltb a (min_atr_pct self)); [now left|].
  right. apply atr_pct_some in Ea. destruct Ea as (Hlen & Hpos & _).
  split; [lia|]. split; [exact Hpos | reflexivity].
Qed.

Lemma do_enter_rest (self : Backtester) (symbol : string) (i : nat) (t : Z) (px : Q)
      (st st' : LoopState) (s : Strategy) :
  do_enter self symbol i t px st s = Entered st' ->
  trades_count st' = trades_incr (trades_count st) s
  /\ equity_curve st' = equity_curve st
  /\ ts st' = ts st
  /\ exists p, open_positions st' = open_positions st ++ [p]
               /\ highest p = entry_price p
               /\ tp_price p = entry_price p * (1 + take_profit_pct self)
               /\ sl_price p = entry_price p * (1 - stop_loss_pct self).
Proof.
  unfold do_enter.
  destruct (PyNum.leb _ 0); [discriminate|].
  destruct (size_entry _ _ _) as [[[q f] n]|e]; [|discriminate].
  destruct (PyNum.leb q 0 || PyNum.gtb n _); [discriminate|].
  intros [= <-]. cbn. repeat split. eexists. repeat split.
Qed.

Lemma try_enter_cases (self : Backtester) (symbol : string) (i : nat) (t : Z) (px : Q)
      (signal : bool) (s : Strategy) (st : LoopState) :
  try_enter self symbol i t px signal s st = st
  \/ (signal = true /\ can_enter self symbol i st s = true
      /\ do_enter self symbol i t px st s
         = Entered (try_enter self symbol i t px signal s st)).
Proof.
  unfold try_enter. destruct (can_enter self symbol i st s); cbn [andb]; [|now left].
  destruct signal; [|now left].
  destruct (do_enter self symbol i t px st s) eqn:E; auto.
Qed.

(** A property of the loop state that the exit phase keeps at every price
    and an entry attempt keeps at a positive price holds after every
    bar. *)
Lemma run_bars_invariant (self : Backtester) (symbol : string) (df : list Bar)
      (P : LoopState -> Prop) :
  P (init_state self) ->
  (forall st i t px, P st -> P (exit_phase self i t px st)) ->
  (forall st i t px signal s, 0 < px -> P st -> P (try_enter self symbol i t px signal s st)) ->
  forall n, P (run_bars self symbol df n).
Proof.
  intros Hinit Hexit Henter. induction n as [|n IH]; [exact Hinit|].
  rewrite run_bars_S. unfold step.
  set (win := firstn (n + 1) df). set (px := PyNum.nth_last 1 (closes win)).
  set (st1 := exit_phase self n (last_close_time win) px (run_bars self symbol df n)).
  assert (H1 : P st1) by (now apply Hexit).
  destruct (entry_phase_gate self symbol win n (last_close_time win) px st1)
    as [-> | (_ & Hpos & ->)]; [exact H1|].
  apply Henter; [exact Hpos|]. apply Henter; [exact Hpos | exact H1].
Qed.

End BacktestStructure.

Section BacktestPositions.

Import Backtest BacktestSpec.

Lemma exit_phase_positions (self : Backtester) (i : nat) (t : Z) (px : Q)
      (st : LoopState) (p : Position) :
  In p (open_positions (exit_phase self i t px st)) ->
  exists p0, In p0 (open_positions st) /\ p = updated p0 px.
Proof.
  unfold exit_phase.
  pose proof (exit_loop_kept self i px (open_positions st) (balances st) p) as H.
  destruct (exit_loop self i px (open_positions st) (balances st)) as [[b k] e].
  cbn [fst snd open_positions] in *. intros Hin. now destruct (H Hin).
Qed.

(** X13. The exit loop changes nothing in a position it keeps except the
    high, which it never lowers and which is at least the bar's close
    afterwards. *)
Theorem exit_loop_raises_high (self : Backtester) (i : nat) (px : Q)
        (ops : list Position) (bal : Balances) (p : Position) :
  In p (snd (fst (exit_loop self i px ops bal))) ->
  exists p0,
    In p0 ops
    /\ p = set_highest p0 (highest p)
    /\ highest p0 <= highest p
    /\ px <= highest p.
Proof.
  intros Hin. apply exit_loop_kept in Hin. destruct Hin as (_ & p0 & Hp0 & ->).
  exists p0. split; [exact Hp0|]. split; [reflexivity|].
  cbn. split; [apply Q.le_max_l | apply Q.le_max_r].
Qed.

Lemma exit_loop_raises_high_witness :
  exists p0,
    In p0 [ExitSpec.bt_pos_wide]
    /\ Backtest.updated ExitSpec.bt_pos_wide 110
       = set_highest p0 (highest (Backtest.updated ExitSpec.bt_pos_wide 110))
    /\ highest p0 <= highest (Backtest.updated ExitSpec.bt_pos_wide 110)
    /\ 110 <= highest (Backtest.updated ExitSpec.bt_pos_wide 110).
Proof.
  apply (exit_loop_raises_high ExitSpec.bt_default 21 110 [ExitSpec.bt_pos_wide]
                               ExitSpec.bt_bal0).
  now left.
Defined.

Lemma updated_well_formed (self : Backtester) (p : Position) (px : Q) :
  ExtraSpec.well_formed self p -> ExtraSpec.well_formed self (updated p px).
Proof.
  intros (H1 & H2 & H3 & H4 & H5 & H6). repeat split; try assumption.
  cbn. apply Qle_trans with (highest p); [assumption | apply Q.le_max_l].
Qed.

Lemma try_enter_well_formed (self : Backtester) (symbol : string) (i : nat) (t : Z)
      (px : Q) (signal : bool) (s : Strategy) (st : LoopState) :
  0 <= slippage_pct self -> 0 < px ->
  Forall (ExtraSpec.well_formed self) (open_positions st) ->
  Forall (ExtraSpec.well_formed self)
         (open_positions (try_enter self symbol i t px signal s st)).
Proof.
  intros Hslip Hpx H.
  destruct (try_enter_cases self symbol i t px signal s st) as [-> | (_ & _ & E)];
    [exact H|].
  pose proof (do_enter_entered _ _ _ _ _ _ _ _ E)
    as (p & Hops & _ & _ & Hentry & Hqty & _ & Hfee & _).
  pose proof (do_enter_rest _ _ _ _ _ _ _ _ E)
    as (_ & _ & _ & p' & Hops' & Hhigh & Htp & Hsl).
  rewrite Hops in Hops'. apply app_inj_tail in Hops'. destruct Hops' as [_ <-].
  rewrite Hops. apply Forall_app. split; [exact H|]. constructor; [|constructor].
  repeat split; try assumption.
  - rewrite Hentry. apply Qmult_lt_0_compat; lra.
  - rewrite Hhigh. apply Qle_refl.
Qed.

Lemma run_bars_well_formed (self : Backtester) (symbol : string) (df : list Bar) (n : nat) :
  0 <= slippage_pct self ->
  Forall (ExtraSpec.well_formed self) (open_positions (run_bars self symbol df n)).
Proof.
  intros Hslip.
  apply (run_bars_invariant self symbol df
           (fun st => Forall (ExtraSpec.well_formed self) (open_positions st))).
  - constructor.
  - intros st i t px H. apply Forall_forall. intros p Hp.
    apply list_elem_of_In in Hp. apply exit_phase_positions in Hp.
    destruct Hp as (p0 & Hp0 & ->). apply updated_well_formed.
    apply (proj1 (Forall_forall _ _) H). now apply list_elem_of_In.
  - intros st i t px signal s Hpx H. now apply try_enter_well_formed.
Qed.

(** X14. With a slippage that is not negative, every position open after
    a bar was entered at a positive price with a positive quantity, its
    target, stop and fee are the ones computed from its entry price, and
    its high is at least the entry price.  With positive take-profit and
    stop-loss percentages the stop lies below the entry and the target
    above it, so no price meets the take-profit and the stop-loss test
    together. *)
Theorem open_positions_well_formed (self : Backtester) (symbol : string)
        (df : list Bar) (n : nat) (p : Position) :
  0 <= slippage_pct self ->
  In p (open_positions (run_bars self symbol df n)) ->
  ExtraSpec.well_formed self p
  /\ (0 < take_profit_pct self -> 0 < stop_loss_pct self ->
      sl_price p < entry_price p
      /\ entry_price p < tp_price p
      /\ forall px, ~ (tp_price p <= px /\ px <= sl_price p)).
Proof.
  intros Hslip Hin.
  pose proof (run_bars_well_formed self symbol df n Hslip) as H.
  assert (Hwf : ExtraSpec.well_formed self p).
  { apply (proj1 (Forall_forall _ _) H). now apply list_elem_of_In. }
  split; [exact Hwf|]. intros Htp Hsl.
  destruct Hwf as (He & _ & -> & -> & _).
  assert (H1 : 0 < entry_price p * take_profit_pct self)
    by (apply Qmult_lt_0_compat; assumption).
  assert (H2 : 0 < entry_price p * stop_loss_pct self)
    by (apply Qmult_lt_0_compat; assumption).
  repeat split; try lra. intros px [Ha Hb]. lra.
Qed.

Lemma open_positions_well_formed_witness :
  ExtraSpec.well_formed
    ExitSpec.bt_default
    (nth 0 (open_positions (run_bars ExitSpec.bt_default "BTCUSDT" ScanSpec.rally 16))
         ExitSpec.bt_pos).
Proof.
  assert (Hin : In (nth 0 (open_positions
                             (run_bars ExitSpec.bt_default "BTCUSDT" ScanSpec.rally 16))
                        ExitSpec.bt_pos)
                   (open_positions
                      (run_bars ExitSpec.bt_default "BTCUSDT" ScanSpec.rally 16))).
  { vm_compute. left. reflexivity. }
  exact (proj1 (open_positions_well_formed
                  ExitSpec.bt_default "BTCUSDT"%string ScanSpec.rally 16 _
                  ltac:(discriminate) Hin)).
Defined.

End BacktestPositions.

Section BacktestWarmUp.

Import Backtest BacktestSpec.

Lemma exit_phase_idle (self : Backtester) (i : nat) (t : Z) (px : Q) (st : LoopState) :
  ExtraSpec.idle self st -> ExtraSpec.idle self (exit_phase self i t px st).
Proof.
  intros (H1 & H2 & H3 & H4 & H5). unfold exit_phase. rewrite H1. cbn.
  unfold ExtraSpec.idle. cbn. rewrite H2. auto.
Qed.

Lemma atr_pct_short (df : list Bar) : (length df <= 14)%nat -> _atr_pct df 14 = None.
Proof.
  intros H. unfold _atr_pct.
  destruct (Nat.ltb_spec (length df) (14 + 1)); [reflexivity | lia].
Qed.

Lemma sig_ma_short (df : list Bar) : (length df <= 20)%nat -> _sig_ma df 9 21 = false.
Proof.
  intros H. unfold _sig_ma.
  destruct (Nat.ltb_spec (length df) 21); [reflexivity | lia].
Qed.

Lemma window_length (df : list Bar) (i : nat) :
  length (firstn (i + 1) df) = Nat.min (i + 1) (length df).
Proof. apply length_firstn. Qed.

Lemma run_bars_idle (self : Backtester) (symbol : string) (df : list Bar) (n : nat) :
  (n <= 14)%nat \/ (length df <= 14)%nat ->
  ExtraSpec.idle self (run_bars self symbol df n).
Proof.
  induction n as [|n IH]; intros H.
  - repeat split.
  - rewrite run_bars_S. unfold step, entry_phase.
    rewrite atr_pct_short by (rewrite window_length; lia).
    apply exit_phase_idle. apply IH. lia.
Qed.

Lemma try_enter_no_signal (self : Backtester) (symbol : string) (i : nat) (t : Z)
      (px : Q) (s : Strategy) (st : LoopState) :
  try_enter self symbol i t px false s st = st.
Proof. unfold try_enter. now rewrite andb_false_r. Qed.

Lemma try_enter_ma_free (self : Backtester) (symbol : string) (i : nat) (t : Z) (px : Q)
      (signal : bool) (st : LoopState) :
  ExtraSpec.trades_of (trades_count st) ma = 0%nat
  /\ entry_bars ma (log st) = []
  /\ (forall p, In p (open_positions st) -> strategy p = momentum) ->
  let st' := try_enter self symbol i t px signal momentum st in
  ExtraSpec.trades_of (trades_count st') ma = 0%nat
  /\ entry_bars ma (log st') = []
  /\ (forall p, In p (open_positions st') -> strategy p = momentum).
Proof.
  intros (H1 & H2 & H3) st'. subst st'.
  destruct (try_enter_cases self symbol i t px signal momentum st) as [-> | (_ & _ & E)];
    [auto|].
  pose proof (do_enter_entered _ _ _ _ _ _ _ _ E)
    as (p & Hops & Hs & _ & _ & _ & _ & _ & _ & _ & _ & Hlog).
  pose proof (do_enter_rest _ _ _ _ _ _ _ _ E) as (Htr & _).
  rewrite Htr, Hlog, Hops, entry_bars_app. cbn. rewrite H2. repeat split; auto.
  intros q Hq. apply in_app_or in Hq. destruct Hq as [Hq | [<- | []]]; auto.
Qed.

Lemma run_bars_ma_free (self : Backtester) (symbol : string) (df : list Bar) (n : nat) :
  (n <= 20)%nat \/ (length df <= 20)%nat ->
  let st := run_bars self symbol df n in
  ExtraSpec.trades_of (trades_count st) ma = 0%nat
  /\ entry_bars ma (log st) = []
  /\ (forall p, In p (open_positions st) -> strategy p = momentum).
Proof.
  induction n as [|n IH]; intros H.
  - cbn. repeat split. intros p [].
  - rewrite run_bars_S. unfold step.
    set (win := firstn (n + 1) df). set (px := PyNum.nth_last 1 (closes win)).
    set (st1 := exit_phase self n (last_close_time win) px (run_bars self symbol df n)).
    assert (H1 : ExtraSpec.trades_of (trades_count st1) ma = 0%nat
                 /\ entry_bars ma (log st1) = []
                 /\ (forall p, In p (open_positions st1) -> strategy p = momentum)).
    { destruct IH as (I1 & I2 & I3); [lia|]. subst st1. repeat split.
      - unfold exit_phase. destruct (exit_loop _ _ _ _ _) as [[b k] e]. exact I1.
      - unfold exit_phase.
        pose proof (exit_loop_no_entries self n px
                      (open_positions (run_bars self symbol df n)) ma
                      (balances (run_bars self symbol df n))) as He.
        destruct (exit_loop _ _ _ _ _) as [[b k] e]. cbn [log snd] in *.
        now rewrite entry_bars_app, I2, He.
      - intros p Hp. apply exit_phase_positions in Hp. destruct Hp as (p0 & Hp0 & ->).
        cbn. now apply I3. }
    destruct (entry_phase_gate self symbol win n (last_close_time win) px st1)
      as [-> | (_ & _ & ->)]; [exact H1|].
    rewrite sig_ma_short by (subst win; rewrite window_length; lia).
    pose proof (try_enter_ma_free self symbol n (last_close_time win) px
                  (_sig_momentum win (entry_lookback_min self) (entry_change_pct self))
                  st1 H1) as H2.
    cbv zeta in H2.
    set (st2 := try_enter self symbol n (last_close_time win) px _ momentum st1) in *.
    rewrite try_enter_no_signal. exact H2.
Qed.

(** X15. No entry is possible before the volatility gate has fifteen
    bars: after at most fourteen bars, or over a frame of at most fourteen
    bars, the run has no position, no log line and no trade, and the
    balances are the starting shares.  The moving-average strategy needs
    twenty-one bars: up to twenty bars it has no trade and every open
    position is a momentum one. *)
Theorem warm_up (self : Backtester) (symbol : string) (df : list Bar) (n : nat) :
  ((n <= 14)%nat \/ (length df <= 14)%nat ->
   ExtraSpec.idle self (run_bars self symbol df n))
  /\ ((n <= 20)%nat \/ (length df <= 20)%nat ->
      let st := run_bars self symbol df n in
      ExtraSpec.trades_of (trades_count st) ma = 0%nat
      /\ entry_bars ma (log st) = []
      /\ (forall p, In p (open_positions st) -> strategy p = momentum)).
Proof. split; [apply run_bars_idle | apply run_bars_ma_free]. Qed.

Lemma warm_up_witness :
  ExtraSpec.idle ExitSpec.bt_default
                 (run_bars ExitSpec.bt_default "BTCUSDT" ScanSpec.rally 14)
  /\ ExtraSpec.trades_of
       (trades_count (run_bars ExitSpec.bt_default "BTCUSDT" ScanSpec.rally 16)) ma
     = 0%nat.
Proof.
  destruct (warm_up ExitSpec.bt_default "BTCUSDT"%string ScanSpec.rally 14) as [H _].
  split; [apply H; left; lia|].
  destruct (warm_up ExitSpec.bt_default "BTCUSDT"%string ScanSpec.rally 16) as [_ H'].
  apply H'. left. lia.
Defined.

(** X16. One equity snapshot and one timestamp are recorded per bar,
    whether or not the bar trades: after [n] bars both series have [n]
    entries, and the equity series of the summary has one entry per bar of
    the frame. *)
Theorem equity_curve_length (self : Backtester) (symbol : string) (df : list Bar) :
  (forall n, length (equity_curve (run_bars self symbol df n)) = n
             /\ length (ts (run_bars self symbol df n)) = n)
  /\ (forall r, run_backtest self symbol (Ok df) = Some r ->
                length (equity r) = length df).
Proof.
  assert (H : forall n, length (equity_curve (run_bars self symbol df n)) = n
                        /\ length (ts (run_bars self symbol df n)) = n).
  { induction n as [|n [IH1 IH2]]; [split; reflexivity|].
    rewrite run_bars_S. unfold step.
    set (win := firstn (n + 1) df). set (px := PyNum.nth_last 1 (closes win)).
    set (st1 := exit_phase self n (last_close_time win) px (run_bars self symbol df n)).
    assert (H1 : length (equity_curve st1) = S n /\ length (ts st1) = S n).
    { subst st1. unfold exit_phase. destruct (exit_loop _ _ _ _ _) as [[b k] e].
      cbn [equity_curve ts]. rewrite !length_app. cbn. lia. }
    assert (Hte : forall signal s st,
               equity_curve (try_enter self symbol n (last_close_time win) px signal s st)
               = equity_curve st
               /\ ts (try_enter self symbol n (last_close_time win) px signal s st) = ts st).
    { intros signal s st.
      destruct (try_enter_cases self symbol n (last_close_time win) px signal s st)
        as [-> | (_ & _ & E)]; [auto|].
      apply do_enter_rest in E. destruct E as (_ & E1 & E2 & _). auto. }
    destruct (entry_phase_gate self symbol win n (last_close_time win) px st1)
      as [-> | (_ & _ & ->)]; [exact H1|].
    destruct (Hte (_sig_ma win 9 21) ma
                  (try_enter self symbol n (last_close_time win) px
                     (_sig_momentum win (entry_lookback_min self) (entry_change_pct self))
                     momentum st1)) as [-> ->].
    destruct (Hte (_sig_momentum win (entry_lookback_min self) (entry_change_pct self))
                  momentum st1) as [-> ->].
    exact H1. }
  split; [exact H|].
  intros r Hr. unfold run_backtest in Hr. destruct df as [|b df]; [discriminate|].
  destruct (force_exit _ _ _ _) as [bal evs]. injection Hr as <-. cbn [equity].
  apply H.
Qed.

Lemma equity_curve_length_witness :
  exists r,
    run_backtest ExitSpec.bt_default "BTCUSDT" (Ok ScanSpec.rally) = Some r
    /\ length (equity r) = 16%nat.
Proof.
  destruct (run_backtest ExitSpec.bt_default "BTCUSDT" (Ok ScanSpec.rally)) as [r|] eqn:Er;
    [|revert Er; vm_compute; discriminate].
  exists r. split; [reflexivity|].
  exact (proj2 (equity_curve_length ExitSpec.bt_default "BTCUSDT"%string ScanSpec.rally)
               r Er).
Defined.

End BacktestWarmUp.

Section BacktestAccounts.

Import Backtest BacktestSpec.

Lemma bal_total_add (b : Balances) (s : Strategy) (x : Q) :
  bal_total (bal_add b s x) == bal_total b + x.
Proof. destruct s; unfold bal_total; cbn; ring. Qed.

Lemma open_cost_app (l1 l2 : list Position) :
  ExtraSpec.open_cost (l1 ++ l2) == ExtraSpec.open_cost l1 + ExtraSpec.open_cost l2.
Proof.
  induction l1 as [|p l1 IH]; cbn [app ExtraSpec.open_cost]; [ring|].
  rewrite IH. ring.
Qed.

Lemma realized_app (l1 l2 : list LogEvent) :
  ExtraSpec.realized (l1 ++ l2) == ExtraSpec.realized l1 + ExtraSpec.realized l2.
Proof.
  induction l1 as [|ev l1 IH]; cbn [app ExtraSpec.realized]; [ring|].
  destruct ev; rewrite IH; ring.
Qed.

Lemma exit_loop_account (self : Backtester) (i : nat) (px : Q) (ops : list Position) :
  forall bal,
    bal_total (fst (fst (exit_loop self i px ops bal)))
    + ExtraSpec.open_cost (snd (fst (exit_loop self i px ops bal)))
    == bal_total bal + ExtraSpec.open_cost ops
       + ExtraSpec.realized (snd (exit_loop self i px ops bal)).
Proof.
  induction ops as [|pos rest IH]; intros bal; cbn [exit_loop].
  - cbn. ring.
  - destruct (exit_reason self (updated pos px) px).
    + case_exit_loop IH. cbn [fst snd ExtraSpec.realized ExtraSpec.open_cost] in *.
      rewrite IH, bal_total_add. unfold realized_pnl. cbn. ring.
    + specialize (IH bal). destruct (exit_loop self i px rest bal) as [[b k] e].
      cbn [fst snd ExtraSpec.open_cost] in *.
      change (entry_price (updated pos px)) with (entry_price pos).
      change (qty (updated pos px)) with (qty pos).
      change (entry_fee (updated pos px)) with (entry_fee pos).
      lra.
Qed.

Lemma force_exit_account (self : Backtester) (last_px : Q) (ops : list Position) :
  forall bal,
    bal_total (fst (force_exit self last_px ops bal))
    == bal_total bal + ExtraSpec.open_cost ops
       + ExtraSpec.realized (snd (force_exit self last_px ops bal)).
Proof.
  induction ops as [|pos rest IH]; intros bal; cbn [force_exit].
  - cbn. ring.
  - case_force_exit IH. cbn [fst snd ExtraSpec.realized ExtraSpec.open_cost] in *.
    rewrite IH, bal_total_add. unfold realized_pnl. ring.
Qed.

Lemma exit_phase_balanced (self : Backtester) (i : nat) (t : Z) (px : Q)
      (st : LoopState) :
  ExtraSpec.balanced self st -> ExtraSpec.balanced self (exit_phase self i t px st).
Proof.
  unfold ExtraSpec.balanced, exit_phase. intros H.
  pose proof (exit_loop_account self i px (open_positions st) (balances st)) as Ha.
  destruct (exit_loop self i px (open_positions st) (balances st)) as [[b k] e].
  cbn [fst snd balances open_positions log] in *.
  rewrite realized_app. lra.
Qed.

Lemma try_enter_balanced (self : Backtester) (symbol : string) (i : nat) (t : Z)
      (px : Q) (signal : bool) (s : Strategy) (st : LoopState) :
  ExtraSpec.balanced self st ->
  ExtraSpec.balanced self (try_enter self symbol i t px signal s st).
Proof.
  intros H.
  destruct (try_enter_cases self symbol i t px signal s st) as [-> | (_ & _ & E)];
    [exact H|].
  apply do_enter_entered in E.
  destruct E as (p & Hops & _ & _ & _ & _ & _ & _ & _ & Hbal & _ & Hlog).
  unfold ExtraSpec.balanced in *. rewrite Hops, Hbal, Hlog.
  rewrite open_cost_app, realized_app, bal_total_add.
  cbn [ExtraSpec.open_cost ExtraSpec.realized]. lra.
Qed.

Lemma run_bars_balanced (self : Backtester) (symbol : string) (df : list Bar) (n : nat) :
  ExtraSpec.balanced self (run_bars self symbol df n).
Proof.
  apply (run_bars_invariant self symbol df (ExtraSpec.balanced self)).
  - unfold ExtraSpec.balanced. cbn. ring.
  - intros. now apply exit_phase_balanced.
  - intros. now apply try_enter_balanced.
Qed.

Lemma weights_normalised (self : Backtester) :
  ~ ExtraSpec.weight_sum self == 0 ->
  strategy_weights self momentum + strategy_weights self ma == 1.
Proof.
  intros H. unfold strategy_weights. fold (ExtraSpec.weight_sum self).
  apply eqb_false in H. rewrite H. apply eqb_false in H.
  unfold ExtraSpec.weight_sum in *. field. intros E. apply H. lra.
Qed.

(** X17. The books of a run balance.  After every bar the cash plus the
    entry cost of the open positions equals the starting cash plus the pnl
    of the exits logged so far; at the end the final balance equals the
    starting cash plus the pnl of all logged exits, forced ones included,
    and the reported total pnl is exactly that sum when the configured
    weights do not add up to zero. *)
Theorem pnl_is_sum_of_trades (self : Backtester) (symbol : string) (df : list Bar) :
  (forall n, ExtraSpec.balanced self (run_bars self symbol df n))
  /\ (forall r,
         run_backtest self symbol (Ok df) = Some r ->
         final_balance r
         == bal_total (balances (init_state self))
            + ExtraSpec.realized (ExtraSpec.full_log self symbol df)
         /\ (~ ExtraSpec.weight_sum self == 0 ->
             total_pnl r == ExtraSpec.realized (ExtraSpec.full_log self symbol df))).
Proof.
  split; [apply run_bars_balanced|].
  intros r Hr.
  assert (Hf : final_balance r
               == bal_total (balances (init_state self))
                  + ExtraSpec.realized (ExtraSpec.full_log self symbol df)).
  { unfold run_backtest in Hr. destruct df as [|b df]; [discriminate|].
    unfold ExtraSpec.full_log, final_close.
    pose proof (run_bars_balanced self symbol (b :: df) (length (b :: df))) as Hb.
    pose proof (force_exit_account self (PyNum.nth_last 1 (closes (b :: df)))
                  (open_positions (run_bars self symbol (b :: df) (length (b :: df))))
                  (balances (run_bars self symbol (b :: df) (length (b :: df))))) as Ha.
    destruct (force_exit _ _ _ _) as [bal evs]. injection Hr as <-.
    cbn [final_balance fst snd] in *. unfold ExtraSpec.balanced in Hb.
    rewrite realized_app. lra. }
  split; [exact Hf|]. intros Hw.
  assert (Ht : total_pnl r == final_balance r - initial_balance self).
  { unfold run_backtest in Hr. destruct df as [|b df]; [discriminate|].
    destruct (force_exit _ _ _ _) as [bal evs]. injection Hr as <-. cbn. ring. }
  rewrite Ht, Hf.
  pose proof (weights_normalised self Hw) as Hn.
  assert (Hi : bal_total (balances (init_state self))
               == initial_balance self
                  * (strategy_weights self momentum + strategy_weights self ma)).
  { unfold bal_total. cbn. ring. }
  rewrite Hi, Hn. ring.
Qed.

Lemma pnl_is_sum_of_trades_witness :
  exists r,
    run_backtest ExitSpec.bt_default "BTCUSDT" (Ok ScanSpec.rally) = Some r
    /\ total_pnl r
       == ExtraSpec.realized (ExtraSpec.full_log ExitSpec.bt_default "BTCUSDT" ScanSpec.rally).
Proof.
  destruct (run_backtest ExitSpec.bt_default "BTCUSDT" (Ok ScanSpec.rally)) as [r|] eqn:Er;
    [|revert Er; vm_compute; discriminate].
  exists r. split; [reflexivity|].
  destruct (proj2 (pnl_is_sum_of_trades ExitSpec.bt_default "BTCUSDT"%string ScanSpec.rally)
                  r Er) as [_ H].
  apply H. vm_compute. discriminate.
Defined.

(** X18. The starting shares add up to the starting capital when the
    configured weights do not sum to zero; when they do, the weights are
    left as configured and the starting cash totals zero. *)
Theorem starting_shares (self : Backtester) :
  (~ ExtraSpec.weight_sum self == 0 ->
   strategy_weights self momentum + strategy_weights self ma == 1
   /\ bal_total (balances (init_state self)) == initial_balance self)
  /\ (ExtraSpec.weight_sum self == 0 ->
      strategy_weights self momentum == weight_momentum self
      /\ strategy_weights self ma == weight_ma self
      /\ bal_total (balances (init_state self)) == 0).
Proof.
  assert (Hi : bal_total (balances (init_state self))
               == initial_balance self
                  * (strategy_weights self momentum + strategy_weights self ma)).
  { unfold bal_total. cbn. ring. }
  split.
  - intros Hw. pose proof (weights_normalised self Hw) as Hn.
    split; [exact Hn|]. rewrite Hi, Hn. ring.
  - intros Hw.
    assert (Hm : strategy_weights self momentum == weight_momentum self
                 /\ strategy_weights self ma == weight_ma self).
    { unfold strategy_weights. fold (ExtraSpec.weight_sum self).
      apply eqb_true in Hw. rewrite Hw. split; field. }
    destruct Hm as [Hm Ha]. split; [exact Hm|]. split; [exact Ha|].
    rewrite Hi, Hm, Ha. unfold ExtraSpec.weight_sum in Hw.
    assert (He : weight_momentum self + weight_ma self == 0) by lra.
    rewrite He. ring.
Qed.

Lemma starting_shares_witness :
  bal_total (balances (init_state ExitSpec.bt_default)) == 1000.
Proof.
  destruct (starting_shares ExitSpec.bt_default) as [H _].
  destruct H as [_ H]; [vm_compute; discriminate | exact H].
Defined.

End BacktestAccounts.

Section BacktestCounts.

Import Backtest BacktestSpec.

Lemma exits_of_app (s : Strategy) (l1 l2 : list LogEvent) :
  ExtraSpec.exits_of s (l1 ++ l2)
  = (ExtraSpec.exits_of s l1 + ExtraSpec.exits_of s l2)%nat.
Proof.
  induction l1 as [|ev l1 IH]; [reflexivity|].
  destruct ev as [i s' r e p|i s' e q f|s' e p]; cbn [app ExtraSpec.exits_of];
    try destruct (strategy_eqb s' s); rewrite IH; reflexivity.
Qed.

Lemma held_app (s : Strategy) (l1 l2 : list Position) :
  ExtraSpec.held s (l1 ++ l2) = (ExtraSpec.held s l1 + ExtraSpec.held s l2)%nat.
Proof.
  induction l1 as [|p l1 IH]; [reflexivity|].
  cbn [app ExtraSpec.held]. destruct (strategy_eqb (strategy p) s); rewrite IH; reflexivity.
Qed.

Lemma exit_loop_count (self : Backtester) (i : nat) (px : Q) (ops : list Position)
      (s : Strategy) :
  forall bal,
    (ExtraSpec.exits_of s (snd (exit_loop self i px ops bal))
     + ExtraSpec.held s (snd (fst (exit_loop self i px ops bal))))%nat
    = ExtraSpec.held s ops.
Proof.
  induction ops as [|pos rest IH]; intros bal; [reflexivity|].
  cbn [exit_loop ExtraSpec.held].
  change (strategy (updated pos px)) with (strategy pos).
  destruct (exit_reason self (updated pos px) px).
  - case_exit_loop IH. cbn [fst snd ExtraSpec.exits_of] in *.
    destruct (strategy_eqb (strategy pos) s); lia.
  - specialize (IH bal). destruct (exit_loop self i px rest bal) as [[b k] e].
    cbn [fst snd ExtraSpec.held] in *.
    change (strategy (updated pos px)) with (strategy pos).
    destruct (strategy_eqb (strategy pos) s); lia.
Qed.

Lemma force_exit_count (self : Backtester) (last_px : Q) (ops : list Position)
      (s : Strategy) :
  forall bal,
    ExtraSpec.exits_of s (snd (force_exit self last_px ops bal)) = ExtraSpec.held s ops
    /\ entry_bars s (snd (force_exit self last_px ops bal)) = [].
Proof.
  intros bal. rewrite force_exit_log. clear bal.
  induction ops as [|p rest [IH1 IH2]]; [split; reflexivity|].
  cbn [map ExtraSpec.exits_of ExtraSpec.held entry_bars].
  split; [|exact IH2]. destruct (strategy_eqb (strategy p) s); lia.
Qed.

Lemma trades_of_incr (t : Trades) (s s' : Strategy) :
  ExtraSpec.trades_of (trades_incr t s') s
  = if strategy_eqb s' s then S (ExtraSpec.trades_of t s) else ExtraSpec.trades_of t s.
Proof. destruct s, s'; reflexivity. Qed.

Lemma run_bars_counted (self : Backtester) (symbol : string) (df : list Bar)
      (s : Strategy) (n : nat) :
  ExtraSpec.counted s (run_bars self symbol df n).
Proof.
  apply (run_bars_invariant self symbol df (ExtraSpec.counted s)).
  - split; [destruct s|]; reflexivity.
  - intros st i t px [H1 H2]. unfold ExtraSpec.counted, exit_phase.
    pose proof (exit_loop_count self i px (open_positions st) s (balances st)) as Hc.
    pose proof (exit_loop_no_entries self i px (open_positions st) s (balances st)) as He.
    destruct (exit_loop self i px (open_positions st) (balances st)) as [[b k] e].
    cbn [fst snd trades_count log open_positions] in *.
    rewrite entry_bars_app, exits_of_app, He, app_nil_r. split; [exact H1 | lia].
  - intros st i t px signal s' _ [H1 H2].
    destruct (try_enter_cases self symbol i t px signal s' st) as [-> | (_ & _ & E)];
      [split; assumption|].
    pose proof (do_enter_rest _ _ _ _ _ _ _ _ E) as (Ht & _).
    apply do_enter_entered in E.
    destruct E as (p & Hops & Hs & _ & _ & _ & _ & _ & _ & _ & _ & Hlog).
    unfold ExtraSpec.counted. rewrite Ht, Hops, Hlog, trades_of_incr.
    rewrite entry_bars_app, exits_of_app, held_app, !length_app.
    cbn [entry_bars ExtraSpec.exits_of ExtraSpec.held]. rewrite Hs.
    destruct (strategy_eqb s' s); cbn [length]; lia.
Qed.

(** X19. The trade counter of a strategy counts its logged entries, and
    every entry is matched by exactly one exit: after any bar the entries
    are the logged exits plus the positions still open, and in the summary
    of a run the counter equals the number of exits of the strategy in the
    whole log, forced ones included. *)
Theorem every_trade_is_closed (self : Backtester) (symbol : string) (df : list Bar)
        (s : Strategy) :
  (forall n, ExtraSpec.counted s (run_bars self symbol df n))
  /\ (forall r,
         run_backtest self symbol (Ok df) = Some r ->
         ExtraSpec.trades_of (trades r) s
         = length (entry_bars s (ExtraSpec.full_log self symbol df))
         /\ ExtraSpec.trades_of (trades r) s
            = ExtraSpec.exits_of s (ExtraSpec.full_log self symbol df)).
Proof.
  split; [intros n; apply run_bars_counted|].
  intros r Hr. unfold run_backtest in Hr. destruct df as [|b df]; [discriminate|].
  unfold ExtraSpec.full_log, final_close.
  destruct (run_bars_counted self symbol (b :: df) s (length (b :: df))) as [H1 H2].
  pose proof (force_exit_count self (PyNum.nth_last 1 (closes (b :: df)))
                (open_positions (run_bars self symbol (b :: df) (length (b :: df)))) s
                (balances (run_bars self symbol (b :: df) (length (b :: df)))))
    as [Hf1 Hf2].
  destruct (force_exit _ _ _ _) as [bal evs]. injection Hr as <-.
  cbn [trades fst snd] in *.
  rewrite entry_bars_app, exits_of_app, Hf2, app_nil_r, Hf1.
  split; [exact H1 | etransitivity; [exact H1 | exact H2]].
Qed.

Lemma every_trade_is_closed_witness :
  run_backtest ExitSpec.bt_default "BTCUSDT" (Ok ScanSpec.rally) <> None
  /\ ExtraSpec.exits_of momentum (ExtraSpec.full_log ExitSpec.bt_default "BTCUSDT" ScanSpec.rally)
     = 1%nat.
Proof.
  split; [vm_compute; discriminate|].
  destruct (run_backtest ExitSpec.bt_default "BTCUSDT" (Ok ScanSpec.rally)) as [r|] eqn:Er;
    [|revert Er; vm_compute; discriminate].
  destruct (every_trade_is_closed ExitSpec.bt_default "BTCUSDT"%string ScanSpec.rally momentum)
    as [_ H].
  destruct (H r Er) as [_ <-].
  revert Er. vm_compute. intros [= <-]. reflexivity.
Defined.

End BacktestCounts.

Section BacktestEntries.

Import Backtest BacktestSpec.



End BacktestEntries.

Section Signals.

(** X21. On the same bars the backtest and the live strategy manager see
    the same signals when the manager is set up like the backtest: the
    momentum signal for the backtester's window and threshold, and the
    moving-average signal for the windows 9 and 21 that the backtest
    hard-codes. *)
Theorem signals_agree (self : Backtest.Backtester) (sm : Strategies.StrategyManager)
        (df : list Bar) :
  ExtraSpec.same_settings self sm ->
  Strategies.signal_momentum sm df
  = Backtest._sig_momentum df (Backtest.entry_lookback_min self)
                           (Backtest.entry_change_pct self)
  /\ Strategies.signal_ma_cross sm df = Backtest._sig_ma df 9 21.
Proof.
  intros (Hl & Hc & Hs & Hm). split.
  - unfold Strategies.signal_momentum, Backtest._sig_momentum. now rewrite Hl, Hc.
  - unfold Strategies.signal_ma_cross, Backtest._sig_ma, Strategies.get_ma.
    rewrite Hs, Hm.
    destruct (length df <? 21)%nat eqn:E21.
    + destruct (length df <? 9)%nat; [reflexivity|].
      destruct (PyNum.last_n 9 (closes df)); reflexivity.
    + apply Nat.ltb_ge in E21.
      assert (E9 : (length df <? 9)%nat = false) by (apply Nat.ltb_ge; lia).
      rewrite E9.
      assert (Hlen : forall n, (0 < n <= length df)%nat -> PyNum.last_n n (closes df) <> []).
      { intros n Hn Hnil. apply (f_equal (@length Q)) in Hnil. revert Hnil.
        unfold PyNum.last_n. destruct n as [|n]; [lia|].
        rewrite length_skipn. unfold closes. rewrite length_map. cbn [length]. lia. }
      destruct (PyNum.last_n 9 (closes df)) eqn:L9; [exfalso; apply (Hlen 9%nat); [lia | exact L9]|].
      destruct (PyNum.last_n 21 (closes df)) eqn:L21;
        [exfalso; apply (Hlen 21%nat); [lia | exact L21]|].
      reflexivity.
Qed.

Lemma signals_agree_witness :
  Strategies.signal_momentum ScanSpec.sm_nofilter ScanSpec.rally = true
  /\ Backtest._sig_momentum ScanSpec.rally 15 3 = true.
Proof.
  destruct (signals_agree ExitSpec.bt_default ScanSpec.sm_nofilter ScanSpec.rally) as [H _].
  - repeat split.
  - split; [rewrite H; reflexivity | reflexivity].
Defined.

End Signals.

Section LiveOrders.

Import Strategies.

Lemma size_needs_balance (risk : Risk.RiskManager)
      (rounder : option (string -> Q -> py_result Q))
      (balance entry_price stop_price : Q) (symbol : option string) :
  0 < Risk.compute_position_size_by_risk risk rounder balance entry_price stop_price symbol ->
  0 < balance /\ 0 < entry_price.
Proof.
  unfold Risk.compute_position_size_by_risk.
  destruct (PyNum.leb balance 0) eqn:Eb; cbn [orb]; [intros H; exfalso; lra|].
  destruct (PyNum.leb entry_price 0) eqn:Ee; [intros H; exfalso; lra|].
  apply leb_false in Eb. apply leb_false in Ee. auto.
Qed.

Lemma live_try_enter_sized (risk : Risk.RiskManager) (poll : Poll)
      (snapshot : gmap string Portfolio.Position) (symbol strat : string)
      (signal : bool) (price : Q) (st : Portfolio.State)
      (sym' strat' : string) (q eq ep : Q) :
  In (Buy sym' strat' q eq ep)
     (snd (try_enter risk poll snapshot symbol strat signal price st)) ->
  sym' = symbol /\ strat' = strat /\ signal = true
  /\ q = Risk.compute_position_size_by_risk
           risk (rounder poll) (Portfolio.get_balance st strat) price
           (fst (Risk.compute_sl_tp_prices risk price None None)) (Some symbol)
  /\ 0 < q
  /\ (eq, ep) = buy_market poll symbol q.
Proof.
  unfold try_enter.
  destruct (has_open snapshot symbol strat); cbn [negb andb]; [contradiction|].
  destruct signal; [|contradiction].
  destruct (Risk.compute_sl_tp_prices risk price None None) as [sl tp]. cbn [fst].
  destruct (PyNum.gtb _ 0) eqn:Eq; [|contradiction]. apply gtb_true in Eq.
  destruct (buy_market poll symbol _) as [eq' ep'] eqn:Eb.
  destruct (PyNum.gtb eq' 0); cbn; intros [H|[]];
    injection H as <- <- <- <- <-; auto 10.
Qed.

Lemma scan_symbol_sized (self : StrategyManager) (risk : Risk.RiskManager) (poll : Poll)
      (snapshot : gmap string Portfolio.Position) (symbol : string)
      (st : Portfolio.State) (sym' strat' : string) (q eq ep : Q) :
  In (Buy sym' strat' q eq ep) (snd (scan_symbol self risk poll snapshot symbol st)) ->
  sym' = symbol
  /\ exists df,
      klines poll symbol = Ok df /\ df <> []
      /\ rsi_filter_buy self poll df = true /\ macd_filter_buy self poll df = true
      /\ ((strat' = STRAT_MOMENTUM /\ signal_momentum self df = true)
          \/ (strat' = STRAT_MA /\ signal_ma_cross self df = true))
      /\ q = Risk.compute_position_size_by_risk
               risk (rounder poll) (Portfolio.get_balance st strat')
               (PyNum.nth_last 1 (closes df))
               (fst (Risk.compute_sl_tp_prices risk (PyNum.nth_last 1 (closes df))
                                                None None))
               (Some symbol)
      /\ 0 < q
      /\ (eq, ep) = buy_market poll symbol q.
Proof.
  unfold scan_symbol. destruct (klines poll symbol) as [[|b df]|e] eqn:Ek.
  - contradiction.
  - set (bars := b :: df) in *.
    set (price := PyNum.nth_last 1 (closes bars)).
    set (filters := rsi_filter_buy self poll bars && macd_filter_buy self poll bars).
    pose proof (live_try_enter_sized risk poll snapshot symbol STRAT_MOMENTUM
                  (signal_momentum self bars && filters) price st sym' strat' q eq ep) as H1.
    pose proof (live_try_enter_store risk poll snapshot symbol STRAT_MOMENTUM
                  (signal_momentum self bars && filters) price st) as S1.
    destruct (try_enter risk poll snapshot symbol STRAT_MOMENTUM _ price st)
      as [[r1 st1] evs1].
    cbn [fst snd] in H1, S1. subst st1.
    pose proof (live_try_enter_sized risk poll snapshot symbol STRAT_MA
                  (signal_ma_cross self bars && filters) price st sym' strat' q eq ep) as H2.
    assert (Hfrom : In (Buy sym' strat' q eq ep) evs1
                    \/ In (Buy sym' strat' q eq ep)
                          (snd (try_enter risk poll snapshot symbol STRAT_MA
                                  (signal_ma_cross self bars && filters) price st)) ->
                    sym' = symbol
                    /\ exists df0,
                        Ok bars = Ok df0 /\ df0 <> []
                        /\ rsi_filter_buy self poll df0 = true
                        /\ macd_filter_buy self poll df0 = true
                        /\ ((strat' = STRAT_MOMENTUM /\ signal_momentum self df0 = true)
                            \/ (strat' = STRAT_MA /\ signal_ma_cross self df0 = true))
                        /\ q = Risk.compute_position_size_by_risk
                                 risk (rounder poll) (Portfolio.get_balance st strat')
                                 (PyNum.nth_last 1 (closes df0))
                                 (fst (Risk.compute_sl_tp_prices
                                         risk (PyNum.nth_last 1 (closes df0)) None None))
                                 (Some symbol)
                        /\ 0 < q
                        /\ (eq, ep) = buy_market poll symbol q).
    { intros [Hin|Hin].
      - destruct (H1 Hin) as (-> & -> & Hsig & Hq & Hpos & Hb).
        split; [reflexivity|]. exists bars.
        apply andb_true_iff in Hsig. destruct Hsig as [Hsig Hf].
        apply andb_true_iff in Hf. destruct Hf as [Hr Hm].
        split; [reflexivity|]. split; [discriminate|]. auto 10.
      - destruct (H2 Hin) as (-> & -> & Hsig & Hq & Hpos & Hb).
        split; [reflexivity|]. exists bars.
        apply andb_true_iff in Hsig. destruct Hsig as [Hsig Hf].
        apply andb_true_iff in Hf. destruct Hf as [Hr Hm].
        split; [reflexivity|]. split; [discriminate|]. auto 10. }
    assert (Hlog : forall x, In (Buy sym' strat' q eq ep) [Log symbol x] -> False).
    { intros x [H|[]]. discriminate H. }
    destruct r1 as [u|x].
    + destruct (try_enter risk poll snapshot symbol STRAT_MA _ price st)
        as [[r2 st2] evs2].
      cbn [snd] in Hfrom.
      destruct r2 as [u2|x]; cbn [snd]; intros Hin;
        repeat (apply in_app_or in Hin; destruct Hin as [Hin|Hin]);
        try (apply Hfrom; auto; fail);
        exfalso; eapply Hlog; eassumption.
    + cbn [snd]. intros Hin. apply in_app_or in Hin. destruct Hin as [Hin|Hin].
      * apply Hfrom. now left.
      * exfalso. eapply Hlog; eassumption.
  - cbn. intros [H|[]]. discriminate H.
Qed.

Lemma scan_universe_sized (self : StrategyManager) (risk : Risk.RiskManager) (poll : Poll)
      (snapshot : gmap string Portfolio.Position) (universe : list string)
      (st : Portfolio.State) (sym' strat' : string) (q eq ep : Q) :
  In (Buy sym' strat' q eq ep) (snd (scan_universe self risk poll snapshot universe st)) ->
  In sym' universe
  /\ In (Buy sym' strat' q eq ep) (snd (scan_symbol self risk poll snapshot sym' st)).
Proof.
  induction universe as [|symbol rest IH]; [contradiction|].
  cbn [scan_universe].
  pose proof (scan_symbol_sized self risk poll snapshot symbol st sym' strat' q eq ep) as H1.
  pose proof (scan_symbol_store self risk poll snapshot symbol st) as S1.
  destruct (scan_symbol self risk poll snapshot symbol st) as [st1 evs1] eqn:Es.
  cbn [fst snd] in H1, S1. subst st1.
  destruct (scan_universe self risk poll snapshot rest st) as [st2 evs2].
  cbn [snd] in *. intros Hin. apply in_app_or in Hin. destruct Hin as [Hin|Hin].
  - destruct (H1 Hin) as [-> _]. split; [now left|]. rewrite Es. exact Hin.
  - destruct (IH Hin) as [Hu Hs]. split; [now right | exact Hs].
Qed.

(** X22. Every buy order of a scan is for a symbol of the universe whose
    klines were served, on a strategy whose signal and both filters hold
    on those klines, and for the positive quantity that the risk manager
    computes from the strategy's balance at the latest close; that balance
    is positive.  So a scan of a store without balances, such as a fresh
    one, sends no buy order. *)
Theorem live_buy_is_sized :
  (forall (self : StrategyManager) (risk : Risk.RiskManager) (poll : Poll)
          (universe : list string) (st : Portfolio.State)
          (sym strat : string) (q eq ep : Q),
      In (Buy sym strat q eq ep) (snd (scan_and_trade self risk poll universe st)) ->
      In sym universe
      /\ 0 < Portfolio.get_balance st strat
      /\ exists df,
          klines poll sym = Ok df /\ df <> []
          /\ rsi_filter_buy self poll df = true /\ macd_filter_buy self poll df = true
          /\ ((strat = STRAT_MOMENTUM /\ signal_momentum self df = true)
              \/ (strat = STRAT_MA /\ signal_ma_cross self df = true))
          /\ q = Risk.compute_position_size_by_risk
                   risk (rounder poll) (Portfolio.get_balance st strat)
                   (PyNum.nth_last 1 (closes df))
                   (fst (Risk.compute_sl_tp_prices risk (PyNum.nth_last 1 (closes df))
                                                    None None))
                   (Some sym)
          /\ 0 < q
          /\ (eq, ep) = buy_market poll sym q)
  /\ (forall (self : StrategyManager) (risk : Risk.RiskManager) (poll : Poll)
             (universe : list string) (st : Portfolio.State) (ev : Event),
         Portfolio.balances st = ∅ ->
         In ev (snd (scan_and_trade self risk poll universe st)) ->
         ExtraSpec.is_any_buy ev = false).
Proof.
  assert (H : forall (self : StrategyManager) (risk : Risk.RiskManager) (poll : Poll)
          (universe : list string) (st : Portfolio.State)
          (sym strat : string) (q eq ep : Q),
      In (Buy sym strat q eq ep) (snd (scan_and_trade self risk poll universe st)) ->
      In sym universe
      /\ 0 < Portfolio.get_balance st strat
      /\ exists df,
          klines poll sym = Ok df /\ df <> []
          /\ rsi_filter_buy self poll df = true /\ macd_filter_buy self poll df = true
          /\ ((strat = STRAT_MOMENTUM /\ signal_momentum self df = true)
              \/ (strat = STRAT_MA /\ signal_ma_cross self df = true))
          /\ q = Risk.compute_position_size_by_risk
                   risk (rounder poll) (Portfolio.get_balance st strat)
                   (PyNum.nth_last 1 (closes df))
                   (fst (Risk.compute_sl_tp_prices risk (PyNum.nth_last 1 (closes df))
                                                    None None))
                   (Some sym)
          /\ 0 < q
          /\ (eq, ep) = buy_market poll sym q).
  { intros self risk poll universe st sym strat q eq ep.
    rewrite scan_and_trade_eq. cbn [snd]. intros Hin.
    apply scan_universe_sized in Hin. destruct Hin as [Hu Hin].
    apply scan_symbol_sized in Hin.
    destruct Hin as (_ & df & Hk & Hne & Hr & Hm & Hs & Hq & Hpos & Hb).
    split; [exact Hu|]. split.
    - rewrite Hq in Hpos. apply size_needs_balance in Hpos. apply Hpos.
    - exists df. auto 10. }
  split; [exact H|].
  intros self risk poll universe st ev Hbal Hin.
  destruct ev as [sym strat q eq ep| |]; try reflexivity. exfalso.
  destruct (H _ _ _ _ _ _ _ _ _ _ Hin) as (_ & Hpos & _).
  unfold Portfolio.get_balance in Hpos. rewrite Hbal, lookup_empty in Hpos.
  cbn in Hpos. lra.
Qed.

Lemma live_buy_is_sized_witness :
  In (Buy "BTCUSDT" "momentum" (485 # 1000) (485 # 1000) 103)
     (snd (scan_and_trade ScanSpec.sm_nofilter GuardSpec.guard0
                          (ScanSpec.poll_rally 1700000000) ["BTCUSDT"%string]
                          ScanSpec.st_funded))
  /\ 0 < Portfolio.get_balance ScanSpec.st_funded "momentum".
Proof.
  assert (Hin : In (Buy "BTCUSDT" "momentum" (485 # 1000) (485 # 1000) 103)
                   (snd (scan_and_trade ScanSpec.sm_nofilter GuardSpec.guard0
                                        (ScanSpec.poll_rally 1700000000)
                                        ["BTCUSDT"%string] ScanSpec.st_funded))).
  { vm_compute. left. reflexivity. }
  split; [exact Hin|].
  exact (proj1 (proj2 (proj1 live_buy_is_sized _ _ _ _ _ _ _ _ _ _ Hin))).
Defined.

End LiveOrders.

Section Universe.

Import Filters.

Lemma cut_length (max_symbols : Z) (symbols : list string) :
  (0 < max_symbols)%Z -> (length (cut max_symbols symbols) <= Z.to_nat max_symbols)%nat.
Proof.
  intros H. unfold cut. apply Z.ltb_lt in H. rewrite H. rewrite length_firstn. lia.
Qed.

Lemma cut_nonempty (max_symbols : Z) (symbols : list string) :
  symbols <> [] -> cut max_symbols symbols <> [].
Proof.
  intros Hne. unfold cut. destruct (0 <? max_symbols)%Z eqn:E; [|exact Hne].
  apply Z.ltb_lt in E. destruct symbols as [|s rest]; [contradiction|].
  destruct (Z.to_nat max_symbols) eqn:En; [lia|]. discriminate.
Qed.

Lemma cut_incl (max_symbols : Z) (symbols : list string) (s : string) :
  In s (cut max_symbols symbols) -> In s symbols.
Proof.
  unfold cut. destruct (0 <? max_symbols)%Z; [|auto]. intros H.
  rewrite <- (firstn_skipn (Z.to_nat max_symbols) symbols). apply in_or_app. now left.
Qed.

Lemma select_liquid (quote_asset : string) (min_qv_24h : Q) (tickers : list Ticker) :
  forall symbols s,
    select quote_asset min_qv_24h tickers = Some symbols ->
    In s symbols ->
    exists t, In t tickers /\ t_symbol t = s /\ ExtraSpec.liquid quote_asset min_qv_24h t.
Proof.
  induction tickers as [|t rest IH]; intros symbols s; cbn [select].
  - intros [= <-] [].
  - assert (Hrest : forall l, select quote_asset min_qv_24h rest = Some l -> In s l ->
                      exists t0, In t0 (t :: rest) /\ t_symbol t0 = s
                                 /\ ExtraSpec.liquid quote_asset min_qv_24h t0).
    { intros l Hl Hin. destruct (IH l s Hl Hin) as (t0 & H0 & H1).
      exists t0. split; [now right | exact H1]. }
    destruct (endswith (t_symbol t) quote_asset) eqn:Ee; cbn [negb]; [|apply Hrest].
    assert (Hkeep :
               match quoteVolume t with
               | Volume v => min_qv_24h <= v
               | NoVolume => min_qv_24h <= 0
               | BadVolume => False
               end ->
               option_map (cons (t_symbol t)) (select quote_asset min_qv_24h rest)
               = Some symbols ->
               In s symbols ->
               exists t0, In t0 (t :: rest) /\ t_symbol t0 = s
                          /\ ExtraSpec.liquid quote_asset min_qv_24h t0).
    { intros Hv Hsel Hin.
      destruct (select quote_asset min_qv_24h rest) as [l|] eqn:El; [|discriminate].
      injection Hsel as <-. destruct Hin as [<-|Hin]; [|now apply (Hrest l)].
      exists t. split; [now left|]. split; [reflexivity|]. split; assumption. }
    destruct (quoteVolume t) as [|v|] eqn:Ev; [| |discriminate].
    + destruct (PyNum.ltb 0 min_qv_24h) eqn:El; [apply Hrest|].
      apply ltb_false in El. now apply Hkeep.
    + destruct (PyNum.ltb v min_qv_24h) eqn:El; [apply Hrest|].
      apply ltb_false in El. now apply Hkeep.
Qed.

(** X23. The universe is never empty.  With a positive
    [max_symbols_per_scan] it has at most that many symbols unless it is
    the two-symbol fallback, which is not cut.  When no list is configured
    and the ticker request succeeds, it is the fallback or every symbol in
    it comes from a ticker that ends in the quote asset and whose 24h
    quote volume reaches the minimum. *)
Theorem fetch_universe_never_empty (normalize : string -> string)
        (explicit : option (list string)) (max_symbols : Z) (quote_asset : string)
        (min_qv_24h : Q) (tickers : py_result (list Ticker)) :
  let universe :=
    fetch_universe normalize explicit max_symbols quote_asset min_qv_24h tickers in
  universe <> []
  /\ ((0 < max_symbols)%Z ->
      (length universe <= Z.to_nat max_symbols)%nat \/ universe = fallback)
  /\ (forall tk,
         explicit = None \/ explicit = Some [] ->
         tickers = Ok tk ->
         universe = fallback
         \/ forall s, In s universe ->
                      exists t, In t tk /\ t_symbol t = s
                                /\ ExtraSpec.liquid quote_asset min_qv_24h t).
Proof.
  cbn zeta.
  assert (Hticker :
            let u := match tickers with
                     | Raise _ => fallback
                     | Ok tickers =>
                         match select quote_asset min_qv_24h tickers with
                         | None => fallback
                         | Some symbols =>
                             match cut max_symbols symbols with
                             | [] => fallback
                             | symbols => symbols
                             end
                         end
                     end in
            u <> []
            /\ ((0 < max_symbols)%Z ->
                (length u <= Z.to_nat max_symbols)%nat \/ u = fallback)
            /\ (forall tk, tickers = Ok tk ->
                   u = fallback
                   \/ forall s, In s u ->
                                exists t, In t tk /\ t_symbol t = s
                                          /\ ExtraSpec.liquid quote_asset min_qv_24h t)).
  { cbn zeta. destruct tickers as [tk|e].
    - destruct (select quote_asset min_qv_24h tk) as [symbols|] eqn:Es.
      + destruct (cut max_symbols symbols) as [|s0 rest] eqn:Ec.
        * split; [discriminate|]. split; [now right | now left].
        * split; [discriminate|]. split.
          -- intros Hm. left. rewrite <- Ec. now apply cut_length.
          -- intros tk0 [= <-]. right. intros s Hin. rewrite <- Ec in Hin.
             apply cut_incl in Hin. now apply (select_liquid _ _ _ symbols).
      + split; [discriminate|]. split; [now right | now left].
    - split; [discriminate|]. split; [now right|]. discriminate. }
  destruct Hticker as (Hne & Hlen & Hliq).
  unfold fetch_universe. destruct explicit as [[|s0 rest]|].
  - split; [exact Hne|]. split; [exact Hlen|]. intros tk _. apply Hliq.
  - split; [apply cut_nonempty; discriminate|]. split.
    + intros Hm. left. now apply cut_length.
    + intros tk [H|H]; discriminate H.
  - split; [exact Hne|]. split; [exact Hlen|]. intros tk _. apply Hliq.
Qed.

Lemma fetch_universe_never_empty_witness :
  fetch_universe (fun s => s) None 50 "USDT" 1000000 (Ok ExtraSpec.tickers3)
  = ["BTCUSDT"%string]
  /\ exists t, In t ExtraSpec.tickers3 /\ t_symbol t = "BTCUSDT"%string
               /\ ExtraSpec.liquid "USDT" 1000000 t.
Proof.
  split; [reflexivity|].
  destruct (fetch_universe_never_empty (fun s => s) None 50 "USDT" 1000000
              (Ok ExtraSpec.tickers3)) as (_ & _ & H).
  destruct (H ExtraSpec.tickers3 (or_introl eq_refl) eq_refl) as [H0 | H0].
  - exfalso. revert H0. vm_compute. discriminate.
  - apply H0. vm_compute. left. reflexivity.
Defined.

End Universe.

Section Report.

Lemma omap_served (self : Backtest.Backtester) (klines : string -> py_result (list Bar))
      (universe : list string) :
  length (omap (fun sym => Backtest.run_backtest self sym (klines sym)) universe)
  = length (List.filter (ExtraSpec.served klines) universe).
Proof.
  induction universe as [|sym rest IH]; [reflexivity|].
  cbn [List.filter]. unfold ExtraSpec.served at 1.
  change (length (match Backtest.run_backtest self sym (klines sym) with
                  | Some y =>
                      y :: omap (fun sym => Backtest.run_backtest self sym (klines sym)) rest
                  | None => omap (fun sym => Backtest.run_backtest self sym (klines sym)) rest
                  end)
          = length (if match klines sym with Ok (_ :: _) => true | _ => false end
                    then sym :: List.filter (ExtraSpec.served klines) rest
                    else List.filter (ExtraSpec.served klines) rest)).
  destruct (klines sym) as [[|b df]|e]; cbn [Backtest.run_backtest]; try exact IH.
  destruct (Backtest.force_exit _ _ _ _). cbn [length]. now rewrite IH.
Qed.

Lemma filter_length_le {A} (f : A -> bool) (l : list A) :
  (length (List.filter f l) <= length l)%nat.
Proof.
  induction l as [|a l IH]; [reflexivity|]. cbn [List.filter].
  destruct (f a); cbn [length]; lia.
Qed.

Lemma filter_length_eq {A} (f : A -> bool) (l : list A) :
  length (List.filter f l) = length l <-> forall x, In x l -> f x = true.
Proof.
  induction l as [|a l IH]; cbn [List.filter length]; [split; [intros _ x []|reflexivity]|].
  destruct (f a) eqn:Ea; cbn [length].
  - split.
    + intros H x [<-|Hin]; [exact Ea|]. apply IH; [lia | exact Hin].
    + intros H. f_equal. apply IH. intros x Hin. apply H. now right.
  - split.
    + intros H. pose proof (filter_length_le f l). lia.
    + intros H. specialize (H a (or_introl eq_refl)). congruence.
Qed.

(** X24. The closing report of the backtest mode counts exactly the
    symbols of the universe for which the exchange served a non-empty
    frame: a symbol whose klines failed or were empty contributes no
    summary.  The number of symbols with a positive pnl is at most that
    count, which is at most the size of the universe, and the two are
    equal exactly when every summary has a pnl above zero. *)
Theorem backtest_report_counts (self : Backtest.Backtester) (universe : list string)
        (klines : string -> py_result (list Bar)) :
  universe <> [] ->
  let '(results, total, wins) := Main.run_backtest self universe klines in
  total = length results
  /\ total = length (List.filter (ExtraSpec.served klines) universe)
  /\ (wins <= total <= length universe)%nat
  /\ (wins = total <-> forall r, In r results -> 0 < Backtest.total_pnl r).
Proof.
  intros Hne. unfold Main.run_backtest.
  destruct universe as [|sym rest]; [contradiction|].
  split; [reflexivity|]. split; [apply omap_served|]. split; [split|].
  - apply filter_length_le.
  - rewrite omap_served. apply filter_length_le.
  - rewrite filter_length_eq. split; intros H r Hin.
    + apply gtb_true. now apply H.
    + apply gtb_true. now apply H.
Qed.

Lemma backtest_report_counts_witness :
  snd (fst (Main.run_backtest ExitSpec.bt_default ["BTCUSDT"%string; "ETHUSDT"%string]
              (fun sym => if String.eqb sym "BTCUSDT" then Ok ScanSpec.rally
                          else Raise NetworkError)))
  = 1%nat.
Proof.
  pose proof (backtest_report_counts ExitSpec.bt_default
                ["BTCUSDT"%string; "ETHUSDT"%string]
                (fun sym => if String.eqb sym "BTCUSDT" then Ok ScanSpec.rally
                            else Raise NetworkError)) as H.
  destruct (Main.run_backtest _ _ _) as [[results total] wins].
  destruct H as (_ & H & _); [discriminate|]. cbn [fst snd]. rewrite H. reflexivity.
Defined.

End Report.

Section BacktestOutcomes.

Import Backtest BacktestSpec.

Lemma exit_loop_logged (self : Backtester) (i : nat) (px : Q) (ops : list Position) :
  forall bal ev,
    In ev (snd (exit_loop self i px ops bal)) ->
    exists pos r,
      In pos ops
      /\ exit_reason self (updated pos px) px = Some r
      /\ ev = EXIT i (strategy pos) r px (realized_pnl self (updated pos px) px).
Proof.
  induction ops as [|p0 rest IH]; intros bal ev; cbn [exit_loop]; [contradiction|].
  destruct (exit_reason self (updated p0 px) px) as [r|] eqn:E.
  - match goal with
    | |- context [exit_loop self i px rest ?b0] => specialize (IH b0 ev)
    end.
    destruct (exit_loop self i px rest _) as [[b k] e]. cbn [snd] in *.
    intros [<- | Hin].
    + exists p0, r. split; [now left|]. split; [exact E | reflexivity].
    + destruct (IH Hin) as (pos & r' & H1 & H2 & H3).
      exists pos, r'. split; [now right|]. split; assumption.
  - specialize (IH bal ev). destruct (exit_loop self i px rest bal) as [[b k] e].
    cbn [snd] in *. intros Hin.
    destruct (IH Hin) as (pos & r' & H1 & H2 & H3).
    exists pos, r'. split; [now right|]. split; assumption.
Qed.

Lemma realized_pnl_eq (self : Backtester) (p : Position) (px : Q) :
  ExtraSpec.well_formed self p ->
  realized_pnl self p px
  == px * (qty p * (1 - taker_fee_pct self))
     - entry_price p * qty p * (1 + taker_fee_pct self).
Proof.
  intros (_ & _ & _ & _ & Hf & _). unfold realized_pnl, net_proceeds. rewrite Hf. ring.
Qed.

Lemma sl_exit_loses (self : Backtester) (p : Position) (px : Q) :
  ExtraSpec.well_formed self p -> sane_fee self -> 0 < stop_loss_pct self ->
  exit_reason self p px = Some SL ->
  realized_pnl self p px < 0.
Proof.
  intros Hwf [Hf0 Hf1] Hsl Hr. rewrite (realized_pnl_eq self p px Hwf).
  destruct Hwf as (He & Hq & _ & Hs & _).
  assert (Hpx : px <= sl_price p).
  { revert Hr. unfold exit_reason. destruct (PyNum.geb px (tp_price p)); [discriminate|].
    destruct (PyNum.leb px (sl_price p)) eqn:El; [intros _; now apply leb_true in El|].
    destruct (PyNum.leb px (highest p * (1 - trailing_stop_pct self)));
      intros H; discriminate H. }
  rewrite Hs in Hpx.
  set (e := entry_price p) in *. set (q := qty p) in *.
  set (f := taker_fee_pct self) in *. set (sl := stop_loss_pct self) in *.
  assert (HA : 0 <= q * (1 - f)) by (apply Qmult_le_0_compat; lra).
  assert (H1 : px * (q * (1 - f)) <= e * (1 - sl) * (q * (1 - f)))
    by (apply Qmult_le_compat_r; assumption).
  assert (Heq : 0 < e * q) by (apply Qmult_lt_0_compat; assumption).
  assert (HK : 0 < sl * (1 - f) + 2 * f).
  { assert (0 <= sl * (1 - f)) by (apply Qmult_le_0_compat; lra).
    destruct (Qlt_le_dec 0 f) as [Hpos | Hz]; [lra|].
    assert (0 < sl * (1 - f)) by (apply Qmult_lt_0_compat; lra). lra. }
  assert (H2 : 0 < e * q * (sl * (1 - f) + 2 * f)) by (apply Qmult_lt_0_compat; assumption).
  assert (H3 : e * (1 - sl) * (q * (1 - f)) - e * q * (1 + f)
               == - (e * q * (sl * (1 - f) + 2 * f))) by ring.
  lra.
Qed.

Lemma tp_exit_gains (self : Backtester) (p : Position) (px : Q) :
  ExtraSpec.well_formed self p -> sane_fee self -> ExtraSpec.target_covers_fees self ->
  exit_reason self p px = Some TP ->
  0 < realized_pnl self p px.
Proof.
  intros Hwf [Hf0 Hf1] Hc Hr. rewrite (realized_pnl_eq self p px Hwf).
  destruct Hwf as (He & Hq & Ht & _).
  assert (Hpx : tp_price p <= px).
  { revert Hr. unfold exit_reason. destruct (PyNum.geb px (tp_price p)) eqn:Eg;
      [intros _; now apply geb_true in Eg|].
    destruct (PyNum.leb px (sl_price p)); [discriminate|].
    destruct (PyNum.leb px (highest p * (1 - trailing_stop_pct self)));
      intros H; discriminate H. }
  rewrite Ht in Hpx. unfold ExtraSpec.target_covers_fees in Hc.
  set (e := entry_price p) in *. set (q := qty p) in *.
  set (f := taker_fee_pct self) in *. set (tp := take_profit_pct self) in *.
  assert (HA : 0 <= q * (1 - f)) by (apply Qmult_le_0_compat; lra).
  assert (H1 : e * (1 + tp) * (q * (1 - f)) <= px * (q * (1 - f)))
    by (apply Qmult_le_compat_r; assumption).
  assert (Heq : 0 < e * q) by (apply Qmult_lt_0_compat; assumption).
  assert (H2 : 0 < e * q * ((1 + tp) * (1 - f) - (1 + f)))
    by (apply Qmult_lt_0_compat; [assumption | lra]).
  assert (H3 : e * (1 + tp) * (q * (1 - f)) - e * q * (1 + f)
               == e * q * ((1 + tp) * (1 - f) - (1 + f))) by ring.
  lra.
Qed.

Lemma run_bars_signed (self : Backtester) (symbol : string) (df : list Bar) (n : nat) :
  0 <= slippage_pct self -> sane_fee self -> 0 < stop_loss_pct self ->
  Forall (ExtraSpec.well_formed self) (open_positions (run_bars self symbol df n))
  /\ ExtraSpec.signed_exits (ExtraSpec.target_covers_fees self)
                            (log (run_bars self symbol df n)).
Proof.
  intros Hslip Hfee Hsl.
  apply (run_bars_invariant self symbol df
           (fun st => Forall (ExtraSpec.well_formed self) (open_positions st)
                      /\ ExtraSpec.signed_exits (ExtraSpec.target_covers_fees self)
                                                (log st))).
  - split; [constructor|]. intros i s r px pnl [].
  - intros st i t px [Hwf Hlog]. split.
    + apply Forall_forall. intros p Hp.
      apply list_elem_of_In in Hp. apply exit_phase_positions in Hp.
      destruct Hp as (p0 & Hp0 & ->). apply updated_well_formed.
      apply (proj1 (Forall_forall _ _) Hwf). now apply list_elem_of_In.
    + unfold exit_phase.
      pose proof (exit_loop_logged self i px (open_positions st) (balances st)) as Hl.
      destruct (exit_loop self i px (open_positions st) (balances st)) as [[b k] e].
      cbn [snd log] in *. intros i' s r px' pnl Hin.
      apply in_app_or in Hin. destruct Hin as [Hin | Hin]; [now apply (Hlog i' s r px')|].
      destruct (Hl _ Hin) as (pos & r' & Hpos & Hr & Hev). injection Hev as -> -> -> -> ->.
      assert (Hw : ExtraSpec.well_formed self (updated pos px)).
      { apply updated_well_formed.
        apply (proj1 (Forall_forall _ _) Hwf). now apply list_elem_of_In. }
      destruct r'; [intros Hc; now apply tp_exit_gains | now apply sl_exit_loses | exact I].
  - intros st i t px signal s Hpx [Hwf Hlog]. split; [now apply try_enter_well_formed|].
    destruct (try_enter_cases self symbol i t px signal s st) as [-> | (_ & _ & E)];
      [exact Hlog|].
    apply do_enter_entered in E.
    destruct E as (p & _ & _ & _ & _ & _ & _ & _ & _ & _ & _ & Hl).
    rewrite Hl. intros i' s' r px' pnl Hin. apply in_app_or in Hin.
    destruct Hin as [Hin | [Hin | []]]; [now apply (Hlog i' s' r px') | discriminate Hin].
Qed.

(** X25. With a slippage that is not negative, a fee between 0 and 1 and
    a positive stop-loss percentage, every stop-loss exit that a backtest
    logs realises a loss; and when the take-profit percentage covers the
    fee of both legs, every take-profit exit it logs realises a gain. *)
Theorem exit_pnl_sign (self : Backtester) (symbol : string) (df : list Bar) (n : nat) :
  0 <= slippage_pct self -> sane_fee self -> 0 < stop_loss_pct self ->
  ExtraSpec.signed_exits (ExtraSpec.target_covers_fees self)
                         (log (run_bars self symbol df n)).
Proof. intros H1 H2 H3. now apply run_bars_signed. Qed.

Lemma exit_pnl_sign_witness :
  ExtraSpec.realized (log (run_bars ExitSpec.bt_default "BTCUSDT" ScanSpec.dip 17)) < 0.
Proof.
  assert (Hin : In (EXIT 16 momentum SL 100
                         (ExtraSpec.realized
                            (log (run_bars ExitSpec.bt_default "BTCUSDT" ScanSpec.dip 17))))
                   (log (run_bars ExitSpec.bt_default "BTCUSDT" ScanSpec.dip 17))).
  { vm_compute. right. left. reflexivity. }
  exact (exit_pnl_sign ExitSpec.bt_default "BTCUSDT"%string ScanSpec.dip 17
                       ltac:(discriminate) ltac:(split; discriminate) ltac:(reflexivity)
                       16%nat momentum SL 100 _ Hin).
Defined.

End BacktestOutcomes.
